(** * vtkMRMLCrosshairDisplayableManager

    A shallow embedding of
    [Libs/MRMLDisplayableManager/vtkMRMLCrosshairDisplayableManager.cxx]
    and the properties of its change detection, glyph construction,
    binding resolution and event handling.

    Conventions of the embedding:
    - C++ [double] is Rocq's primitive binary64 [float]; [int] screen
      coordinates are [Z] (the values handled here stay far from the
      limits of a 32-bit [int]);
    - an object pointer is an address [ptr]; a null pointer, and a
      [vtkWeakPointer] that holds nothing, is [None];
    - the MRML scene, the nodes it owns, the slice node, the render
      window, matrix inversion and the light box proxy are collected in an
      environment [Env] that the manager only reads;
    - what the manager owns or mutates (the members of [vtkInternal], the
      observers it registers, the props it puts into renderers) is the
      [State], threaded explicitly; the VTK calls that change it
      ([AddObserver], [RemoveObserver], [AddActor], [RemoveActor]) are
      written out with the behaviour VTK documents for them, and every
      such call is logged in the state's [Trace];
    - a member function returns an [outcome]: a normal return, a failed
      [assert], or undefined behaviour (a null dereference). Assertions
      are taken as compiled in. *)

From Stdlib Require Import Floats ZArith List String Bool Lia PeanoNat.
Import ListNotations.
Set Warnings "-inexact-float".

Open Scope Z_scope.

(** ** Outcomes *)

Inductive outcome (A : Type) : Type :=
| Return (a : A)
| AssertionFailed
| Undefined.

Arguments Return {A} a.
Arguments AssertionFailed {A}.
Arguments Undefined {A}.

Definition bind {A B : Type} (c : outcome A) (k : A -> outcome B) : outcome B :=
  match c with
  | Return a => k a
  | AssertionFailed => AssertionFailed
  | Undefined => Undefined
  end.

Notation "x <- c ;; k" := (bind c (fun x => k))
  (at level 61, c at next level, right associativity).

(** ** Data model *)

Definition ptr : Type := nat.

(** The enumerations of [vtkMRMLCrosshairNode]. The members of
    [vtkInternal] read them as [int]s; the values the code never names
    (they reach the [default] label of the [switch], or none of the
    thickness tests) are kept apart under [OtherMode]/[OtherThickness]. *)
Module Crosshair.

Inductive Mode : Type :=
| NoCrosshair
| ShowBasic
| ShowIntersection
| ShowSmallBasic
| ShowSmallIntersection
| OtherMode (code : Z).

Inductive Thickness : Type :=
| Fine
| Medium
| Thick
| OtherThickness (code : Z).

Definition Mode_eq_dec (a b : Mode) : {a = b} + {a <> b}.
Proof. decide equality. apply Z.eq_dec. Defined.

Definition Thickness_eq_dec (a b : Thickness) : {a = b} + {a <> b}.
Proof. decide equality. apply Z.eq_dec. Defined.

(** [a == b] and [a != b] on the enumerations. *)
Definition Mode_eqb (a b : Mode) : bool :=
  if Mode_eq_dec a b then true else false.

Definition Mode_neb (a b : Mode) : bool := negb (Mode_eqb a b).

Definition Thickness_eqb (a b : Thickness) : bool :=
  if Thickness_eq_dec a b then true else false.

Definition Thickness_neb (a b : Thickness) : bool := negb (Thickness_eqb a b).

End Crosshair.

(** The attributes of a crosshair node this file reads. The name is a C
    string and is null as long as the node has not been given one. *)
Record vtkMRMLCrosshairNode : Type := {
  CrosshairName : option string;
  CrosshairRAS : float * float * float;
  CrosshairMode : Crosshair.Mode;
  CrosshairThickness : Crosshair.Thickness
}.

(** A node of the scene, by what [SafeDownCast] makes of it. The layout
    name of a slice composite node may be a null string. *)
Inductive vtkMRMLNode : Type :=
| AsSliceCompositeNode (LayoutName : option string)
| AsCrosshairNode (c : vtkMRMLCrosshairNode)
| AsOtherNode.

Record vtkMRMLScene : Type := {
  SceneAddress : ptr;
  IsUpdating : bool;
  CurrentScene : list ptr
}.

Definition vec4 : Type := (float * float * float * float)%type.
Definition vtkMatrix4x4 : Type := (vec4 * vec4 * vec4 * vec4)%type.

Record vtkMRMLSliceNode : Type := {
  LayoutName : option string;
  XYToRAS : vtkMatrix4x4
}.

Inductive Event : Type :=
| ModifiedEvent
| SceneImportedEvent
| SceneRestoredEvent
| MouseMoveEvent
| OtherEvent (id : nat).

(** What the manager reads from its surroundings. [Invert] is
    [vtkMatrix4x4::Invert] and [GetRenderer] is
    [vtkMRMLLightBoxRendererManagerProxy::GetRenderer] of the proxy at the
    given address; both belong to other libraries and are taken as they
    come. *)
Record Env : Type := {
  MRMLScene : option vtkMRMLScene;
  Nodes : ptr -> option vtkMRMLNode;
  MRMLSliceNode : option vtkMRMLSliceNode;
  ScreenSize : option (Z * Z);
  Invert : vtkMatrix4x4 -> vtkMatrix4x4;
  GetRenderer : ptr -> float -> option ptr
}.

Definition Point : Type := (Z * Z * Z)%type.

(** The 2D actor with its mapper's poly data and its [vtkProperty2D]. *)
Record vtkActor2D : Type := {
  ActorAddress : ptr;
  Points : list Point;
  Lines : list (list nat);
  LineWidth : float;
  Color : float * float * float;
  Opacity : float;
  Visibility : bool;
  Position : float * float
}.

(** Calls made to the collaborators, in the order they happen. *)
Inductive Effect : Type :=
| CallBuildCrosshair (actor : ptr)
| CallSetPosition (x y : float)
| CallGetRenderer (proxy : ptr) (depth : float)
| CallRemoveActor (renderer actor : ptr)
| CallAddActor (renderer actor : ptr)
| CallCacheCopy
| CallRequestRender.

(** The members of [vtkInternal], followed by the state the manager
    changes outside of it: the subjects its callback command observes (one
    entry per [AddObserver]), the props held by the renderers, the next
    free address for a [vtkNew] actor, the interactor style events it asked
    to watch, and the log of effects. *)
Record State : Type := {
  SliceCompositeNode : option ptr;
  CrosshairNode : option ptr;
  Actor : option vtkActor2D;
  HighlightActor : option vtkActor2D;
  CrosshairNodeCache : vtkMRMLCrosshairNode;
  LightBoxRenderer : option ptr;
  LightBoxRendererManagerProxy : option ptr;
  Observers : list ptr;
  Attached : list (ptr * ptr);
  NextActor : ptr;
  InteractorStyleObservableEvents : list Event;
  Trace : list Effect
}.

Definition set_SliceCompositeNode (v : option ptr) (st : State) : State :=
  {| SliceCompositeNode := v; CrosshairNode := CrosshairNode st;
     Actor := Actor st; HighlightActor := HighlightActor st;
     CrosshairNodeCache := CrosshairNodeCache st;
     LightBoxRenderer := LightBoxRenderer st;
     LightBoxRendererManagerProxy := LightBoxRendererManagerProxy st;
     Observers := Observers st; Attached := Attached st;
     NextActor := NextActor st;
     InteractorStyleObservableEvents := InteractorStyleObservableEvents st;
     Trace := Trace st |}.

Definition set_CrosshairNode (v : option ptr) (st : State) : State :=
  {| SliceCompositeNode := SliceCompositeNode st; CrosshairNode := v;
     Actor := Actor st; HighlightActor := HighlightActor st;
     CrosshairNodeCache := CrosshairNodeCache st;
     LightBoxRenderer := LightBoxRenderer st;
     LightBoxRendererManagerProxy := LightBoxRendererManagerProxy st;
     Observers := Observers st; Attached := Attached st;
     NextActor := NextActor st;
     InteractorStyleObservableEvents := InteractorStyleObservableEvents st;
     Trace := Trace st |}.

Definition set_Actor (v : option vtkActor2D) (st : State) : State :=
  {| SliceCompositeNode := SliceCompositeNode st;
     CrosshairNode := CrosshairNode st;
     Actor := v; HighlightActor := HighlightActor st;
     CrosshairNodeCache := CrosshairNodeCache st;
     LightBoxRenderer := LightBoxRenderer st;
     LightBoxRendererManagerProxy := LightBoxRendererManagerProxy st;
     Observers := Observers st; Attached := Attached st;
     NextActor := NextActor st;
     InteractorStyleObservableEvents := InteractorStyleObservableEvents st;
     Trace := Trace st |}.

Definition set_CrosshairNodeCache (v : vtkMRMLCrosshairNode) (st : State) : State :=
  {| SliceCompositeNode := SliceCompositeNode st;
     CrosshairNode := CrosshairNode st;
     Actor := Actor st; HighlightActor := HighlightActor st;
     CrosshairNodeCache := v;
     LightBoxRenderer := LightBoxRenderer st;
     LightBoxRendererManagerProxy := LightBoxRendererManagerProxy st;
     Observers := Observers st; Attached := Attached st;
     NextActor := NextActor st;
     InteractorStyleObservableEvents := InteractorStyleObservableEvents st;
     Trace := Trace st |}.

Definition set_LightBoxRenderer (v : option ptr) (st : State) : State :=
  {| SliceCompositeNode := SliceCompositeNode st;
     CrosshairNode := CrosshairNode st;
     Actor := Actor st; HighlightActor := HighlightActor st;
     CrosshairNodeCache := CrosshairNodeCache st;
     LightBoxRenderer := v;
     LightBoxRendererManagerProxy := LightBoxRendererManagerProxy st;
     Observers := Observers st; Attached := Attached st;
     NextActor := NextActor st;
     InteractorStyleObservableEvents := InteractorStyleObservableEvents st;
     Trace := Trace st |}.

Definition set_LightBoxRendererManagerProxy (v : option ptr) (st : State) : State :=
  {| SliceCompositeNode := SliceCompositeNode st;
     CrosshairNode := CrosshairNode st;
     Actor := Actor st; HighlightActor := HighlightActor st;
     CrosshairNodeCache := CrosshairNodeCache st;
     LightBoxRenderer := LightBoxRenderer st;
     LightBoxRendererManagerProxy := v;
     Observers := Observers st; Attached := Attached st;
     NextActor := NextActor st;
     InteractorStyleObservableEvents := InteractorStyleObservableEvents st;
     Trace := Trace st |}.

Definition set_Observers (v : list ptr) (st : State) : State :=
  {| SliceCompositeNode := SliceCompositeNode st;
     CrosshairNode := CrosshairNode st;
     Actor := Actor st; HighlightActor := HighlightActor st;
     CrosshairNodeCache := CrosshairNodeCache st;
     LightBoxRenderer := LightBoxRenderer st;
     LightBoxRendererManagerProxy := LightBoxRendererManagerProxy st;
     Observers := v; Attached := Attached st;
     NextActor := NextActor st;
     InteractorStyleObservableEvents := InteractorStyleObservableEvents st;
     Trace := Trace st |}.

Definition set_Attached (v : list (ptr * ptr)) (st : State) : State :=
  {| SliceCompositeNode := SliceCompositeNode st;
     CrosshairNode := CrosshairNode st;
     Actor := Actor st; HighlightActor := HighlightActor st;
     CrosshairNodeCache := CrosshairNodeCache st;
     LightBoxRenderer := LightBoxRenderer st;
     LightBoxRendererManagerProxy := LightBoxRendererManagerProxy st;
     Observers := Observers st; Attached := v;
     NextActor := NextActor st;
     InteractorStyleObservableEvents := InteractorStyleObservableEvents st;
     Trace := Trace st |}.

Definition set_NextActor (v : ptr) (st : State) : State :=
  {| SliceCompositeNode := SliceCompositeNode st;
     CrosshairNode := CrosshairNode st;
     Actor := Actor st; HighlightActor := HighlightActor st;
     CrosshairNodeCache := CrosshairNodeCache st;
     LightBoxRenderer := LightBoxRenderer st;
     LightBoxRendererManagerProxy := LightBoxRendererManagerProxy st;
     Observers := Observers st; Attached := Attached st;
     NextActor := v;
     InteractorStyleObservableEvents := InteractorStyleObservableEvents st;
     Trace := Trace st |}.

Definition set_InteractorStyleObservableEvents (v : list Event) (st : State) : State :=
  {| SliceCompositeNode := SliceCompositeNode st;
     CrosshairNode := CrosshairNode st;
     Actor := Actor st; HighlightActor := HighlightActor st;
     CrosshairNodeCache := CrosshairNodeCache st;
     LightBoxRenderer := LightBoxRenderer st;
     LightBoxRendererManagerProxy := LightBoxRendererManagerProxy st;
     Observers := Observers st; Attached := Attached st;
     NextActor := NextActor st;
     InteractorStyleObservableEvents := v;
     Trace := Trace st |}.

Definition log (e : Effect) (st : State) : State :=
  {| SliceCompositeNode := SliceCompositeNode st;
     CrosshairNode := CrosshairNode st;
     Actor := Actor st; HighlightActor := HighlightActor st;
     CrosshairNodeCache := CrosshairNodeCache st;
     LightBoxRenderer := LightBoxRenderer st;
     LightBoxRendererManagerProxy := LightBoxRendererManagerProxy st;
     Observers := Observers st; Attached := Attached st;
     NextActor := NextActor st;
     InteractorStyleObservableEvents := InteractorStyleObservableEvents st;
     Trace := Trace st ++ [e] |}.

(** ** The collaborators' services *)

Definition ptr_eqb (a b : option ptr) : bool :=
  match a, b with
  | Some x, Some y => Nat.eqb x y
  | None, None => true
  | _, _ => false
  end.

(** [vtkObject::AddObserver]: one more observer on the subject. *)
Definition AddObserver (subject : ptr) (st : State) : State :=
  set_Observers (Observers st ++ [subject]) st.

(** [vtkObject::RemoveObserver] given a command: every observer of the
    subject that runs the manager's callback command goes. *)
Definition RemoveObserver (subject : ptr) (st : State) : State :=
  set_Observers (filter (fun s => negb (Nat.eqb s subject)) (Observers st)) st.

Definition holds (renderer actor : ptr) (props : list (ptr * ptr)) : bool :=
  existsb (fun ra => Nat.eqb (fst ra) renderer && Nat.eqb (snd ra) actor) props.

(** [vtkRenderer::AddActor]: a prop already held is not added again. *)
Definition AddActor (renderer actor : ptr) (st : State) : State :=
  log (CallAddActor renderer actor)
    (if holds renderer actor (Attached st) then st
     else set_Attached (Attached st ++ [(renderer, actor)]) st).

(** [vtkRenderer::RemoveActor]. *)
Definition RemoveActor (renderer actor : ptr) (st : State) : State :=
  log (CallRemoveActor renderer actor)
    (set_Attached
       (filter (fun ra => negb (Nat.eqb (fst ra) renderer && Nat.eqb (snd ra) actor))
               (Attached st)) st).

(** [strcmp(a, b) == 0]; a null argument is undefined behaviour. *)
Definition strcmp_equal (a b : option string) : outcome bool :=
  match a, b with
  | Some x, Some y => Return (String.eqb x y)
  | _, _ => Undefined
  end.

(** Modelled from the spec: [vtkMatrix4x4::MultiplyPoint], which is not
    part of this file, "applies [the matrix] to the homogeneous anatomical
    position": the product of the matrix with the column vector. *)
Definition MultiplyPoint (m : vtkMatrix4x4) (v : vec4) : vec4 :=
  let '(r0, r1, r2, r3) := m in
  let '(v0, v1, v2, v3) := v in
  let row (r : vec4) : float :=
    let '(e0, e1, e2, e3) := r in
    (v0 * e0 + v1 * e1 + v2 * e2 + v3 * e3)%float in
  (row r0, row r1, row r2, row r3).

Definition Identity : vtkMatrix4x4 :=
  ((1, 0, 0, 0), (0, 1, 0, 0), (0, 0, 1, 0), (0, 0, 0, 1))%float.

(** A [vtkNew<vtkActor2D>] with an empty poly data behind its mapper; the
    property values are VTK's defaults. *)
Definition vtkActor2D_New (address : ptr) : vtkActor2D :=
  {| ActorAddress := address; Points := []; Lines := [];
     LineWidth := 1%float; Color := (1, 1, 1)%float; Opacity := 1%float;
     Visibility := true; Position := (0, 0)%float |}.

Definition SetGeometry (g : list Point * list (list nat)) (a : vtkActor2D) : vtkActor2D :=
  {| ActorAddress := ActorAddress a; Points := fst g; Lines := snd g;
     LineWidth := LineWidth a; Color := Color a; Opacity := Opacity a;
     Visibility := Visibility a; Position := Position a |}.

Definition SetLineWidth (w : float) (a : vtkActor2D) : vtkActor2D :=
  {| ActorAddress := ActorAddress a; Points := Points a; Lines := Lines a;
     LineWidth := w; Color := Color a; Opacity := Opacity a;
     Visibility := Visibility a; Position := Position a |}.

Definition SetColor (r g b : float) (a : vtkActor2D) : vtkActor2D :=
  {| ActorAddress := ActorAddress a; Points := Points a; Lines := Lines a;
     LineWidth := LineWidth a; Color := (r, g, b); Opacity := Opacity a;
     Visibility := Visibility a; Position := Position a |}.

Definition SetOpacity (o : float) (a : vtkActor2D) : vtkActor2D :=
  {| ActorAddress := ActorAddress a; Points := Points a; Lines := Lines a;
     LineWidth := LineWidth a; Color := Color a; Opacity := o;
     Visibility := Visibility a; Position := Position a |}.

Definition SetVisibility (v : bool) (a : vtkActor2D) : vtkActor2D :=
  {| ActorAddress := ActorAddress a; Points := Points a; Lines := Lines a;
     LineWidth := LineWidth a; Color := Color a; Opacity := Opacity a;
     Visibility := v; Position := Position a |}.

Definition SetPosition (x y : float) (a : vtkActor2D) : vtkActor2D :=
  {| ActorAddress := ActorAddress a; Points := Points a; Lines := Lines a;
     LineWidth := LineWidth a; Color := Color a; Opacity := Opacity a;
     Visibility := Visibility a; Position := (x, y) |}.

(** The end points of the cells of the actor's poly data. *)
Definition Segment : Type := ((Z * Z) * (Z * Z))%type.

Definition segment_of (pts : list Point) (cell : list nat) : option Segment :=
  match cell with
  | [i; j] =>
      match nth_error pts i, nth_error pts j with
      | Some (x1, y1, _), Some (x2, y2, _) => Some ((x1, y1), (x2, y2))
      | _, _ => None
      end
  | _ => None
  end.

Definition Segments (a : vtkActor2D) : list (option Segment) :=
  map (segment_of (Points a)) (Lines a).

(** ** vtkInternal *)

(** The constructor: nothing bound, no actor, a fresh node as cache.
    [props] is what the renderers of the application hold already and
    [next] the first address a later [vtkNew] may return. *)
Definition vtkInternal_New (cache : vtkMRMLCrosshairNode)
    (props : list (ptr * ptr)) (next : ptr) : State :=
  {| SliceCompositeNode := None; CrosshairNode := None;
     Actor := None; HighlightActor := None;
     CrosshairNodeCache := cache;
     LightBoxRenderer := None; LightBoxRendererManagerProxy := None;
     Observers := []; Attached := props; NextActor := next;
     InteractorStyleObservableEvents := []; Trace := [] |}.

(** Dereferencing a crosshair node pointer. *)
Definition GetCrosshairNode (env : Env) (p : ptr) : outcome vtkMRMLCrosshairNode :=
  match Nodes env p with
  | Some (AsCrosshairNode c) => Return c
  | _ => Undefined
  end.

Definition eps : float := 1.0e-12%float.

Definition DidCrosshairPositionChange (env : Env) (st : State) : outcome bool :=
  match CrosshairNode st with
  | None => Return false
  | Some p =>
      node <- GetCrosshairNode env p ;;
      let '(cacheRAS0, cacheRAS1, cacheRAS2) := CrosshairRAS (CrosshairNodeCache st) in
      let '(ras0, ras1, ras2) := CrosshairRAS node in
      if (PrimFloat.abs (cacheRAS0 - ras0) <? eps)%float
         && (PrimFloat.abs (cacheRAS1 - ras1) <? eps)%float
         && (PrimFloat.abs (cacheRAS2 - ras2) <? eps)%float
      then Return false
      else Return true
  end.

Definition DidCrosshairPropertyChange (env : Env) (st : State) : outcome bool :=
  match CrosshairNode st with
  | None => Return false
  | Some p =>
      node <- GetCrosshairNode env p ;;
      let change := false in
      let change :=
        if Crosshair.Mode_neb (CrosshairMode (CrosshairNodeCache st)) (CrosshairMode node)
        then true else change in
      let change :=
        if Crosshair.Thickness_neb (CrosshairThickness (CrosshairNodeCache st))
                                   (CrosshairThickness node)
        then true else change in
      Return change
  end.

Definition default_name : string := "default".

(** The loop of [FindSliceCompositeNode] over the scene's collection; the
    end of the collection is the [assert(0)]. *)
Fixpoint scan_slice_composite (env : Env) (layout : option string)
    (scene : list ptr) : outcome (option ptr) :=
  match scene with
  | [] => AssertionFailed
  | node :: rest =>
      match Nodes env node with
      | Some (AsSliceCompositeNode (Some name)) =>
          same <- strcmp_equal (Some name) layout ;;
          if same then Return (Some node)
          else scan_slice_composite env layout rest
      | _ => scan_slice_composite env layout rest
      end
  end.

Definition FindSliceCompositeNode (env : Env) : outcome (option ptr) :=
  match MRMLScene env, MRMLSliceNode env with
  | Some scene, Some sliceNode =>
      scan_slice_composite env (LayoutName sliceNode) (CurrentScene scene)
  | _, _ => Return None
  end.

Definition SetSliceCompositeNode (compositeNode : option ptr) (st : State) : State :=
  if ptr_eqb (SliceCompositeNode st) compositeNode then st
  else
    let st1 := match SliceCompositeNode st with
               | Some old => RemoveObserver old st
               | None => st
               end in
    let st2 := set_SliceCompositeNode compositeNode st1 in
    match SliceCompositeNode st2 with
    | Some new => AddObserver new st2
    | None => st2
    end.

Definition SetCrosshairNode (crosshairNode : option ptr) (st : State) : State :=
  if ptr_eqb (CrosshairNode st) crosshairNode then st
  else
    let st1 := match CrosshairNode st with
               | Some old => RemoveObserver old st
               | None => st
               end in
    let st2 := set_CrosshairNode crosshairNode st1 in
    match CrosshairNode st2 with
    | Some new => AddObserver new st2
    | None => st2
    end.

(** [vtkMRMLScene::GetNodesByClass("vtkMRMLCrosshairNode")]. *)
Definition GetCrosshairNodes (env : Env) (scene : vtkMRMLScene) : list ptr :=
  filter (fun node => match Nodes env node with
                      | Some (AsCrosshairNode _) => true
                      | _ => false
                      end) (CurrentScene scene).

(** [name == std::string(s)] for a C string [name]: there is no test for
    null before the comparison, which reads the characters of [name]; a
    null name is undefined behaviour. *)
Definition string_equal (name : option string) (s : string) : outcome bool :=
  match name with
  | Some x => Return (String.eqb x s)
  | None => Undefined
  end.

(** The loop of [FindCrosshairNode]; the end of the collection is the
    [assert(0)]. *)
Fixpoint scan_crosshair (env : Env) (crosshairs : list ptr) : outcome (option ptr) :=
  match crosshairs with
  | [] => AssertionFailed
  | node :: rest =>
      match Nodes env node with
      | Some (AsCrosshairNode c) =>
          same <- string_equal (CrosshairName c) default_name ;;
          if same then Return (Some node)
          else scan_crosshair env rest
      | _ => scan_crosshair env rest
      end
  end.

Definition FindCrosshairNode (env : Env) : outcome (option ptr) :=
  match MRMLScene env with
  | None => Return None
  | Some scene => scan_crosshair env (GetCrosshairNodes env scene)
  end.

Definition UpdateSliceNode (env : Env) (st : State) : outcome State :=
  _ <- match MRMLSliceNode env with
       | Some sliceNode =>
           match LayoutName sliceNode with
           | Some _ => Return tt
           | None => AssertionFailed
           end
       | None => Return tt
       end ;;
  search <- match SliceCompositeNode st with
            | None => Return true
            | Some p =>
                match Nodes env p with
                | Some (AsSliceCompositeNode None) => Return true
                | Some (AsSliceCompositeNode (Some name)) =>
                    match MRMLSliceNode env with
                    | Some sliceNode =>
                        same <- strcmp_equal (Some name) (LayoutName sliceNode) ;;
                        Return (negb same)
                    | None => Undefined
                    end
                | _ => Undefined
                end
            end ;;
  st1 <- (if search : bool
          then sliceCompositeNode <- FindSliceCompositeNode env ;;
               Return (SetSliceCompositeNode sliceCompositeNode st)
          else Return st) ;;
  crosshairNode <- FindCrosshairNode env ;;
  Return (SetCrosshairNode crosshairNode st1).

Definition Geometry : Type := (list Point * list (list nat))%type.

Definition AddCrosshairLine (g : Geometry) (p1x p1y p2x p2y : Z) : Geometry :=
  let '(pts, cellArray) := g in
  let p1 := List.length pts in
  let pts := pts ++ [(p1x, p1y, 0)] in
  let p2 := List.length pts in
  let pts := pts ++ [(p2x, p2y, 0)] in
  (pts, cellArray ++ [[p1; p2]]).

(** [BuildCrosshair], "Remove the old actor if any". *)
Definition RemoveOldActor (st : State) : State :=
  match Actor st with
  | Some old =>
      set_Actor None
        match LightBoxRenderer st with
        | Some renderer => RemoveActor renderer (ActorAddress old) st
        | None => st
        end
  | None => st
  end.

(** [BuildCrosshair], "Define the geometry": the constants in display
    coordinates and the [switch] on the crosshair mode, starting from the
    empty points and cell array. *)
Definition CrosshairLines (mode : Crosshair.Mode) (screenSize : Z * Z) : Geometry :=
  let negW := - fst screenSize in
  let negWminus := -5 in
  let negWminus2 := -10 in
  let posWplus := 5 in
  let posWplus2 := 10 in
  let posW := fst screenSize in
  let negH := - snd screenSize in
  let negHminus := -5 in
  let negHminus2 := -10 in
  let posHplus := 5 in
  let posHplus2 := 10 in
  let posH := snd screenSize in
  let g : Geometry := ([], []) in
  match mode with
  | Crosshair.NoCrosshair => g
  | Crosshair.ShowBasic =>
      let g := AddCrosshairLine g 0 negH 0 negHminus in
      let g := AddCrosshairLine g 0 posHplus 0 posH in
      let g := AddCrosshairLine g negW 0 negWminus 0 in
      AddCrosshairLine g posWplus 0 posW 0
  | Crosshair.ShowIntersection =>
      let g := AddCrosshairLine g negW 0 posW 0 in
      AddCrosshairLine g 0 negH 0 posH
  | Crosshair.ShowSmallBasic =>
      let g := AddCrosshairLine g 0 negHminus2 0 negHminus in
      let g := AddCrosshairLine g 0 posHplus 0 posHplus2 in
      let g := AddCrosshairLine g negWminus2 0 negWminus 0 in
      AddCrosshairLine g posWplus 0 posWplus2 0
  | Crosshair.ShowSmallIntersection =>
      let g := AddCrosshairLine g 0 negHminus2 0 posHplus2 in
      AddCrosshairLine g negWminus2 0 posWplus2 0
  | Crosshair.OtherMode _ => g
  end.

(** [BuildCrosshair], "Set the properties" and "Set the visibility". *)
Definition CrosshairProperties (node : vtkMRMLCrosshairNode)
    (actor : vtkActor2D) : vtkActor2D :=
  let actor :=
    if Crosshair.Thickness_eqb (CrosshairThickness node) Crosshair.Fine
    then SetLineWidth 1 actor
    else if Crosshair.Thickness_eqb (CrosshairThickness node) Crosshair.Medium
    then SetLineWidth 3 actor
    else if Crosshair.Thickness_eqb (CrosshairThickness node) Crosshair.Thick
    then SetLineWidth 5 actor
    else actor in
  let actor := SetColor 1.0 0.8 0.1 actor in
  let actor := SetOpacity 1.0 actor in
  if Crosshair.Mode_eqb (CrosshairMode node) Crosshair.NoCrosshair
  then SetVisibility false actor
  else SetVisibility true actor.

Definition BuildCrosshair (env : Env) (st : State) : outcome State :=
  match CrosshairNode st with
  | None => Return st
  | Some p =>
      let st := RemoveOldActor st in
      screenSize <- match ScreenSize env with
                    | Some s => Return s
                    | None => Undefined
                    end ;;
      let actor := vtkActor2D_New (NextActor st) in
      let st := set_NextActor (S (NextActor st)) st in
      let st := match LightBoxRenderer st with
                | Some renderer => AddActor renderer (ActorAddress actor) st
                | None => st
                end in
      node <- GetCrosshairNode env p ;;
      let actor := SetGeometry (CrosshairLines (CrosshairMode node) screenSize) actor in
      let actor := CrosshairProperties node actor in
      Return (log (CallBuildCrosshair (ActorAddress actor)) (set_Actor (Some actor) st))
  end.

(** ** vtkMRMLCrosshairDisplayableManager *)

(** [ProcessMRMLEvents], the body of
    [if ((DidCrosshairPositionChange() || builtCrosshair) && Actor)]: the
    actor [actor] is moved to the display position of the crosshair and
    handed to the renderer of its light box. *)
Definition PlaceActor (env : Env) (actor : vtkActor2D) (st : State) : outcome State :=
  sliceNode <- match MRMLSliceNode env with
               | Some n => Return n
               | None => Undefined
               end ;;
  let rasToXYZ := Invert env (XYToRAS sliceNode) in
  p <- match CrosshairNode st with
       | Some p => Return p
       | None => Undefined
       end ;;
  node <- GetCrosshairNode env p ;;
  let '(ras0, ras1, ras2) := CrosshairRAS node in
  let rasw : vec4 := (ras0, ras1, ras2, 1%float) in
  let '(pos0, pos1, pos2, pos3) := MultiplyPoint rasToXYZ rasw in
  let pos0 := (pos0 / pos3)%float in
  let pos1 := (pos1 / pos3)%float in
  let pos2 := (pos2 / pos3)%float in
  let pos3 := (pos3 / pos3)%float in
  let actor := SetPosition pos0 pos1 actor in
  let st := log (CallSetPosition pos0 pos1) (set_Actor (Some actor) st) in
  match LightBoxRendererManagerProxy st with
  | None => Return st
  | Some proxy =>
      let renderer := GetRenderer env proxy pos2 in
      let st := log (CallGetRenderer proxy pos2) st in
      if negb (ptr_eqb renderer (LightBoxRenderer st))
      then
        let st := match LightBoxRenderer st with
                  | Some old => RemoveActor old (ActorAddress actor) st
                  | None => st
                  end in
        let st := match renderer with
                  | Some r => AddActor r (ActorAddress actor) st
                  | None => st
                  end in
        Return (set_LightBoxRenderer renderer st)
      else Return st
  end.

(** [ProcessMRMLEvents], the body of
    [if (vtkMRMLCrosshairNode::SafeDownCast(caller))]. *)
Definition CrosshairNodeModified (env : Env) (st : State) : outcome State :=
  propertyChange <- DidCrosshairPropertyChange env st ;;
  st <- (if propertyChange : bool then BuildCrosshair env st else Return st) ;;
  let builtCrosshair := propertyChange in
  positionChange <- DidCrosshairPositionChange env st ;;
  st <- match Actor st with
        | Some actor =>
            if positionChange || builtCrosshair
            then PlaceActor env actor st
            else Return st
        | None => Return st
        end ;;
  p <- match CrosshairNode st with
       | Some p => Return p
       | None => Undefined
       end ;;
  node <- GetCrosshairNode env p ;;
  Return (log CallCacheCopy (set_CrosshairNodeCache node st)).

Definition RequestRender (st : State) : State := log CallRequestRender st.

(** [caller == GetMRMLScene() && GetMRMLScene()->GetIsUpdating()] *)
Definition from_updating_scene (env : Env) (caller : ptr) : bool :=
  match MRMLScene env with
  | Some scene => Nat.eqb caller (SceneAddress scene) && IsUpdating scene
  | None => false
  end.

Definition ProcessMRMLEvents (env : Env) (caller : ptr) (event : Event)
    (st : State) : outcome State :=
  if from_updating_scene env caller then Return st
  else
    match event with
    | SceneImportedEvent | SceneRestoredEvent => UpdateSliceNode env st
    | ModifiedEvent =>
        st <- match Nodes env caller with
              | Some (AsCrosshairNode _) => CrosshairNodeModified env st
              | _ => Return st
              end ;;
        Return (RequestRender st)
    | _ => Return (RequestRender st)
    end.

Definition Create (env : Env) (st : State) : outcome State :=
  UpdateSliceNode env st.

(** [AddInteractorStyleObservableEvent] of the base class. *)
Definition AddInteractorStyleObservableEvent (e : Event) (st : State) : State :=
  set_InteractorStyleObservableEvents (InteractorStyleObservableEvents st ++ [e]) st.

Definition AdditionalInitializeStep (env : Env) (st : State) : outcome State :=
  BuildCrosshair env (AddInteractorStyleObservableEvent MouseMoveEvent st).

Definition SetLightBoxRendererManagerProxy (mgr : option ptr) (st : State) : State :=
  set_LightBoxRendererManagerProxy mgr st.

(** The destructor of [vtkInternal]: both nodes are unbound, the two light
    box members are cleared, and the composite node is asserted to be
    gone. The actor is only released; no renderer is told. *)
Definition vtkInternal_Delete (st : State) : outcome State :=
  let st := SetSliceCompositeNode None st in
  let st := SetCrosshairNode None st in
  let st := set_LightBoxRenderer None st in
  let st := set_LightBoxRendererManagerProxy None st in
  match SliceCompositeNode st with
  | None => Return st
  | Some _ => AssertionFailed
  end.

(** The members held through [vtkWeakPointer] lose their target when the
    object they point to is deleted elsewhere: the pointer becomes null. A
    renderer that dies releases the props it held, a node that dies takes
    its observers with it. *)
Inductive Dying : Type :=
| DyingNode (node : ptr)
| DyingRenderer (renderer : ptr)
| DyingProxy (proxy : ptr).

Definition forget (dead : ptr) (weak : option ptr) : option ptr :=
  if ptr_eqb weak (Some dead) then None else weak.

Definition Deleted (d : Dying) (st : State) : State :=
  match d with
  | DyingNode node =>
      set_Observers (filter (fun s => negb (Nat.eqb s node)) (Observers st))
        (set_CrosshairNode (forget node (CrosshairNode st))
           (set_SliceCompositeNode (forget node (SliceCompositeNode st)) st))
  | DyingRenderer renderer =>
      set_Attached (filter (fun ra => negb (Nat.eqb (fst ra) renderer)) (Attached st))
        (set_LightBoxRenderer (forget renderer (LightBoxRenderer st)) st)
  | DyingProxy proxy =>
      set_LightBoxRendererManagerProxy
        (forget proxy (LightBoxRendererManagerProxy st)) st
  end.

(** ** A sample scene

    One scene (address 1) holding the crosshair node named "default"
    (address 10), the slice composite node of the "Red" view (address 11)
    and some other node (address 12); two light box renderers (20, 21)
    served by the proxy at address 30. *)
Module Sample.

Definition crosshair : vtkMRMLCrosshairNode :=
  {| CrosshairName := Some "default"%string; CrosshairRAS := (10, 20, 30)%float;
     CrosshairMode := Crosshair.ShowBasic;
     CrosshairThickness := Crosshair.Medium |}.

(** What [vtkMRMLCrosshairNode::New()] is taken to give, once named with
    the empty string. *)
Definition fresh : vtkMRMLCrosshairNode :=
  {| CrosshairName := Some ""%string; CrosshairRAS := (0, 0, 0)%float;
     CrosshairMode := Crosshair.NoCrosshair;
     CrosshairThickness := Crosshair.Fine |}.

Definition nodes (c : vtkMRMLCrosshairNode) (p : ptr) : option vtkMRMLNode :=
  match p with
  | 10%nat => Some (AsCrosshairNode c)
  | 11%nat => Some (AsSliceCompositeNode (Some "Red"%string))
  | 12%nat => Some AsOtherNode
  | _ => None
  end.

Definition scene (updating : bool) : vtkMRMLScene :=
  {| SceneAddress := 1%nat; IsUpdating := updating;
     CurrentScene := [12; 11; 10]%nat |}.

Definition red : vtkMRMLSliceNode :=
  {| LayoutName := Some "Red"%string; XYToRAS := Identity |}.

(** A proxy that shows depths below 0.5 in renderer 20 and the others in
    renderer 21. *)
Definition lightbox (proxy : ptr) (depth : float) : option ptr :=
  if (depth <? 0.5)%float then Some 20%nat else Some 21%nat.

(** [Invert] restricted to what the samples need: the identity is its
    own inverse. *)
Definition invert (m : vtkMatrix4x4) : vtkMatrix4x4 := m.

Definition env (c : vtkMRMLCrosshairNode) (updating : bool) : Env :=
  {| MRMLScene := Some (scene updating); Nodes := nodes c;
     MRMLSliceNode := Some red; ScreenSize := Some (800, 600);
     Invert := invert; GetRenderer := lightbox |}.

(** The manager after construction and [Create] in this scene. *)
Definition bound (cache : vtkMRMLCrosshairNode) : State :=
  {| SliceCompositeNode := Some 11%nat; CrosshairNode := Some 10%nat;
     Actor := None; HighlightActor := None;
     CrosshairNodeCache := cache;
     LightBoxRenderer := None; LightBoxRendererManagerProxy := Some 30%nat;
     Observers := [11; 10]%nat; Attached := []; NextActor := 100%nat;
     InteractorStyleObservableEvents := []; Trace := [] |}.

(** The same manager once the crosshair node has announced itself: the
    glyph is built, placed at (10, 20) and shown by renderer 21. *)
Definition shown : State :=
  Eval vm_compute in
    match ProcessMRMLEvents (env crosshair false) 10%nat ModifiedEvent (bound fresh) with
    | Return st => st
    | _ => bound fresh
    end.

(** The glyph of [shown]; the "default" crosshair moved to another
    position; a crosshair with the properties of a fresh node, away from
    the origin. *)
Definition glyph : vtkActor2D :=
  Eval vm_compute in
    match Actor shown with
    | Some actor => actor
    | None => vtkActor2D_New 0%nat
    end.

Definition moved : vtkMRMLCrosshairNode :=
  {| CrosshairName := Some "default"%string; CrosshairRAS := (11, 20, 30.5)%float;
     CrosshairMode := Crosshair.ShowBasic;
     CrosshairThickness := Crosshair.Medium |}.

Definition adrift : vtkMRMLCrosshairNode :=
  {| CrosshairName := Some "default"%string; CrosshairRAS := (3, 4, 5)%float;
     CrosshairMode := Crosshair.NoCrosshair;
     CrosshairThickness := Crosshair.Fine |}.

(** A crosshair node that was never given a name, and the sample scene
    with such a node (address 13) ahead of the "default" one. *)
Definition unnamed : vtkMRMLCrosshairNode :=
  {| CrosshairName := None; CrosshairRAS := (0, 0, 0)%float;
     CrosshairMode := Crosshair.NoCrosshair;
     CrosshairThickness := Crosshair.Fine |}.

Definition nodes_unnamed (p : ptr) : option vtkMRMLNode :=
  match p with
  | 13%nat => Some (AsCrosshairNode unnamed)
  | _ => nodes crosshair p
  end.

Definition scene_unnamed : vtkMRMLScene :=
  {| SceneAddress := 1%nat; IsUpdating := false;
     CurrentScene := [12; 13; 11; 10]%nat |}.

Definition env_unnamed : Env :=
  {| MRMLScene := Some scene_unnamed; Nodes := nodes_unnamed;
     MRMLSliceNode := Some red; ScreenSize := Some (800, 600);
     Invert := invert; GetRenderer := lightbox |}.

(** A crosshair whose first coordinate is not a number. *)
Definition lost : vtkMRMLCrosshairNode :=
  {| CrosshairName := Some "default"%string; CrosshairRAS := (nan, 20, 30)%float;
     CrosshairMode := Crosshair.ShowBasic;
     CrosshairThickness := Crosshair.Medium |}.

End Sample.

(** ** Notions used in the statements *)

(** The magnitudes [fabs(cacheRAS[i] - ras[i])] the position test looks at. *)
Definition deltas (cache node : vtkMRMLCrosshairNode) : float * float * float :=
  let '(c0, c1, c2) := CrosshairRAS cache in
  let '(r0, r1, r2) := CrosshairRAS node in
  (PrimFloat.abs (c0 - r0), PrimFloat.abs (c1 - r1), PrimFloat.abs (c2 - r2))%float.

(** The display coordinates and depth of a crosshair node in a slice view:
    the inverse of the view's XY-to-RAS matrix applied to the homogeneous
    position, each component divided by the last. *)
Definition DisplayXYZ (env : Env) (sliceNode : vtkMRMLSliceNode)
    (node : vtkMRMLCrosshairNode) : float * float * float :=
  let '(ras0, ras1, ras2) := CrosshairRAS node in
  let '(x, y, z, w) :=
    MultiplyPoint (Invert env (XYToRAS sliceNode)) (ras0, ras1, ras2, 1%float) in
  (x / w, y / w, z / w)%float.

(** The three coordinates of a crosshair node are numbers (neither NaN nor
    infinite). *)
Definition finite_position (node : vtkMRMLCrosshairNode) : bool :=
  let '(ras0, ras1, ras2) := CrosshairRAS node in
  is_finite ras0 && is_finite ras1 && is_finite ras2.

(** The effects the handler is said to hold back while the scene updates. *)
Definition is_rebuild (e : Effect) : bool :=
  match e with CallBuildCrosshair _ => true | _ => false end.

Definition is_pose_update (e : Effect) : bool :=
  match e with CallSetPosition _ _ => true | _ => false end.

Definition is_render_request (e : Effect) : bool :=
  match e with CallRequestRender => true | _ => false end.

(** The entry points of the manager, and the states they can lead to from
    a newly constructed one, whatever the surroundings are at each call
    (the scene, its nodes and the matrices may change between two calls,
    as they do when the interactor moves the crosshair), and whichever
    weakly held objects die in between. *)
Inductive Operation : Type :=
| DoCreate
| DoAdditionalInitializeStep
| DoProcessMRMLEvents (caller : ptr) (event : Event)
| DoSetLightBoxRendererManagerProxy (mgr : option ptr).

Definition run (env : Env) (op : Operation) (st : State) : outcome State :=
  match op with
  | DoCreate => Create env st
  | DoAdditionalInitializeStep => AdditionalInitializeStep env st
  | DoProcessMRMLEvents caller event => ProcessMRMLEvents env caller event st
  | DoSetLightBoxRendererManagerProxy mgr =>
      Return (SetLightBoxRendererManagerProxy mgr st)
  end.

Inductive reachable : State -> Prop :=
| reachable_new cache props next :
    (forall r a, In (r, a) props -> (a < next)%nat) ->
    reachable (vtkInternal_New cache props next)
| reachable_run env op st st' :
    reachable st -> run env op st = Return st' -> reachable st'
| reachable_deleted d st :
    reachable st -> reachable (Deleted d st).

(** The glyph sits in the renderer the manager remembers, or in none; and
    no prop in a renderer has an address still to be handed out. *)
Definition glyph_in_own_renderer (st : State) : Prop :=
  (forall r a, In (r, a) (Attached st) -> (a < NextActor st)%nat)
  /\ (forall actor, Actor st = Some actor ->
        (ActorAddress actor < NextActor st)%nat
        /\ forall r, In (r, ActorAddress actor) (Attached st) ->
                     LightBoxRenderer st = Some r).

(** The nodes the two searches look for. *)
Definition is_default_crosshair (env : Env) (p : ptr) : Prop :=
  exists c, Nodes env p = Some (AsCrosshairNode c)
            /\ CrosshairName c = Some default_name.

Definition is_composite_of (env : Env) (layout : string) (p : ptr) : Prop :=
  Nodes env p = Some (AsSliceCompositeNode (Some layout)).

(** The crosshair nodes among [l] all have a name; those among [l] have a
    name other than "default". *)
Definition crosshairs_named (env : Env) (l : list ptr) : Prop :=
  forall p c, In p l -> Nodes env p = Some (AsCrosshairNode c) ->
              CrosshairName c <> None.

Definition crosshairs_passed (env : Env) (l : list ptr) : Prop :=
  forall p c, In p l -> Nodes env p = Some (AsCrosshairNode c) ->
              exists name, CrosshairName c = Some name /\ name <> default_name.

(** The segments a geometry under construction stands for, and the
    geometries whose cells only name points that exist. *)
Definition geometry_segments (g : Geometry) : list (option Segment) :=
  map (segment_of (fst g)) (snd g).

Definition closed_geometry (g : Geometry) : Prop :=
  forall cell i, In cell (snd g) -> In i cell -> (i < List.length (fst g))%nat.

(** The end points of a list of segments; a segment on one of the two
    axes through the centre. *)
Definition end_points (segments : list (option Segment)) : list (Z * Z) :=
  flat_map (fun s => match s with
                     | Some (a, b) => [a; b]
                     | None => []
                     end) segments.

Definition on_axis (s : option Segment) : Prop :=
  match s with
  | Some ((x1, y1), (x2, y2)) => (x1 = 0 /\ x2 = 0) \/ (y1 = 0 /\ y2 = 0)
  | None => False
  end.

(** The renderer the manager remembers does hold the glyph. *)
Definition glyph_held (st : State) : Prop :=
  forall actor r,
    Actor st = Some actor -> LightBoxRenderer st = Some r ->
    In (r, ActorAddress actor) (Attached st).

(** The pointers the manager holds point to nodes of the class they are
    declared with. *)
Definition bindings_typed (env : Env) (st : State) : Prop :=
  (forall p, SliceCompositeNode st = Some p ->
             exists layout, Nodes env p = Some (AsSliceCompositeNode layout))
  /\ (forall p, CrosshairNode st = Some p ->
                exists c, Nodes env p = Some (AsCrosshairNode c)).

(** The callback command observes each bound node once and nothing else;
    the two bound nodes are different objects. *)
Definition observed (st : State) (p : ptr) : nat :=
  ((if ptr_eqb (SliceCompositeNode st) (Some p) then 1 else 0)
   + (if ptr_eqb (CrosshairNode st) (Some p) then 1 else 0))%nat.

Definition observers_exact (st : State) : Prop :=
  (forall p, SliceCompositeNode st = Some p -> CrosshairNode st <> Some p)
  /\ forall p, count_occ Nat.eq_dec (Observers st) p = observed st p.

(** The states of a manager run in surroundings that respect the classes
    of the nodes it points to. *)
Inductive served : State -> Prop :=
| served_new cache props next :
    served (vtkInternal_New cache props next)
| served_run env op st st' :
    served st -> bindings_typed env st -> run env op st = Return st' ->
    served st'
| served_deleted d st :
    served st -> served (Deleted d st).

(** The segments of each crosshair mode on a screen of size (w, h). *)
Definition mode_segments (mode : Crosshair.Mode) (w h : Z) : list (option Segment) :=
  match mode with
  | Crosshair.ShowBasic =>
      [ Some ((0, - h), (0, -5)); Some ((0, 5), (0, h));
        Some ((- w, 0), (-5, 0)); Some ((5, 0), (w, 0)) ]
  | Crosshair.ShowIntersection =>
      [ Some ((- w, 0), (w, 0)); Some ((0, - h), (0, h)) ]
  | Crosshair.ShowSmallBasic =>
      [ Some ((0, -10), (0, -5)); Some ((0, 5), (0, 10));
        Some ((-10, 0), (-5, 0)); Some ((5, 0), (10, 0)) ]
  | Crosshair.ShowSmallIntersection =>
      [ Some ((0, -10), (0, 10)); Some ((-10, 0), (10, 0)) ]
  | _ => []
  end.

(** One of the three coordinates of a crosshair node is not a number. *)
Definition nan_position (node : vtkMRMLCrosshairNode) : bool :=
  let '(ras0, ras1, ras2) := CrosshairRAS node in
  is_nan ras0 || is_nan ras1 || is_nan ras2.

(** ** Proof steps shared below *)

Arguments CrosshairProperties : simpl never.
Arguments CrosshairLines : simpl never.

Ltac split_all :=
  repeat match goal with |- _ /\ _ => split end.

Ltac find_effect :=
  repeat first [ apply Exists_cons_hd; reflexivity | apply Exists_cons_tl ].

Ltac case_holds :=
  repeat match goal with
         | |- context [if holds ?r ?a ?l then _ else _] => destruct (holds r a l) eqn:?
         end.

(** ** Float comparisons *)

Lemma float_leb_not_ltb (x y : float) :
  (x <=? y)%float = true -> (y <? x)%float = false.
Proof.
  rewrite leb_spec, ltb_spec. unfold SFleb, SFltb, SFcompare.
  destruct (Prim2SF x) as [[]|[]| |[] m e], (Prim2SF y) as [[]|[]| |[] m' e'];
    simpl; try congruence.
  all: rewrite (Z.compare_antisym e e'); destruct (e ?= e')%Z; simpl; try congruence.
  all: change (PosDef.Pos.compare_cont Eq m' m) with (Pos.compare m' m);
       change (PosDef.Pos.compare_cont Eq m m') with (Pos.compare m m');
       rewrite (Pos.compare_antisym m m'); destruct (m ?= m')%positive; simpl; congruence.
Qed.

Lemma is_finite_Prim2SF x :
  is_finite x = true ->
  (exists s, Prim2SF x = S754_zero s)
  \/ (exists s m e, Prim2SF x = S754_finite s m e).
Proof.
  unfold is_finite, is_nan, is_infinity.
  rewrite !FloatAxioms.eqb_spec, abs_spec.
  destruct (Prim2SF x) as [s | s | | s m e] eqn:E.
  - intros _. left. now exists s.
  - intros H. exfalso. revert H.
    change (Prim2SF infinity) with (S754_infinity false).
    destruct s; simpl; discriminate.
  - simpl. discriminate.
  - intros _. right. now exists s, m, e.
Qed.

(** A finite coordinate compared with itself is within the tolerance. *)
Lemma float_sub_self_below_eps x :
  is_finite x = true -> (PrimFloat.abs (x - x) <? eps)%float = true.
Proof.
  intros H. rewrite ltb_spec, abs_spec, sub_spec.
  destruct (is_finite_Prim2SF x H) as [[s E] | (s & m & e & E)]; rewrite E.
  - destruct s; reflexivity.
  - unfold SF64sub, SFsub. rewrite Z.min_id.
    unfold shl_align. rewrite Z.sub_diag. cbn [fst].
    reflexivity.
Qed.

(** ** Change classification *)

Lemma DidCrosshairPositionChange_bound env st p node :
  CrosshairNode st = Some p ->
  Nodes env p = Some (AsCrosshairNode node) ->
  DidCrosshairPositionChange env st =
  let '(d0, d1, d2) := deltas (CrosshairNodeCache st) node in
  Return (negb ((d0 <? eps)%float && (d1 <? eps)%float && (d2 <? eps)%float)).
Proof.
  intros Hp Hn. unfold DidCrosshairPositionChange, GetCrosshairNode, deltas.
  rewrite Hp, Hn. simpl.
  destruct (CrosshairRAS (CrosshairNodeCache st)) as [[c0 c1] c2].
  destruct (CrosshairRAS node) as [[r0 r1] r2].
  destruct (_ && _ && _); reflexivity.
Qed.

(** C1, as the claim words it, fails: with the cache at the origin and the
    node at (1e-12, 0, 0) every delta has magnitude at most 1e-12 (the
    first one equals [eps]), and the position counts as changed. *)
Lemma DidCrosshairPositionChange_at_tolerance :
  ~ (forall env st p node,
        CrosshairNode st = Some p ->
        Nodes env p = Some (AsCrosshairNode node) ->
        (let '(d0, d1, d2) := deltas (CrosshairNodeCache st) node in
         (d0 <=? eps)%float = true /\ (d1 <=? eps)%float = true
         /\ (d2 <=? eps)%float = true) ->
        DidCrosshairPositionChange env st = Return false).
Proof.
  intros H.
  pose (node := {| CrosshairName := Some "default"%string; CrosshairRAS := (1.0e-12, 0, 0)%float;
                   CrosshairMode := Crosshair.NoCrosshair;
                   CrosshairThickness := Crosshair.Fine |}).
  specialize (H (Sample.env node false) (Sample.bound Sample.fresh) 10%nat node
                eq_refl eq_refl).
  vm_compute in H.
  assert (E : @Return bool true = Return false) by (apply H; repeat split).
  discriminate E.
Qed.

(** C1 (amended): with no crosshair node bound the position never counts
    as changed; with one bound, it does not when all three deltas are
    strictly below 1e-12, and it does as soon as one delta is 1e-12 or
    more. *)
Theorem DidCrosshairPositionChange_strict_tolerance env st :
  (CrosshairNode st = None -> DidCrosshairPositionChange env st = Return false)
  /\ (forall p node,
        CrosshairNode st = Some p ->
        Nodes env p = Some (AsCrosshairNode node) ->
        let '(d0, d1, d2) := deltas (CrosshairNodeCache st) node in
        ((d0 <? eps)%float = true /\ (d1 <? eps)%float = true
         /\ (d2 <? eps)%float = true ->
         DidCrosshairPositionChange env st = Return false)
        /\ ((eps <=? d0)%float = true \/ (eps <=? d1)%float = true
            \/ (eps <=? d2)%float = true ->
            DidCrosshairPositionChange env st = Return true)).
Proof.
  split.
  - intros Hn. unfold DidCrosshairPositionChange. now rewrite Hn.
  - intros p node Hp Hn.
    rewrite (DidCrosshairPositionChange_bound env st p node Hp Hn).
    destruct (deltas (CrosshairNodeCache st) node) as [[d0 d1] d2]. split.
    + intros (H0 & H1 & H2). now rewrite H0, H1, H2.
    + intros [H | [H | H]]; apply float_leb_not_ltb in H; rewrite H;
        rewrite ?andb_false_r; reflexivity.
Qed.

Lemma DidCrosshairPositionChange_strict_tolerance_witness :
  DidCrosshairPositionChange (Sample.env Sample.crosshair false)
    (vtkInternal_New Sample.fresh [] 100%nat) = Return false
  /\ DidCrosshairPositionChange (Sample.env Sample.crosshair false)
       (Sample.bound Sample.crosshair) = Return false
  /\ DidCrosshairPositionChange (Sample.env Sample.crosshair false)
       (Sample.bound Sample.fresh) = Return true.
Proof.
  split; [| split].
  - apply (DidCrosshairPositionChange_strict_tolerance
             (Sample.env Sample.crosshair false)
             (vtkInternal_New Sample.fresh [] 100%nat)).
    reflexivity.
  - apply (proj2 (DidCrosshairPositionChange_strict_tolerance
                    (Sample.env Sample.crosshair false)
                    (Sample.bound Sample.crosshair))
                 10%nat Sample.crosshair eq_refl eq_refl).
    repeat split.
  - apply (proj2 (DidCrosshairPositionChange_strict_tolerance
                    (Sample.env Sample.crosshair false)
                    (Sample.bound Sample.fresh))
                 10%nat Sample.crosshair eq_refl eq_refl).
    left. reflexivity.
Defined.

(** C2: the properties count as changed exactly when the display mode or
    the thickness of the bound node differs from the cached one; with no
    node bound they never do. *)
Theorem DidCrosshairPropertyChange_iff env st :
  (CrosshairNode st = None -> DidCrosshairPropertyChange env st = Return false)
  /\ (forall p node,
        CrosshairNode st = Some p ->
        Nodes env p = Some (AsCrosshairNode node) ->
        exists change,
          DidCrosshairPropertyChange env st = Return change
          /\ (change = true <->
              CrosshairMode (CrosshairNodeCache st) <> CrosshairMode node
              \/ CrosshairThickness (CrosshairNodeCache st) <> CrosshairThickness node)).
Proof.
  split.
  - intros Hn. unfold DidCrosshairPropertyChange. now rewrite Hn.
  - intros p node Hp Hn.
    unfold DidCrosshairPropertyChange, GetCrosshairNode. rewrite Hp, Hn. simpl.
    unfold Crosshair.Mode_neb, Crosshair.Thickness_neb,
      Crosshair.Mode_eqb, Crosshair.Thickness_eqb.
    destruct (Crosshair.Mode_eq_dec _ _) as [Em | Em];
      destruct (Crosshair.Thickness_eq_dec _ _) as [Et | Et]; simpl;
      eexists; (split; [reflexivity |]); split; intros H;
      try discriminate; try reflexivity; try tauto.
Qed.

Lemma DidCrosshairPropertyChange_iff_witness :
  DidCrosshairPropertyChange (Sample.env Sample.crosshair false)
    (vtkInternal_New Sample.fresh [] 100%nat) = Return false
  /\ exists change,
       DidCrosshairPropertyChange (Sample.env Sample.crosshair false)
         (Sample.bound Sample.fresh) = Return change
       /\ (change = true <->
           Crosshair.NoCrosshair <> Crosshair.ShowBasic
           \/ Crosshair.Fine <> Crosshair.Medium).
Proof.
  split.
  - apply (DidCrosshairPropertyChange_iff
             (Sample.env Sample.crosshair false)
             (vtkInternal_New Sample.fresh [] 100%nat)).
    reflexivity.
  - apply (proj2 (DidCrosshairPropertyChange_iff
                    (Sample.env Sample.crosshair false)
                    (Sample.bound Sample.fresh))
                 10%nat Sample.crosshair eq_refl eq_refl).
Defined.

(** ** Notifications during a scene update *)

(** C3, as the claim words it, fails: while the scene is updating, a
    modified event raised by the crosshair node (not by the scene) is
    processed in full; here the glyph is rebuilt, posed, and a render is
    requested. *)
Lemma ProcessMRMLEvents_node_event_while_updating :
  ~ (forall env scene caller event st st',
        MRMLScene env = Some scene ->
        IsUpdating scene = true ->
        Trace st = [] ->
        ProcessMRMLEvents env caller event st = Return st' ->
        forall e, In e (Trace st') ->
                  is_rebuild e = false /\ is_pose_update e = false
                  /\ is_render_request e = false).
Proof.
  intros H.
  destruct (ProcessMRMLEvents (Sample.env Sample.crosshair true) 10%nat
              ModifiedEvent (Sample.bound Sample.fresh)) as [st' | |] eqn:E;
    vm_compute in E; try discriminate E.
  injection E as E.
  destruct (H (Sample.env Sample.crosshair true) (Sample.scene true) 10%nat
              ModifiedEvent (Sample.bound Sample.fresh) st'
              eq_refl eq_refl eq_refl) with (e := CallRequestRender)
    as (_ & _ & R).
  - vm_compute. rewrite <- E. reflexivity.
  - subst st'. simpl. do 5 right. left. reflexivity.
  - discriminate R.
Qed.

(** C3 (amended): a notification raised by the scene itself while its
    bulk-update flag is set is dropped: the handler returns at once and
    leaves the whole state, the log of effects included, as it was. *)
Theorem ProcessMRMLEvents_scene_event_while_updating env scene event st :
  MRMLScene env = Some scene ->
  IsUpdating scene = true ->
  ProcessMRMLEvents env (SceneAddress scene) event st = Return st.
Proof.
  intros Hs Hu. unfold ProcessMRMLEvents, from_updating_scene.
  rewrite Hs, Hu, Nat.eqb_refl. reflexivity.
Qed.

Lemma ProcessMRMLEvents_scene_event_while_updating_witness :
  ProcessMRMLEvents (Sample.env Sample.crosshair true) 1%nat ModifiedEvent
    (Sample.bound Sample.fresh) = Return (Sample.bound Sample.fresh).
Proof.
  apply (ProcessMRMLEvents_scene_event_while_updating
           (Sample.env Sample.crosshair true) (Sample.scene true)
           ModifiedEvent (Sample.bound Sample.fresh)); reflexivity.
Defined.


(** ** Glyph construction *)

Lemma ActorAddress_CrosshairProperties node a :
  ActorAddress (CrosshairProperties node a) = ActorAddress a.
Proof.
  unfold CrosshairProperties.
  repeat match goal with |- context [if ?b then _ else _] => destruct b end;
    reflexivity.
Qed.

(** What [BuildCrosshair] leaves behind when a crosshair node is bound. *)
Lemma BuildCrosshair_bound env st p node size :
  CrosshairNode st = Some p ->
  Nodes env p = Some (AsCrosshairNode node) ->
  ScreenSize env = Some size ->
  exists st' work,
    BuildCrosshair env st = Return st'
    /\ Actor st' =
       Some (CrosshairProperties node
               (SetGeometry (CrosshairLines (CrosshairMode node) size)
                  (vtkActor2D_New (NextActor st))))
    /\ NextActor st' = S (NextActor st)
    /\ CrosshairNode st' = CrosshairNode st
    /\ CrosshairNodeCache st' = CrosshairNodeCache st
    /\ LightBoxRenderer st' = LightBoxRenderer st
    /\ LightBoxRendererManagerProxy st' = LightBoxRendererManagerProxy st
    /\ Trace st' = Trace st ++ work
    /\ ~ In CallCacheCopy work
    /\ Exists (fun e => is_rebuild e = true) work.
Proof.
  intros Hp Hn Hs. unfold BuildCrosshair, GetCrosshairNode.
  rewrite Hp, Hs. cbn [bind]. rewrite Hn. cbn [bind].
  unfold RemoveOldActor.
  destruct (Actor st) as [old |]; destruct (LightBoxRenderer st) as [r |] eqn:Hr;
    simpl; rewrite ?Hr; simpl; unfold AddActor, RemoveActor; simpl;
    case_holds; simpl; eexists; eexists; (split; [reflexivity |]); simpl;
    rewrite ?Hr, <- ?app_assoc; simpl; split_all;
    try reflexivity; try (symmetry; assumption);
    try (simpl; intuition discriminate); find_effect.
Qed.

(** C4: with a crosshair node of mode basic and thickness medium bound,
    [BuildCrosshair] makes a glyph of exactly four segments, each from the
    edge of the 5-pixel gap around the centre out to the screen size along
    one half-axis, with line width 3, colour (1.0, 0.8, 0.1) and full
    opacity; on an 800 x 600 screen the first segment runs from (0,-600)
    to (0,-5). *)
Theorem BuildCrosshair_basic_medium env st p node w h :
  CrosshairNode st = Some p ->
  Nodes env p = Some (AsCrosshairNode node) ->
  CrosshairMode node = Crosshair.ShowBasic ->
  CrosshairThickness node = Crosshair.Medium ->
  ScreenSize env = Some (w, h) ->
  exists st' actor,
    BuildCrosshair env st = Return st'
    /\ Actor st' = Some actor
    /\ Segments actor =
       [ Some ((0, - h), (0, -5)); Some ((0, 5), (0, h));
         Some ((- w, 0), (-5, 0)); Some ((5, 0), (w, 0)) ]
    /\ List.length (Lines actor) = 4%nat
    /\ LineWidth actor = 3%float
    /\ Color actor = (1.0, 0.8, 0.1)%float
    /\ Opacity actor = 1.0%float
    /\ Visibility actor = true
    /\ (w = 800 -> h = 600 ->
        nth_error (Segments actor) 0 = Some (Some ((0, -600), (0, -5)))).
Proof.
  intros Hp Hn Hm Ht Hs.
  destruct (BuildCrosshair_bound env st p node (w, h) Hp Hn Hs)
    as (st' & work & Hb & Ha & _).
  exists st'. eexists. split; [exact Hb |]. split; [exact Ha |].
  unfold CrosshairProperties. rewrite Hm, Ht. cbn.
  split_all; try reflexivity.
  intros -> ->. reflexivity.
Qed.

Lemma BuildCrosshair_basic_medium_witness :
  exists st' actor,
    BuildCrosshair (Sample.env Sample.crosshair false)
      (Sample.bound Sample.fresh) = Return st'
    /\ Actor st' = Some actor
    /\ Segments actor =
       [ Some ((0, -600), (0, -5)); Some ((0, 5), (0, 600));
         Some ((-800, 0), (-5, 0)); Some ((5, 0), (800, 0)) ]
    /\ List.length (Lines actor) = 4%nat
    /\ LineWidth actor = 3%float
    /\ Color actor = (1.0, 0.8, 0.1)%float
    /\ Opacity actor = 1.0%float
    /\ Visibility actor = true
    /\ (800 = 800 -> 600 = 600 ->
        nth_error (Segments actor) 0 = Some (Some ((0, -600), (0, -5)))).
Proof.
  apply (BuildCrosshair_basic_medium (Sample.env Sample.crosshair false)
           (Sample.bound Sample.fresh) 10%nat Sample.crosshair 800 600);
    reflexivity.
Defined.

(** ** Pose of the glyph *)

Lemma Position_SetPosition x y a : Position (SetPosition x y a) = (x, y).
Proof. reflexivity. Qed.

(** What the placing block of [ProcessMRMLEvents] does. *)
Lemma PlaceActor_bound env st actor p node sliceNode :
  MRMLSliceNode env = Some sliceNode ->
  CrosshairNode st = Some p ->
  Nodes env p = Some (AsCrosshairNode node) ->
  exists st' work,
    PlaceActor env actor st = Return st'
    /\ (let '(x, y, z) := DisplayXYZ env sliceNode node in
        Actor st' = Some (SetPosition x y actor)
        /\ In (CallSetPosition x y) work
        /\ forall proxy, LightBoxRendererManagerProxy st = Some proxy ->
                         In (CallGetRenderer proxy z) work)
    /\ CrosshairNode st' = CrosshairNode st
    /\ CrosshairNodeCache st' = CrosshairNodeCache st
    /\ LightBoxRendererManagerProxy st' = LightBoxRendererManagerProxy st
    /\ NextActor st' = NextActor st
    /\ Trace st' = Trace st ++ work
    /\ ~ In CallCacheCopy work.
Proof.
  intros Hs Hp Hn. unfold PlaceActor, DisplayXYZ, GetCrosshairNode.
  rewrite Hs, Hp. cbn [bind]. rewrite Hn. cbn [bind].
  destruct (CrosshairRAS node) as [[ras0 ras1] ras2].
  destruct (MultiplyPoint _ _) as [[[x y] z] w].
  cbn [LightBoxRendererManagerProxy log set_Actor].
  destruct (LightBoxRendererManagerProxy st) as [proxy |] eqn:Hproxy.
  - cbn [LightBoxRenderer log set_Actor].
    destruct (ptr_eqb _ _); cbn [negb];
      destruct (LightBoxRenderer st) as [old |];
      destruct (GetRenderer env proxy (z / w)) as [r |];
      unfold AddActor, RemoveActor; simpl; case_holds; simpl;
      eexists; eexists; (split; [reflexivity |]); simpl;
      rewrite <- ?app_assoc; simpl; split_all;
      try reflexivity; try assumption;
      try (intros ? [= <-]); simpl; try tauto; try intuition discriminate.
  - eexists; eexists; (split; [reflexivity |]); simpl; split_all;
      try reflexivity; try assumption;
      try (intros ? [=]); simpl; try tauto; try intuition discriminate.
Qed.

Lemma DidCrosshairPropertyChange_bound env st p node :
  CrosshairNode st = Some p ->
  Nodes env p = Some (AsCrosshairNode node) ->
  DidCrosshairPropertyChange env st =
  Return (Crosshair.Mode_neb (CrosshairMode (CrosshairNodeCache st)) (CrosshairMode node)
          || Crosshair.Thickness_neb (CrosshairThickness (CrosshairNodeCache st))
                                     (CrosshairThickness node)).
Proof.
  intros Hp Hn. unfold DidCrosshairPropertyChange, GetCrosshairNode.
  rewrite Hp, Hn. simpl.
  destruct (Crosshair.Mode_neb _ _), (Crosshair.Thickness_neb _ _); reflexivity.
Qed.

(** The handling of a crosshair node's modified event, step by step. *)
Lemma CrosshairNodeModified_bound env st p node sliceNode size :
  CrosshairNode st = Some p ->
  Nodes env p = Some (AsCrosshairNode node) ->
  MRMLSliceNode env = Some sliceNode ->
  ScreenSize env = Some size ->
  exists st' work propertyChange positionChange,
    DidCrosshairPropertyChange env st = Return propertyChange
    /\ DidCrosshairPositionChange env st = Return positionChange
    /\ CrosshairNodeModified env st = Return st'
    /\ CrosshairNode st' = CrosshairNode st
    /\ CrosshairNodeCache st' = node
    /\ Trace st' = Trace st ++ work ++ [CallCacheCopy]
    /\ ~ In CallCacheCopy work
    /\ (propertyChange = true \/ (positionChange = true /\ Actor st <> None) ->
        exists actor,
          Actor st' = Some actor
          /\ let '(x, y, z) := DisplayXYZ env sliceNode node in
             Position actor = (x, y)
             /\ In (CallSetPosition x y) work
             /\ forall proxy, LightBoxRendererManagerProxy st = Some proxy ->
                              In (CallGetRenderer proxy z) work).
Proof.
  intros Hp Hn Hs Hz.
  pose proof (DidCrosshairPropertyChange_bound env st p node Hp Hn) as Hprop.
  pose proof (DidCrosshairPositionChange_bound env st p node Hp Hn) as Hpos.
  destruct (deltas (CrosshairNodeCache st) node) as [[d0 d1] d2] eqn:Hd.
  unfold CrosshairNodeModified. rewrite Hprop. cbn [bind].
  destruct (_ || _) eqn:Hchange.
  - destruct (BuildCrosshair_bound env st p node size Hp Hn Hz)
      as (st1 & w1 & Hb & Ha1 & _ & Hp1 & Hc1 & _ & Hx1 & Ht1 & Hno1 & _).
    rewrite Hb. cbn [bind].
    rewrite Hp in Hp1.
    rewrite (DidCrosshairPositionChange_bound env st1 p node Hp1 Hn), Hc1, Hd.
    cbn [bind]. rewrite Ha1, orb_true_r.
    match type of Ha1 with
    | _ = Some ?a =>
        destruct (PlaceActor_bound env st1 a p node sliceNode Hs Hp1 Hn)
          as (st2 & w2 & Hpl & Hxyz & Hp2 & Hc2 & _ & _ & Ht2 & Hno2)
    end.
    rewrite Hpl. cbn [bind]. rewrite Hp2, Hp1. cbn [bind].
    unfold GetCrosshairNode. rewrite Hn. cbn [bind].
    exists (log CallCacheCopy (set_CrosshairNodeCache node st2)), (w1 ++ w2).
    do 2 eexists. split_all; try exact Hprop; try exact Hpos; try reflexivity.
    + simpl. congruence.
    + simpl. rewrite Ht2, Ht1, <- !app_assoc. reflexivity.
    + rewrite in_app_iff. tauto.
    + intros _. destruct (DisplayXYZ env sliceNode node) as [[x y] z].
      destruct Hxyz as (Ha2 & Hset & Hget).
      eexists. split; [exact Ha2 |].
      split; [apply Position_SetPosition |].
      split; [rewrite in_app_iff; tauto |].
      intros proxy Hproxy. rewrite in_app_iff. right. apply Hget. congruence.
  - cbn [bind]. rewrite Hpos. cbn [bind]. rewrite orb_false_r.
    destruct (Actor st) as [actor |] eqn:Ha;
      [destruct (negb (_ && _ && _)) eqn:Hmoved |].
    + destruct (PlaceActor_bound env st actor p node sliceNode Hs Hp Hn)
        as (st2 & w2 & Hpl & Hxyz & Hp2 & Hc2 & _ & _ & Ht2 & Hno2).
      rewrite Hpl. cbn [bind]. rewrite Hp2, Hp. cbn [bind].
      unfold GetCrosshairNode. rewrite Hn. cbn [bind].
      exists (log CallCacheCopy (set_CrosshairNodeCache node st2)), w2.
      do 2 eexists. split_all; try exact Hprop; try exact Hpos; try reflexivity.
      * simpl. congruence.
      * simpl. rewrite Ht2, <- !app_assoc. reflexivity.
      * exact Hno2.
      * intros _. destruct (DisplayXYZ env sliceNode node) as [[x y] z].
        destruct Hxyz as (Ha2 & Hset & Hget).
        eexists. split; [exact Ha2 |].
        split; [apply Position_SetPosition |]. split; assumption.
    + cbn [bind]. rewrite Hp. cbn [bind].
      unfold GetCrosshairNode. rewrite Hn. cbn [bind].
      exists (log CallCacheCopy (set_CrosshairNodeCache node st)), [].
      do 2 eexists. split_all; try exact Hprop; try exact Hpos; try reflexivity.
      * simpl. congruence.
      * intros [].
      * intros [H | [H _]]; discriminate H.
    + cbn [bind]. rewrite Hp. cbn [bind].
      unfold GetCrosshairNode. rewrite Hn. cbn [bind].
      exists (log CallCacheCopy (set_CrosshairNodeCache node st)), [].
      do 2 eexists. split_all; try exact Hprop; try exact Hpos; try reflexivity.
      * simpl. congruence.
      * intros [].
      * intros [H | [_ H]]; [discriminate H | now elim H].
Qed.

Lemma DisplayXYZ_identity env sliceNode node :
  XYToRAS sliceNode = Identity ->
  Invert env Identity = Identity ->
  CrosshairRAS node = (10, 20, 30)%float ->
  DisplayXYZ env sliceNode node = (10, 20, 30)%float.
Proof.
  intros Hx Hi Hr. unfold DisplayXYZ. rewrite Hx, Hi, Hr. reflexivity.
Qed.

(** C5: when the handler of a crosshair node's modified event gets to
    update the position (the properties changed, or the position changed
    and there is a glyph), the glyph's position becomes the x and y of the
    inverse of the slice node's XY-to-RAS matrix applied to (ras, 1) and
    divided by the last component, and a bound light box proxy is asked
    for the renderer at the depth z so obtained. With the identity matrix
    and the crosshair at RAS (10, 20, 30) the position is (10, 20) and the
    proxy is asked at depth 30. *)
Theorem ProcessMRMLEvents_places_glyph env st caller c p node sliceNode size :
  from_updating_scene env caller = false ->
  Nodes env caller = Some (AsCrosshairNode c) ->
  CrosshairNode st = Some p ->
  Nodes env p = Some (AsCrosshairNode node) ->
  MRMLSliceNode env = Some sliceNode ->
  ScreenSize env = Some size ->
  DidCrosshairPropertyChange env st = Return true
  \/ (DidCrosshairPositionChange env st = Return true /\ Actor st <> None) ->
  exists st' actor work,
    ProcessMRMLEvents env caller ModifiedEvent st = Return st'
    /\ Actor st' = Some actor
    /\ Trace st' = Trace st ++ work
    /\ (let '(x, y, z) := DisplayXYZ env sliceNode node in
        Position actor = (x, y)
        /\ In (CallSetPosition x y) work
        /\ forall proxy, LightBoxRendererManagerProxy st = Some proxy ->
                         In (CallGetRenderer proxy z) work)
    /\ (XYToRAS sliceNode = Identity ->
        Invert env Identity = Identity ->
        CrosshairRAS node = (10, 20, 30)%float ->
        Position actor = (10, 20)%float
        /\ forall proxy, LightBoxRendererManagerProxy st = Some proxy ->
                         In (CallGetRenderer proxy 30%float) work).
Proof.
  intros Hfrom Hcaller Hp Hn Hs Hz Hdue.
  destruct (CrosshairNodeModified_bound env st p node sliceNode size Hp Hn Hs Hz)
    as (st1 & work & b1 & b2 & Hb1 & Hb2 & Hm & _ & _ & Ht & _ & Hpose).
  destruct Hpose as (actor & Ha & Hxyz).
  { destruct Hdue as [H | [H Hact]]; [left | right; split; trivial]; congruence. }
  exists (RequestRender st1), actor, (work ++ [CallCacheCopy; CallRequestRender]).
  unfold ProcessMRMLEvents. rewrite Hfrom, Hcaller, Hm. cbn [bind].
  split; [reflexivity |]. split; [exact Ha |].
  split; [simpl; rewrite Ht, <- !app_assoc; reflexivity |].
  assert (Hin : forall e, In e work -> In e (work ++ [CallCacheCopy; CallRequestRender]))
    by (intros e He; apply in_or_app; now left).
  split.
  - destruct (DisplayXYZ env sliceNode node) as [[x y] z].
    destruct Hxyz as (Hpos & Hset & Hget). auto.
  - intros Hx Hi Hr.
    rewrite (DisplayXYZ_identity env sliceNode node Hx Hi Hr) in Hxyz.
    destruct Hxyz as (Hpos & Hset & Hget). auto.
Qed.

Lemma ProcessMRMLEvents_places_glyph_witness :
  exists st' actor work,
    ProcessMRMLEvents (Sample.env Sample.crosshair false) 10%nat ModifiedEvent
      (Sample.bound Sample.fresh) = Return st'
    /\ Actor st' = Some actor
    /\ Trace st' = Trace (Sample.bound Sample.fresh) ++ work
    /\ (let '(x, y, z) :=
          DisplayXYZ (Sample.env Sample.crosshair false) Sample.red Sample.crosshair in
        Position actor = (x, y)
        /\ In (CallSetPosition x y) work
        /\ forall proxy,
             LightBoxRendererManagerProxy (Sample.bound Sample.fresh) = Some proxy ->
             In (CallGetRenderer proxy z) work)
    /\ (XYToRAS Sample.red = Identity ->
        Invert (Sample.env Sample.crosshair false) Identity = Identity ->
        CrosshairRAS Sample.crosshair = (10, 20, 30)%float ->
        Position actor = (10, 20)%float
        /\ forall proxy,
             LightBoxRendererManagerProxy (Sample.bound Sample.fresh) = Some proxy ->
             In (CallGetRenderer proxy 30%float) work).
Proof.
  apply (ProcessMRMLEvents_places_glyph (Sample.env Sample.crosshair false)
           (Sample.bound Sample.fresh) 10%nat Sample.crosshair 10%nat
           Sample.crosshair Sample.red (800, 600));
    try reflexivity.
  left. vm_compute. reflexivity.
Defined.

(** ** Refreshing the cache *)

Lemma Mode_neb_same m : Crosshair.Mode_neb m m = false.
Proof.
  unfold Crosshair.Mode_neb, Crosshair.Mode_eqb.
  destruct (Crosshair.Mode_eq_dec m m); [reflexivity | congruence].
Qed.

Lemma Thickness_neb_same t : Crosshair.Thickness_neb t t = false.
Proof.
  unfold Crosshair.Thickness_neb, Crosshair.Thickness_eqb.
  destruct (Crosshair.Thickness_eq_dec t t); [reflexivity | congruence].
Qed.

(** C6: handling a crosshair node's modified event copies the bound node
    into the cache exactly once, as the last step before the render
    request and after whatever rebuilding and placing was due; the copy is
    whole (the cache equals the node), so that afterwards the property test
    no longer fires, and neither does the position test when the three
    coordinates are finite numbers. *)
Theorem ProcessMRMLEvents_refreshes_cache_last env st caller c p node sliceNode size :
  from_updating_scene env caller = false ->
  Nodes env caller = Some (AsCrosshairNode c) ->
  CrosshairNode st = Some p ->
  Nodes env p = Some (AsCrosshairNode node) ->
  MRMLSliceNode env = Some sliceNode ->
  ScreenSize env = Some size ->
  exists st' work,
    ProcessMRMLEvents env caller ModifiedEvent st = Return st'
    /\ Trace st' = Trace st ++ work ++ [CallCacheCopy; CallRequestRender]
    /\ ~ In CallCacheCopy work
    /\ CrosshairNodeCache st' = node
    /\ DidCrosshairPropertyChange env st' = Return false
    /\ (finite_position node = true ->
        DidCrosshairPositionChange env st' = Return false).
Proof.
  intros Hfrom Hcaller Hp Hn Hs Hz.
  destruct (CrosshairNodeModified_bound env st p node sliceNode size Hp Hn Hs Hz)
    as (st1 & work & b1 & b2 & _ & _ & Hm & Hp1 & Hc & Ht & Hno & _).
  exists (RequestRender st1), work.
  unfold ProcessMRMLEvents. rewrite Hfrom, Hcaller, Hm. cbn [bind].
  split; [reflexivity |].
  split; [simpl; rewrite Ht, <- !app_assoc; reflexivity |].
  split; [exact Hno |]. split; [exact Hc |].
  assert (Hp' : CrosshairNode (RequestRender st1) = Some p)
    by (simpl; congruence).
  split.
  - rewrite (DidCrosshairPropertyChange_bound env (RequestRender st1) p node Hp' Hn).
    simpl. rewrite Hc, Mode_neb_same, Thickness_neb_same. reflexivity.
  - intros Hfin.
    rewrite (DidCrosshairPositionChange_bound env (RequestRender st1) p node Hp' Hn).
    simpl. rewrite Hc. unfold deltas, finite_position in *.
    destruct (CrosshairRAS node) as [[ras0 ras1] ras2].
    apply andb_true_iff in Hfin. destruct Hfin as [Hfin H2].
    apply andb_true_iff in Hfin. destruct Hfin as [H0 H1].
    now rewrite !float_sub_self_below_eps.
Qed.

Lemma ProcessMRMLEvents_refreshes_cache_last_witness :
  exists st' work,
    ProcessMRMLEvents (Sample.env Sample.crosshair false) 10%nat ModifiedEvent
      (Sample.bound Sample.fresh) = Return st'
    /\ Trace st' = Trace (Sample.bound Sample.fresh) ++ work
                   ++ [CallCacheCopy; CallRequestRender]
    /\ ~ In CallCacheCopy work
    /\ CrosshairNodeCache st' = Sample.crosshair
    /\ DidCrosshairPropertyChange (Sample.env Sample.crosshair false) st' = Return false
    /\ (finite_position Sample.crosshair = true ->
        DidCrosshairPositionChange (Sample.env Sample.crosshair false) st'
        = Return false).
Proof.
  apply (ProcessMRMLEvents_refreshes_cache_last (Sample.env Sample.crosshair false)
           (Sample.bound Sample.fresh) 10%nat Sample.crosshair 10%nat
           Sample.crosshair Sample.red (800, 600));
    reflexivity.
Defined.

(** ** Binding resolution *)

Lemma scan_crosshair_absent env l :
  crosshairs_named env l ->
  (forall p, In p l -> ~ is_default_crosshair env p) ->
  scan_crosshair env l = AssertionFailed.
Proof.
  induction l as [| node rest IH]; intros Hnamed Hnone; [reflexivity |].
  assert (Hrest : scan_crosshair env rest = AssertionFailed).
  { apply IH.
    - intros q c Hq. apply Hnamed. now right.
    - intros q Hq. apply Hnone. now right. }
  cbn [scan_crosshair].
  destruct (Nodes env node) as [[| c |] |] eqn:Hn; try exact Hrest.
  destruct (CrosshairName c) as [name |] eqn:Hname;
    [| now elim (Hnamed node c (or_introl eq_refl) Hn)].
  cbn [string_equal bind].
  destruct (String.eqb_spec name default_name) as [E | _]; [| exact Hrest].
  exfalso. apply (Hnone node); [now left |]. exists c. split; congruence.
Qed.

Lemma scan_crosshair_present env l p :
  crosshairs_named env l ->
  In p l -> is_default_crosshair env p ->
  exists q, scan_crosshair env l = Return (Some q)
            /\ In q l /\ is_default_crosshair env q.
Proof.
  induction l as [| node rest IH]; intros Hnamed Hin Hp; [destruct Hin |].
  assert (Hrest : ~ is_default_crosshair env node ->
                  exists q, scan_crosshair env rest = Return (Some q)
                            /\ In q (node :: rest) /\ is_default_crosshair env q).
  { intros Hnot. destruct Hin as [-> | Hin]; [contradiction |].
    destruct (IH (fun q c Hq => Hnamed q c (or_intror Hq)) Hin Hp)
      as (q & Hq & Hqin & Hqd).
    exists q. split; [exact Hq |]. split; [now right | exact Hqd]. }
  cbn [scan_crosshair].
  destruct (Nodes env node) as [[| c |] |] eqn:Hn;
    try (apply Hrest; intros (c' & Hc' & _); congruence).
  destruct (CrosshairName c) as [name |] eqn:Hname;
    [| now elim (Hnamed node c (or_introl eq_refl) Hn)].
  cbn [string_equal bind].
  destruct (String.eqb_spec name default_name) as [E | NE].
  - exists node. split; [reflexivity |]. split; [now left |].
    exists c. split; congruence.
  - apply Hrest. intros (c' & Hc' & Hd). congruence.
Qed.

(** A crosshair node without a name stops the scan, whatever comes after
    it, once the nodes before it have been passed. *)
Lemma scan_crosshair_null_name env before p c after :
  crosshairs_passed env before ->
  Nodes env p = Some (AsCrosshairNode c) ->
  CrosshairName c = None ->
  scan_crosshair env (before ++ p :: after) = Undefined.
Proof.
  intros Hpassed Hn Hname.
  induction before as [| node rest IH]; cbn [app scan_crosshair].
  - now rewrite Hn, Hname.
  - assert (Hrest : scan_crosshair env (rest ++ p :: after) = Undefined).
    { apply IH. intros q c' Hq. apply Hpassed. now right. }
    destruct (Nodes env node) as [[| c' |] |] eqn:Hn'; try exact Hrest.
    destruct (Hpassed node c' (or_introl eq_refl) Hn') as (name & Hc' & Hne).
    rewrite Hc'. cbn [string_equal bind].
    destruct (String.eqb_spec name default_name); [contradiction | exact Hrest].
Qed.

Lemma scan_slice_composite_absent env layout l :
  (forall p, In p l -> ~ is_composite_of env layout p) ->
  scan_slice_composite env (Some layout) l = AssertionFailed.
Proof.
  induction l as [| node rest IH]; intros Hnone; [reflexivity |].
  assert (Hrest : scan_slice_composite env (Some layout) rest = AssertionFailed)
    by (apply IH; intros q Hq; apply Hnone; now right).
  simpl. destruct (Nodes env node) as [[[name |] | |] |] eqn:Hn; try exact Hrest.
  cbn [bind]. destruct (String.eqb_spec name layout) as [E | _]; [| exact Hrest].
  exfalso. apply (Hnone node); [now left |]. unfold is_composite_of. congruence.
Qed.

Lemma scan_slice_composite_present env layout l p :
  In p l -> is_composite_of env layout p ->
  exists q, scan_slice_composite env (Some layout) l = Return (Some q)
            /\ In q l /\ is_composite_of env layout q.
Proof.
  induction l as [| node rest IH]; intros Hin Hp; [destruct Hin |].
  assert (Hrest : ~ is_composite_of env layout node ->
                  exists q, scan_slice_composite env (Some layout) rest = Return (Some q)
                            /\ In q (node :: rest) /\ is_composite_of env layout q).
  { intros Hnot. destruct Hin as [-> | Hin]; [contradiction |].
    destruct (IH Hin Hp) as (q & Hq & Hqin & Hqd).
    exists q. split; [exact Hq |]. split; [now right | exact Hqd]. }
  simpl. destruct (Nodes env node) as [[[name |] | |] |] eqn:Hn;
    try (apply Hrest; unfold is_composite_of; congruence).
  cbn [bind]. destruct (String.eqb_spec name layout) as [E | NE].
  - exists node. split; [reflexivity |]. split; [now left |].
    unfold is_composite_of. congruence.
  - apply Hrest. unfold is_composite_of. congruence.
Qed.

Lemma In_GetCrosshairNodes env scene p :
  is_default_crosshair env p ->
  In p (CurrentScene scene) -> In p (GetCrosshairNodes env scene).
Proof.
  intros (c & Hc & _) Hin. unfold GetCrosshairNodes.
  apply filter_In. split; [exact Hin |]. now rewrite Hc.
Qed.

(** C8 (what the code does instead): [FindCrosshairNode] compares the
    name of each crosshair node it meets with "default" without testing
    the name for null. A crosshair node that was never named, met before
    any node named "default", is a null dereference: the scan neither
    reaches its assertion nor returns the "default" node that the scene
    holds further on. [FindSliceCompositeNode], its sibling, does test the
    layout name of each node before comparing it. *)
Theorem FindCrosshairNode_null_name env scene before p c after :
  MRMLScene env = Some scene ->
  CurrentScene scene = before ++ p :: after ->
  crosshairs_passed env before ->
  Nodes env p = Some (AsCrosshairNode c) ->
  CrosshairName c = None ->
  FindCrosshairNode env = Undefined
  /\ forall q, In q after -> is_default_crosshair env q ->
                In q (CurrentScene scene)
                /\ FindCrosshairNode env <> Return (Some q)
                /\ FindCrosshairNode env <> AssertionFailed.
Proof.
  intros Hscene Hlist Hpassed Hn Hname.
  assert (E : FindCrosshairNode env = Undefined).
  { unfold FindCrosshairNode, GetCrosshairNodes. rewrite Hscene, Hlist.
    rewrite filter_app. cbn [filter]. rewrite Hn.
    apply (scan_crosshair_null_name env _ p c _); [| exact Hn | exact Hname].
    intros q c' Hq. apply filter_In in Hq. apply Hpassed, Hq. }
  split; [exact E |]. intros q Hin _. rewrite E, Hlist.
  split; [| split]; try discriminate.
  apply in_or_app. right. now right.
Qed.

Lemma FindCrosshairNode_null_name_witness :
  FindCrosshairNode Sample.env_unnamed = Undefined
  /\ forall q, In q [11; 10]%nat -> is_default_crosshair Sample.env_unnamed q ->
                In q (CurrentScene Sample.scene_unnamed)
                /\ FindCrosshairNode Sample.env_unnamed <> Return (Some q)
                /\ FindCrosshairNode Sample.env_unnamed <> AssertionFailed.
Proof.
  apply (FindCrosshairNode_null_name Sample.env_unnamed Sample.scene_unnamed
           [12%nat] 13%nat Sample.unnamed [11; 10]%nat);
    try reflexivity.
  intros q c [<- | []] Hc. discriminate Hc.
Defined.

(** X21: in a scene whose crosshair nodes all have a name, a scan that
    finds no crosshair node named "default" ends in the assertion of
    [FindCrosshairNode], and a scan of a scene that holds one returns a
    node of the scene that is one (so the expected node, when it is the
    only one). The same holds for [FindSliceCompositeNode] and the slice
    composite nodes whose layout name equals the slice node's, for any
    scene. *)
Theorem Find_nodes_assert_or_return env scene :
  MRMLScene env = Some scene ->
  (crosshairs_named env (CurrentScene scene) ->
   ((forall p, In p (CurrentScene scene) -> ~ is_default_crosshair env p) ->
    FindCrosshairNode env = AssertionFailed)
   /\ (forall p, In p (CurrentScene scene) -> is_default_crosshair env p ->
       exists q, FindCrosshairNode env = Return (Some q)
                 /\ In q (CurrentScene scene) /\ is_default_crosshair env q))
  /\ (forall sliceNode layout,
        MRMLSliceNode env = Some sliceNode ->
        LayoutName sliceNode = Some layout ->
        ((forall p, In p (CurrentScene scene) -> ~ is_composite_of env layout p) ->
         FindSliceCompositeNode env = AssertionFailed)
        /\ (forall p, In p (CurrentScene scene) -> is_composite_of env layout p ->
            exists q, FindSliceCompositeNode env = Return (Some q)
                      /\ In q (CurrentScene scene) /\ is_composite_of env layout q)).
Proof.
  intros Hscene. unfold FindCrosshairNode, FindSliceCompositeNode. rewrite Hscene.
  split.
  - intros Hnamed.
    assert (Hnamed' : crosshairs_named env (GetCrosshairNodes env scene)).
    { intros q c Hq. unfold GetCrosshairNodes in Hq. apply filter_In in Hq.
      apply Hnamed, Hq. }
    split.
    + intros Hnone. apply scan_crosshair_absent; [exact Hnamed' |].
      intros p Hp. apply Hnone. unfold GetCrosshairNodes in Hp.
      now apply filter_In in Hp.
    + intros p Hin Hp.
      destruct (scan_crosshair_present env (GetCrosshairNodes env scene) p Hnamed')
        as (q & Hq & Hqin & Hqd); [now apply In_GetCrosshairNodes | exact Hp |].
      exists q. split; [exact Hq |]. split; [| exact Hqd].
      unfold GetCrosshairNodes in Hqin. now apply filter_In in Hqin.
  - intros sliceNode layout Hs Hl. rewrite Hs, Hl. split.
    + apply scan_slice_composite_absent.
    + apply scan_slice_composite_present.
Qed.

Lemma Find_nodes_assert_or_return_witness :
  (exists q, FindCrosshairNode (Sample.env Sample.crosshair false) = Return (Some q)
             /\ In q (CurrentScene (Sample.scene false))
             /\ is_default_crosshair (Sample.env Sample.crosshair false) q)
  /\ (exists q, FindSliceCompositeNode (Sample.env Sample.crosshair false) = Return (Some q)
                /\ In q (CurrentScene (Sample.scene false))
                /\ is_composite_of (Sample.env Sample.crosshair false) "Red" q)
  /\ FindCrosshairNode (Sample.env Sample.fresh false) = AssertionFailed.
Proof.
  assert (Hnamed : forall node, CrosshairName node <> None ->
                     crosshairs_named (Sample.env node false)
                       (CurrentScene (Sample.scene false))).
  { intros node Hnode p c Hin Hc.
    simpl in Hin. destruct Hin as [<- | [<- | [<- | []]]];
      simpl in Hc; try discriminate Hc.
    now injection Hc as <-. }
  split; [| split].
  - apply (proj2 (proj1 (Find_nodes_assert_or_return
                           (Sample.env Sample.crosshair false) (Sample.scene false)
                           eq_refl)
                        (Hnamed Sample.crosshair ltac:(discriminate))) 10%nat).
    + simpl. tauto.
    + exists Sample.crosshair. split; reflexivity.
  - apply (proj2 (proj2 (Find_nodes_assert_or_return
                           (Sample.env Sample.crosshair false)
                           (Sample.scene false) eq_refl)
                        Sample.red "Red"%string eq_refl eq_refl) 11%nat).
    + simpl. tauto.
    + reflexivity.
  - apply (proj1 (proj1 (Find_nodes_assert_or_return
                           (Sample.env Sample.fresh false) (Sample.scene false)
                           eq_refl)
                        (Hnamed Sample.fresh ltac:(discriminate)))).
    intros p Hin (c & Hc & Hname).
    simpl in Hin. destruct Hin as [<- | [<- | [<- | []]]];
      simpl in Hc; try discriminate Hc.
    injection Hc as <-. discriminate Hname.
Defined.

Lemma ptr_eqb_refl a : ptr_eqb a a = true.
Proof. destruct a; simpl; [apply Nat.eqb_refl | reflexivity]. Qed.

Lemma SetSliceCompositeNode_bound n st :
  SliceCompositeNode (SetSliceCompositeNode n st) = n.
Proof.
  unfold SetSliceCompositeNode.
  destruct (ptr_eqb (SliceCompositeNode st) n) eqn:E.
  - destruct (SliceCompositeNode st), n; simpl in E; try discriminate E;
      [apply Nat.eqb_eq in E; now subst | reflexivity].
  - destruct (SliceCompositeNode st), n; reflexivity.
Qed.

Lemma SetCrosshairNode_bound n st :
  CrosshairNode (SetCrosshairNode n st) = n.
Proof.
  unfold SetCrosshairNode.
  destruct (ptr_eqb (CrosshairNode st) n) eqn:E.
  - destruct (CrosshairNode st), n; simpl in E; try discriminate E;
      [apply Nat.eqb_eq in E; now subst | reflexivity].
  - destruct (CrosshairNode st), n; reflexivity.
Qed.

Lemma SetCrosshairNode_SliceCompositeNode n st :
  SliceCompositeNode (SetCrosshairNode n st) = SliceCompositeNode st.
Proof.
  unfold SetCrosshairNode.
  destruct (ptr_eqb _ _); [reflexivity |].
  destruct (CrosshairNode st), n; reflexivity.
Qed.

Lemma SetSliceCompositeNode_same n st :
  SliceCompositeNode st = n -> SetSliceCompositeNode n st = st.
Proof. intros <-. unfold SetSliceCompositeNode. now rewrite ptr_eqb_refl. Qed.

Lemma SetCrosshairNode_same n st :
  CrosshairNode st = n -> SetCrosshairNode n st = st.
Proof. intros <-. unfold SetCrosshairNode. now rewrite ptr_eqb_refl. Qed.

(** A successful scan for the slice composite node returns a node whose
    layout name compares equal to the one looked for. *)
Lemma scan_slice_composite_Return env layout l r :
  scan_slice_composite env layout l = Return r ->
  exists q name,
    r = Some q
    /\ Nodes env q = Some (AsSliceCompositeNode (Some name))
    /\ strcmp_equal (Some name) layout = Return true.
Proof.
  induction l as [| node rest IH]; cbn [scan_slice_composite]; [discriminate |].
  destruct (Nodes env node) as [[[name |] | |] |] eqn:Hn; try exact IH.
  destruct (strcmp_equal (Some name) layout) as [[|] | |] eqn:Hc;
    cbn [bind]; try discriminate; [| exact IH].
  intros [= <-]. now exists node, name.
Qed.

(** C7: binding the slice composite node, or the crosshair node, that is
    bound already changes nothing, in particular it adds no observer; and
    a second [UpdateSliceNode] in the same surroundings leaves the state
    reached by the first one, with its observers, as it is. *)
Theorem UpdateSliceNode_idempotent :
  (forall n st,
      SetSliceCompositeNode n (SetSliceCompositeNode n st) = SetSliceCompositeNode n st)
  /\ (forall n st,
        SetCrosshairNode n (SetCrosshairNode n st) = SetCrosshairNode n st)
  /\ (forall env st st1,
        UpdateSliceNode env st = Return st1 ->
        UpdateSliceNode env st1 = Return st1).
Proof.
  split; [| split].
  - intros n st. apply SetSliceCompositeNode_same, SetSliceCompositeNode_bound.
  - intros n st. apply SetCrosshairNode_same, SetCrosshairNode_bound.
  - intros env st st1. unfold UpdateSliceNode.
    destruct (match MRMLSliceNode env with
              | Some sliceNode => _
              | None => _
              end) as [[] | |] eqn:Hassert; cbn [bind]; try discriminate.
    destruct (match SliceCompositeNode st with
              | Some p => _
              | None => _
              end) as [search | |] eqn:Hsearch; cbn [bind]; try discriminate.
    destruct (FindCrosshairNode env) as [crosshairNode | |] eqn:Hfc;
      [| destruct search; [destruct (FindSliceCompositeNode env) |];
         cbn [bind]; discriminate ..].
    destruct search.
    + destruct (FindSliceCompositeNode env) as [found | |] eqn:Hfs;
        cbn [bind]; try discriminate.
      intros [= <-].
      set (st1 := SetCrosshairNode crosshairNode (SetSliceCompositeNode found st)).
      assert (Hs1 : SliceCompositeNode st1 = found)
        by (unfold st1; rewrite SetCrosshairNode_SliceCompositeNode;
            apply SetSliceCompositeNode_bound).
      assert (Hc1 : CrosshairNode st1 = crosshairNode)
        by apply SetCrosshairNode_bound.
      rewrite Hs1.
      unfold FindSliceCompositeNode in Hfs.
      destruct (MRMLScene env) as [scene |] eqn:Hscene;
        [destruct (MRMLSliceNode env) as [sliceNode |] eqn:Hslice |].
      * apply scan_slice_composite_Return in Hfs.
        destruct Hfs as (q & name & -> & Hq & Hcmp).
        rewrite Hq, Hcmp. cbn [bind negb].
        now rewrite (SetCrosshairNode_same _ _ Hc1).
      * injection Hfs as <-. cbn [bind].
        rewrite (SetSliceCompositeNode_same _ _ Hs1).
        now rewrite (SetCrosshairNode_same _ _ Hc1).
      * injection Hfs as <-. cbn [bind].
        rewrite (SetSliceCompositeNode_same _ _ Hs1).
        now rewrite (SetCrosshairNode_same _ _ Hc1).
    + cbn [bind]. intros [= <-].
      rewrite SetCrosshairNode_SliceCompositeNode, Hsearch. cbn [bind].
      now rewrite (SetCrosshairNode_same _ _ (SetCrosshairNode_bound _ _)).
Qed.

Lemma UpdateSliceNode_idempotent_witness :
  UpdateSliceNode (Sample.env Sample.crosshair false) (Sample.bound Sample.fresh)
  = Return (Sample.bound Sample.fresh).
Proof.
  apply (proj2 (proj2 UpdateSliceNode_idempotent)
           (Sample.env Sample.crosshair false)
           (SetLightBoxRendererManagerProxy (Some 30%nat)
              (vtkInternal_New Sample.fresh [] 100%nat))).
  vm_compute. reflexivity.
Defined.

(** ** Building without a crosshair node *)

(** C10: with no crosshair node bound [BuildCrosshair] returns the state
    it was given, untouched; so [AdditionalInitializeStep] only records
    the mouse move event to watch, and on a newly constructed manager it
    leaves no actor, the renderers as they were and nothing in the log. *)
Theorem BuildCrosshair_unbound env st :
  CrosshairNode st = None ->
  BuildCrosshair env st = Return st
  /\ AdditionalInitializeStep env st
     = Return (AddInteractorStyleObservableEvent MouseMoveEvent st)
  /\ (forall cache props next,
        st = vtkInternal_New cache props next ->
        exists st',
          AdditionalInitializeStep env st = Return st'
          /\ Actor st' = None /\ Attached st' = props /\ Trace st' = []).
Proof.
  intros Hnone. split; [| split].
  - unfold BuildCrosshair. now rewrite Hnone.
  - unfold AdditionalInitializeStep, BuildCrosshair. simpl. now rewrite Hnone.
  - intros cache props next ->. eexists. split; [reflexivity |]. now simpl.
Qed.

Lemma BuildCrosshair_unbound_witness :
  BuildCrosshair (Sample.env Sample.crosshair false)
    (vtkInternal_New Sample.fresh [] 100%nat)
  = Return (vtkInternal_New Sample.fresh [] 100%nat).
Proof.
  apply (BuildCrosshair_unbound (Sample.env Sample.crosshair false)
           (vtkInternal_New Sample.fresh [] 100%nat)).
  reflexivity.
Defined.

(** ** The glyph and the renderers *)

Lemma In_RemoveActor r a st x :
  In x (Attached (RemoveActor r a st)) <-> In x (Attached st) /\ x <> (r, a).
Proof.
  unfold RemoveActor. simpl. rewrite filter_In. destruct x as [r' a']. simpl.
  split; intros [Hin Hne]; (split; [exact Hin |]).
  - intros [= -> ->]. now rewrite !Nat.eqb_refl in Hne.
  - destruct (Nat.eqb_spec r' r) as [-> |]; [| reflexivity].
    destruct (Nat.eqb_spec a' a) as [-> |]; [| reflexivity].
    now elim Hne.
Qed.

Lemma In_AddActor r a st x :
  In x (Attached (AddActor r a st)) -> In x (Attached st) \/ x = (r, a).
Proof.
  unfold AddActor. destruct (holds r a (Attached st)); simpl; [now left |].
  rewrite in_app_iff. simpl. intuition.
Qed.

Lemma AddActor_frame r a st :
  Actor (AddActor r a st) = Actor st
  /\ LightBoxRenderer (AddActor r a st) = LightBoxRenderer st
  /\ NextActor (AddActor r a st) = NextActor st.
Proof. unfold AddActor. destruct (holds r a (Attached st)); now simpl. Qed.

Lemma BuildCrosshair_glyph env st st' :
  glyph_in_own_renderer st ->
  BuildCrosshair env st = Return st' ->
  glyph_in_own_renderer st'.
Proof.
  intros [Hfresh Hown]. unfold BuildCrosshair.
  destruct (CrosshairNode st) as [p |]; [| intros [= <-]; now split].
  destruct (ScreenSize env) as [size |]; cbn [bind]; [| discriminate].
  destruct (GetCrosshairNode env p) as [node | |]; cbn [bind]; try discriminate.
  intros [= <-].
  set (st0 := RemoveOldActor st).
  assert (H0 : NextActor st0 = NextActor st
               /\ LightBoxRenderer st0 = LightBoxRenderer st
               /\ forall x, In x (Attached st0) -> In x (Attached st)).
  { unfold st0, RemoveOldActor.
    destruct (Actor st) as [old |];
      [| split; [reflexivity | split; [reflexivity | intros x Hx; exact Hx]]].
    destruct (LightBoxRenderer st) as [r |] eqn:Hl; simpl; rewrite ?Hl;
      (split; [reflexivity | split; [reflexivity | intros x Hx]]);
      [| exact Hx].
    apply (In_RemoveActor r (ActorAddress old) st x) in Hx. tauto. }
  destruct H0 as (Hn0 & Hr0 & Ha0).
  unfold glyph_in_own_renderer.
  cbn [Attached NextActor Actor LightBoxRenderer log set_Actor set_NextActor
       vtkActor2D_New ActorAddress].
  assert (Haddr : forall actor,
             Some (CrosshairProperties node
                     (SetGeometry (CrosshairLines (CrosshairMode node) size)
                        (vtkActor2D_New (NextActor st0)))) = Some actor ->
             ActorAddress actor = NextActor st0).
  { intros actor [= <-]. now rewrite ActorAddress_CrosshairProperties. }
  destruct (LightBoxRenderer st0) as [r |] eqn:Hr.
  - destruct (AddActor_frame r (NextActor st0) (set_NextActor (S (NextActor st0)) st0))
      as (_ & Hr1 & Hn1).
    rewrite Hn1, Hr1. cbn [NextActor LightBoxRenderer set_NextActor].
    assert (Hin : forall r' a',
               In (r', a') (Attached (AddActor r (NextActor st0)
                                        (set_NextActor (S (NextActor st0)) st0))) ->
               (a' < NextActor st0)%nat \/ (r', a') = (r, NextActor st0)).
    { intros r' a' H. apply In_AddActor in H. destruct H as [H | H]; [left | now right].
      rewrite Hn0. apply (Hfresh r'). apply Ha0. exact H. }
    split.
    + intros r' a' H. destruct (Hin r' a' H) as [Hlt | [= _ ->]]; lia.
    + intros actor Ha. rewrite (Haddr actor Ha). split; [lia |].
      intros r' H. destruct (Hin r' _ H) as [Hlt | [= -> ]]; [lia | exact Hr].
  - cbn [NextActor Attached LightBoxRenderer set_NextActor]. split.
    + intros r' a' H. apply Ha0, Hfresh in H. lia.
    + intros actor Ha. rewrite (Haddr actor Ha). split; [lia |].
      intros r' H. apply Ha0, Hfresh in H. lia.
Qed.

Lemma PlaceActor_glyph env st actor st' :
  glyph_in_own_renderer st ->
  Actor st = Some actor ->
  PlaceActor env actor st = Return st' ->
  glyph_in_own_renderer st'.
Proof.
  intros [Hfresh Hown] Ha. destruct (Hown actor Ha) as [Hlt Hmine].
  unfold PlaceActor.
  destruct (MRMLSliceNode env) as [sliceNode |]; cbn [bind]; [| discriminate].
  destruct (CrosshairNode st) as [p |]; cbn [bind]; [| discriminate].
  destruct (GetCrosshairNode env p) as [node | |]; cbn [bind]; try discriminate.
  destruct (CrosshairRAS node) as [[ras0 ras1] ras2].
  destruct (MultiplyPoint _ _) as [[[x y] z] w].
  cbn [LightBoxRendererManagerProxy LightBoxRenderer log set_Actor SetPosition
       ActorAddress].
  set (placed := SetPosition (x / w) (y / w) actor).
  assert (Hkeep : forall e1 e2,
             glyph_in_own_renderer
               (log e1 (log e2 (set_Actor (Some placed) st)))).
  { intros e1 e2. split; simpl; [exact Hfresh |].
    intros a [= <-]. simpl. now split. }
  destruct (LightBoxRendererManagerProxy st) as [proxy |].
  2:{ intros [= <-]. split; simpl; [exact Hfresh |].
      intros a [= <-]. simpl. now split. }
  destruct (negb (ptr_eqb _ _)); [| intros [= <-]; apply Hkeep].
  intros [= <-].
  set (s0 := log (CallGetRenderer proxy (z / w))
               (log (CallSetPosition (x / w) (y / w)) (set_Actor (Some placed) st))).
  set (s1 := match LightBoxRenderer st with
             | Some old => RemoveActor old (ActorAddress actor) s0
             | None => s0
             end).
  assert (H1 : Actor s1 = Some placed
               /\ NextActor s1 = NextActor st
               /\ forall r a, In (r, a) (Attached s1) ->
                              In (r, a) (Attached st) /\ a <> ActorAddress actor).
  { unfold s1. destruct (LightBoxRenderer st) as [old |] eqn:Hold.
    - split; [reflexivity |]. split; [reflexivity |].
      intros r a H. apply In_RemoveActor in H. destruct H as [H Hne].
      split; [exact H |]. intros ->. apply Hne.
      apply Hmine in H. congruence.
    - split; [reflexivity |]. split; [reflexivity |].
      intros r a H. split; [exact H |]. intros ->.
      apply Hmine in H. discriminate H. }
  destruct H1 as (Ha1 & Hn1 & Hin1).
  fold s0. fold s1.
  destruct (GetRenderer env proxy (z / w)) as [r |].
  - destruct (AddActor_frame r (ActorAddress actor) s1) as (Ha2 & _ & Hn2).
    split; cbn [Attached NextActor Actor LightBoxRenderer set_LightBoxRenderer].
    + intros r' a' H. rewrite Hn2, Hn1. apply In_AddActor in H.
      destruct H as [H | [= _ ->]]; [| exact Hlt].
      apply Hin1 in H. apply (Hfresh r'), H.
    + rewrite Ha2, Ha1, Hn2, Hn1. intros a [= <-]. simpl. split; [exact Hlt |].
      intros r' H. apply In_AddActor in H.
      destruct H as [H | [= ->]]; [| reflexivity].
      apply Hin1 in H. now elim (proj2 H).
  - split; cbn [Attached NextActor Actor LightBoxRenderer set_LightBoxRenderer].
    + intros r' a' H. rewrite Hn1. apply Hin1 in H. apply (Hfresh r'), H.
    + rewrite Ha1, Hn1. intros a [= <-]. simpl. split; [exact Hlt |].
      intros r' H. apply Hin1 in H. now elim (proj2 H).
Qed.

Lemma SetCrosshairNode_glyph n st :
  glyph_in_own_renderer st -> glyph_in_own_renderer (SetCrosshairNode n st).
Proof.
  unfold SetCrosshairNode. destruct (ptr_eqb _ _); [trivial |].
  destruct (CrosshairNode st), n; trivial.
Qed.

Lemma SetSliceCompositeNode_glyph n st :
  glyph_in_own_renderer st -> glyph_in_own_renderer (SetSliceCompositeNode n st).
Proof.
  unfold SetSliceCompositeNode. destruct (ptr_eqb _ _); [trivial |].
  destruct (SliceCompositeNode st), n; trivial.
Qed.

Lemma UpdateSliceNode_glyph env st st' :
  glyph_in_own_renderer st ->
  UpdateSliceNode env st = Return st' ->
  glyph_in_own_renderer st'.
Proof.
  intros Hinv. unfold UpdateSliceNode.
  destruct (match MRMLSliceNode env with
            | Some sliceNode => _
            | None => _
            end) as [[] | |]; cbn [bind]; try discriminate.
  destruct (match SliceCompositeNode st with
            | Some p => _
            | None => _
            end) as [search | |]; cbn [bind]; try discriminate.
  destruct search;
    [destruct (FindSliceCompositeNode env) as [found | |]; cbn [bind];
     try discriminate |];
    (destruct (FindCrosshairNode env) as [crosshairNode | |]; cbn [bind];
     try discriminate);
    intros [= <-]; apply SetCrosshairNode_glyph;
    [apply SetSliceCompositeNode_glyph |]; exact Hinv.
Qed.

Lemma CrosshairNodeModified_glyph env st st' :
  glyph_in_own_renderer st ->
  CrosshairNodeModified env st = Return st' ->
  glyph_in_own_renderer st'.
Proof.
  intros Hinv. unfold CrosshairNodeModified.
  destruct (DidCrosshairPropertyChange env st) as [propertyChange | |];
    cbn [bind]; try discriminate.
  destruct (if propertyChange then BuildCrosshair env st else Return st)
    as [st1 | |] eqn:Hb; cbn [bind]; try discriminate.
  assert (Hinv1 : glyph_in_own_renderer st1).
  { destruct propertyChange; [| now injection Hb as <-].
    exact (BuildCrosshair_glyph env st st1 Hinv Hb). }
  destruct (DidCrosshairPositionChange env st1) as [positionChange | |];
    cbn [bind]; try discriminate.
  destruct (match Actor st1 with
            | Some actor => _
            | None => _
            end) as [st2 | |] eqn:Hpl; cbn [bind]; try discriminate.
  assert (Hinv2 : glyph_in_own_renderer st2).
  { destruct (Actor st1) as [actor |] eqn:Ha; [| now injection Hpl as <-].
    destruct (positionChange || propertyChange); [| now injection Hpl as <-].
    exact (PlaceActor_glyph env st1 actor st2 Hinv1 Ha Hpl). }
  destruct (CrosshairNode st2) as [p |]; cbn [bind]; [| discriminate].
  destruct (GetCrosshairNode env p) as [node | |]; cbn [bind]; try discriminate.
  intros [= <-]. exact Hinv2.
Qed.

Lemma run_glyph env op st st' :
  glyph_in_own_renderer st ->
  run env op st = Return st' ->
  glyph_in_own_renderer st'.
Proof.
  intros Hinv. destruct op as [| | caller event | mgr]; simpl.
  - apply UpdateSliceNode_glyph, Hinv.
  - unfold AdditionalInitializeStep. apply BuildCrosshair_glyph. exact Hinv.
  - unfold ProcessMRMLEvents.
    destruct (from_updating_scene env caller); [now intros [= <-] |].
    destruct event; try (intros [= <-]; exact Hinv);
      try (apply UpdateSliceNode_glyph, Hinv).
    destruct (Nodes env caller) as [[| c |] |];
      try (cbn [bind]; intros [= <-]; exact Hinv).
    destruct (CrosshairNodeModified env st) as [st1 | |] eqn:Hm;
      cbn [bind]; try discriminate.
    intros [= <-]. exact (CrosshairNodeModified_glyph env st st1 Hinv Hm).
  - intros [= <-]. exact Hinv.
Qed.

Lemma Deleted_glyph d st :
  glyph_in_own_renderer st -> glyph_in_own_renderer (Deleted d st).
Proof.
  intros [Hfresh Hown]. destruct d as [node | renderer | proxy];
    [split; assumption | | split; assumption].
  split; simpl.
  - intros r a H. apply filter_In in H. apply (Hfresh r), H.
  - intros actor Ha. destruct (Hown actor Ha) as [Hlt Hmine].
    split; [exact Hlt |]. intros r H. apply filter_In in H.
    destruct H as [H Hne]. simpl in Hne.
    rewrite (Hmine r H). unfold forget. simpl.
    now destruct (Nat.eqb r renderer).
Qed.

Lemma reachable_glyph st : reachable st -> glyph_in_own_renderer st.
Proof.
  induction 1 as [cache props next Hfresh | env op st st' _ IH Hrun | d st _ IH].
  - split; simpl; [exact Hfresh | discriminate].
  - exact (run_glyph env op st st' IH Hrun).
  - exact (Deleted_glyph d st IH).
Qed.

(** C9: in every state the manager can reach, the glyph is held by at most
    one renderer (any two renderers holding it are the same one, the light
    box renderer the manager remembers); and when [BuildCrosshair] drops
    a glyph for a new one, no renderer holds the old glyph afterwards. *)
Theorem glyph_in_at_most_one_renderer st :
  reachable st ->
  (forall actor r1 r2,
      Actor st = Some actor ->
      In (r1, ActorAddress actor) (Attached st) ->
      In (r2, ActorAddress actor) (Attached st) ->
      r1 = r2 /\ LightBoxRenderer st = Some r1)
  /\ (forall env st' old r,
        Actor st = Some old ->
        CrosshairNode st <> None ->
        BuildCrosshair env st = Return st' ->
        ~ In (r, ActorAddress old) (Attached st')).
Proof.
  intros Hreach. destruct (reachable_glyph st Hreach) as [Hfresh Hown]. split.
  - intros actor r1 r2 Ha H1 H2.
    destruct (Hown actor Ha) as [_ Hmine].
    apply Hmine in H1. apply Hmine in H2. split; congruence.
  - intros env st' old r Ha Hbound. destruct (Hown old Ha) as [Hlt Hmine].
    unfold BuildCrosshair.
    destruct (CrosshairNode st) as [p |]; [clear Hbound | now elim Hbound].
    destruct (ScreenSize env) as [size |]; cbn [bind]; [| discriminate].
    destruct (GetCrosshairNode env p) as [node | |]; cbn [bind]; try discriminate.
    intros [= <-].
    cbn [Attached log set_Actor]. unfold RemoveOldActor. rewrite Ha.
    destruct (LightBoxRenderer st) as [renderer |] eqn:Hr;
      cbn [LightBoxRenderer set_Actor set_NextActor NextActor RemoveActor log
           set_Attached vtkActor2D_New ActorAddress]; rewrite ?Hr.
    + intros H. apply In_AddActor in H. destruct H as [H | [= _ E]]; [| lia].
      cbn [Attached set_NextActor set_Actor log set_Attached] in H.
      apply filter_In in H. destruct H as [H Hne].
      apply Hmine in H. injection H as ->.
      simpl in Hne. now rewrite !Nat.eqb_refl in Hne.
    + cbn [Attached set_NextActor set_Actor]. intros H.
      apply Hmine in H. discriminate H.
Qed.

Lemma glyph_in_at_most_one_renderer_witness :
  reachable Sample.shown
  /\ Attached Sample.shown = [(21, 100)]%nat
  /\ forall actor r1 r2,
       Actor Sample.shown = Some actor ->
       In (r1, ActorAddress actor) (Attached Sample.shown) ->
       In (r2, ActorAddress actor) (Attached Sample.shown) ->
       r1 = r2 /\ LightBoxRenderer Sample.shown = Some r1.
Proof.
  assert (R : reachable Sample.shown).
  { apply (reachable_run (Sample.env Sample.crosshair false)
             (DoProcessMRMLEvents 10%nat ModifiedEvent) (Sample.bound Sample.fresh)).
    - apply (reachable_run (Sample.env Sample.crosshair false) DoCreate
               (SetLightBoxRendererManagerProxy (Some 30%nat)
                  (vtkInternal_New Sample.fresh [] 100%nat))).
      + apply (reachable_run (Sample.env Sample.crosshair false)
                 (DoSetLightBoxRendererManagerProxy (Some 30%nat))
                 (vtkInternal_New Sample.fresh [] 100%nat)).
        * apply reachable_new. intros r a [].
        * reflexivity.
      + vm_compute. reflexivity.
    - vm_compute. reflexivity. }
  split; [exact R |]. split; [reflexivity |].
  apply (glyph_in_at_most_one_renderer Sample.shown R).
Defined.

(** * Further properties of the code *)

(** ** The geometry of the glyph *)

Lemma segment_of_more pts extra cell :
  (forall i, In i cell -> (i < List.length pts)%nat) ->
  segment_of (pts ++ extra) cell = segment_of pts cell.
Proof.
  intros Hc. unfold segment_of.
  destruct cell as [| i [| j [| k rest]]]; try reflexivity.
  rewrite !nth_error_app1 by (apply Hc; simpl; tauto). reflexivity.
Qed.

(** X1: on a geometry whose cells name existing points, [AddCrosshairLine]
    adds exactly one segment, the one between the two points given, after
    the segments already there, which stay as they were; the result again
    names existing points only, two more than before. *)
Theorem AddCrosshairLine_appends g p1x p1y p2x p2y :
  closed_geometry g ->
  geometry_segments (AddCrosshairLine g p1x p1y p2x p2y)
  = geometry_segments g ++ [Some ((p1x, p1y), (p2x, p2y))]
  /\ closed_geometry (AddCrosshairLine g p1x p1y p2x p2y)
  /\ List.length (fst (AddCrosshairLine g p1x p1y p2x p2y))
     = (List.length (fst g) + 2)%nat.
Proof.
  destruct g as [pts cells]. intros Hclosed.
  unfold closed_geometry, geometry_segments, AddCrosshairLine in *. simpl in *.
  split; [| split].
  - rewrite map_app. f_equal.
    + apply map_ext_in. intros cell Hcell. rewrite <- app_assoc.
      apply segment_of_more. intros i Hi. exact (Hclosed cell i Hcell Hi).
    + simpl. rewrite <- app_assoc. simpl.
      rewrite nth_error_app2 by lia. rewrite Nat.sub_diag. simpl.
      rewrite length_app. simpl.
      rewrite nth_error_app2 by lia.
      replace (List.length pts + 1 - List.length pts)%nat with 1%nat by lia.
      reflexivity.
  - intros cell i Hcell Hi. rewrite !length_app. simpl.
    apply in_app_or in Hcell. destruct Hcell as [Hcell | [<- | []]].
    + specialize (Hclosed cell i Hcell Hi). lia.
    + rewrite length_app in Hi. simpl in Hi. destruct Hi as [<- | [<- | []]]; lia.
  - rewrite !length_app. simpl. lia.
Qed.

Lemma AddCrosshairLine_appends_witness :
  geometry_segments (AddCrosshairLine ([], []) 0 (-600) 0 (-5))
  = geometry_segments ([], []) ++ [Some ((0, -600), (0, -5))]
  /\ closed_geometry (AddCrosshairLine ([], []) 0 (-600) 0 (-5))
  /\ List.length (fst (AddCrosshairLine ([], []) 0 (-600) 0 (-5)))
     = (List.length (fst (([], []) : Geometry)) + 2)%nat.
Proof.
  apply (AddCrosshairLine_appends ([], []) 0 (-600) 0 (-5)).
  intros cell i [].
Defined.

(** X2: the segments [CrosshairLines] gives for each mode: the basic cross
    with its gap, the full cross, the four ticks and the small cross (both
    of them whatever the screen size), and nothing for mode none and for
    the modes the [switch] does not name; every cell names existing
    points. *)
Theorem CrosshairLines_segments mode w h :
  geometry_segments (CrosshairLines mode (w, h)) = mode_segments mode w h
  /\ closed_geometry (CrosshairLines mode (w, h)).
Proof.
  split.
  - destruct mode; reflexivity.
  - unfold closed_geometry.
    destruct mode; unfold CrosshairLines, AddCrosshairLine; simpl;
      intros cell i Hcell Hi;
      repeat match goal with
             | H : _ \/ _ |- _ => destruct H
             | H : False |- _ => destruct H
             | H : _ = cell |- _ => subst cell; simpl in Hi
             | H : _ = i |- _ => subst i
             end; lia.
Qed.

(** X3: the glyph is centred and axis-aligned for every mode and screen
    size: each segment lies on the horizontal or on the vertical axis
    through the origin, and with each end point (x, y) the point (-x, -y)
    is an end point too. *)
Theorem CrosshairLines_centred mode w h :
  Forall on_axis (geometry_segments (CrosshairLines mode (w, h)))
  /\ forall x y,
       In (x, y) (end_points (geometry_segments (CrosshairLines mode (w, h)))) ->
       In (- x, - y) (end_points (geometry_segments (CrosshairLines mode (w, h)))).
Proof.
  assert (E : geometry_segments (CrosshairLines mode (w, h)) = mode_segments mode w h)
    by (destruct mode; reflexivity).
  rewrite E. split.
  - destruct mode; simpl;
      repeat first [apply Forall_nil | apply Forall_cons]; simpl;
      solve [left; split; reflexivity | right; split; reflexivity].
  - intros x y. destruct mode; simpl; intros H;
      repeat match goal with
             | H : _ \/ _ |- _ => destruct H
             | H : False |- _ => destruct H
             | H : (_, _) = (_, _) |- _ => injection H as <- <-
             end;
      rewrite ?Z.opp_involutive; simpl; tauto.
Qed.

(** ** The glyph that is built *)

(** X4: with a crosshair node bound, [BuildCrosshair] makes a new actor
    that is invisible exactly for mode none, where it has no segment at
    all; a mode the [switch] does not name gives a visible glyph without
    segments. *)
Theorem BuildCrosshair_visibility env st p node size :
  CrosshairNode st = Some p ->
  Nodes env p = Some (AsCrosshairNode node) ->
  ScreenSize env = Some size ->
  exists st' actor,
    BuildCrosshair env st = Return st'
    /\ Actor st' = Some actor
    /\ ActorAddress actor = NextActor st
    /\ Segments actor = mode_segments (CrosshairMode node) (fst size) (snd size)
    /\ (CrosshairMode node = Crosshair.NoCrosshair ->
        Visibility actor = false /\ Segments actor = [])
    /\ (CrosshairMode node <> Crosshair.NoCrosshair -> Visibility actor = true)
    /\ (forall code, CrosshairMode node = Crosshair.OtherMode code ->
                     Visibility actor = true /\ Segments actor = []).
Proof.
  intros Hp Hn Hs.
  destruct (BuildCrosshair_bound env st p node size Hp Hn Hs)
    as (st' & work & Hb & Ha & _).
  exists st'. eexists. split; [exact Hb |]. split; [exact Ha |].
  destruct size as [w h].
  assert (Hseg : forall a,
             Segments (CrosshairProperties node
                         (SetGeometry (CrosshairLines (CrosshairMode node) (w, h)) a))
             = mode_segments (CrosshairMode node) w h).
  { intros a. unfold CrosshairProperties, Segments.
    repeat match goal with |- context [if ?b then _ else _] => destruct b end;
      simpl; destruct (CrosshairMode node); reflexivity. }
  assert (Hvis : forall a,
             Visibility (CrosshairProperties node a)
             = negb (Crosshair.Mode_eqb (CrosshairMode node) Crosshair.NoCrosshair)).
  { intros a. unfold CrosshairProperties.
    destruct (Crosshair.Mode_eqb _ _); reflexivity. }
  rewrite ActorAddress_CrosshairProperties, Hseg, Hvis.
  unfold Crosshair.Mode_eqb.
  split; [reflexivity |]. split; [reflexivity |]. split; [| split].
  - intros ->. split; reflexivity.
  - intros Hne. destruct (Crosshair.Mode_eq_dec _ _); [contradiction | reflexivity].
  - intros code ->. split; reflexivity.
Qed.

Lemma BuildCrosshair_visibility_witness :
  exists st' actor,
    BuildCrosshair (Sample.env Sample.fresh false) (Sample.bound Sample.crosshair)
    = Return st'
    /\ Actor st' = Some actor
    /\ ActorAddress actor = 100%nat
    /\ Segments actor = []
    /\ (Crosshair.NoCrosshair = Crosshair.NoCrosshair ->
        Visibility actor = false /\ Segments actor = [])
    /\ (Crosshair.NoCrosshair <> Crosshair.NoCrosshair -> Visibility actor = true)
    /\ (forall code, Crosshair.NoCrosshair = Crosshair.OtherMode code ->
                     Visibility actor = true /\ Segments actor = []).
Proof.
  apply (BuildCrosshair_visibility (Sample.env Sample.fresh false)
           (Sample.bound Sample.crosshair) 10%nat Sample.fresh (800, 600));
    reflexivity.
Defined.

(** X5: the style of the glyph [BuildCrosshair] makes: the line width is
    1, 3 or 5 for thickness fine, medium or thick, whatever the mode; the
    colour is (1.0, 0.8, 0.1) and the opacity 1 for every node. *)
Theorem BuildCrosshair_style env st p node size :
  CrosshairNode st = Some p ->
  Nodes env p = Some (AsCrosshairNode node) ->
  ScreenSize env = Some size ->
  exists st' actor,
    BuildCrosshair env st = Return st'
    /\ Actor st' = Some actor
    /\ Color actor = (1.0, 0.8, 0.1)%float
    /\ Opacity actor = 1.0%float
    /\ (CrosshairThickness node = Crosshair.Fine -> LineWidth actor = 1%float)
    /\ (CrosshairThickness node = Crosshair.Medium -> LineWidth actor = 3%float)
    /\ (CrosshairThickness node = Crosshair.Thick -> LineWidth actor = 5%float).
Proof.
  intros Hp Hn Hs.
  destruct (BuildCrosshair_bound env st p node size Hp Hn Hs)
    as (st' & work & Hb & Ha & _).
  exists st'. eexists. split; [exact Hb |]. split; [exact Ha |].
  unfold CrosshairProperties.
  destruct (Crosshair.Mode_eqb (CrosshairMode node) Crosshair.NoCrosshair);
    (split; [reflexivity |]); (split; [reflexivity |]);
    split_all; intros ->; reflexivity.
Qed.

Lemma BuildCrosshair_style_witness :
  exists st' actor,
    BuildCrosshair (Sample.env Sample.crosshair false) (Sample.bound Sample.fresh)
    = Return st'
    /\ Actor st' = Some actor
    /\ Color actor = (1.0, 0.8, 0.1)%float
    /\ Opacity actor = 1.0%float
    /\ (Crosshair.Medium = Crosshair.Fine -> LineWidth actor = 1%float)
    /\ (Crosshair.Medium = Crosshair.Medium -> LineWidth actor = 3%float)
    /\ (Crosshair.Medium = Crosshair.Thick -> LineWidth actor = 5%float).
Proof.
  apply (BuildCrosshair_style (Sample.env Sample.crosshair false)
           (Sample.bound Sample.fresh) 10%nat Sample.crosshair (800, 600));
    reflexivity.
Defined.

(** ** What the event handler leaves alone *)

(** The members and observers a function keeps. *)
Lemma BuildCrosshair_frame env st st' :
  BuildCrosshair env st = Return st' ->
  SliceCompositeNode st' = SliceCompositeNode st
  /\ CrosshairNode st' = CrosshairNode st
  /\ CrosshairNodeCache st' = CrosshairNodeCache st
  /\ LightBoxRenderer st' = LightBoxRenderer st
  /\ LightBoxRendererManagerProxy st' = LightBoxRendererManagerProxy st
  /\ Observers st' = Observers st.
Proof.
  unfold BuildCrosshair.
  destruct (CrosshairNode st) as [p |] eqn:Hp;
    [| intros [= <-]; rewrite Hp; now split_all].
  destruct (ScreenSize env) as [size |]; cbn [bind]; [| discriminate].
  destruct (GetCrosshairNode env p) as [node | |]; cbn [bind]; try discriminate.
  intros [= <-]. unfold RemoveOldActor.
  destruct (Actor st) as [old |]; destruct (LightBoxRenderer st) as [r |] eqn:Hr;
    simpl; rewrite ?Hr; simpl; unfold AddActor, RemoveActor; simpl;
    case_holds; simpl; rewrite ?Hr; split_all;
    try reflexivity; try (symmetry; assumption); try assumption.
Qed.

Lemma PlaceActor_frame env actor st st' :
  PlaceActor env actor st = Return st' ->
  SliceCompositeNode st' = SliceCompositeNode st
  /\ CrosshairNode st' = CrosshairNode st
  /\ CrosshairNodeCache st' = CrosshairNodeCache st
  /\ LightBoxRendererManagerProxy st' = LightBoxRendererManagerProxy st
  /\ Observers st' = Observers st
  /\ NextActor st' = NextActor st
  /\ exists x y, Actor st' = Some (SetPosition x y actor).
Proof.
  unfold PlaceActor.
  destruct (MRMLSliceNode env) as [sliceNode |]; cbn [bind]; [| discriminate].
  destruct (CrosshairNode st) as [p |] eqn:Hp; cbn [bind]; [| discriminate].
  destruct (GetCrosshairNode env p) as [node | |]; cbn [bind]; try discriminate.
  destruct (CrosshairRAS node) as [[ras0 ras1] ras2].
  destruct (MultiplyPoint _ _) as [[[x y] z] w].
  cbn [LightBoxRendererManagerProxy log set_Actor].
  destruct (LightBoxRendererManagerProxy st) as [proxy |] eqn:Hproxy.
  - cbn [LightBoxRenderer log set_Actor].
    destruct (ptr_eqb _ _); cbn [negb];
      destruct (LightBoxRenderer st) as [old |];
      destruct (GetRenderer env proxy (z / w)) as [r |];
      intros [= <-]; unfold AddActor, RemoveActor; simpl; case_holds; simpl;
      split_all; try reflexivity; try assumption; do 2 eexists; reflexivity.
  - intros [= <-]. simpl. split_all; try reflexivity; try assumption.
    do 2 eexists; reflexivity.
Qed.

Lemma UpdateSliceNode_frame env st st' :
  UpdateSliceNode env st = Return st' ->
  Actor st' = Actor st
  /\ CrosshairNodeCache st' = CrosshairNodeCache st
  /\ LightBoxRenderer st' = LightBoxRenderer st
  /\ LightBoxRendererManagerProxy st' = LightBoxRendererManagerProxy st
  /\ Attached st' = Attached st
  /\ NextActor st' = NextActor st
  /\ Trace st' = Trace st.
Proof.
  assert (Hset : forall a b s,
             let s' := SetCrosshairNode a (SetSliceCompositeNode b s) in
             Actor s' = Actor s
             /\ CrosshairNodeCache s' = CrosshairNodeCache s
             /\ LightBoxRenderer s' = LightBoxRenderer s
             /\ LightBoxRendererManagerProxy s' = LightBoxRendererManagerProxy s
             /\ Attached s' = Attached s
             /\ NextActor s' = NextActor s
             /\ Trace s' = Trace s).
  { intros a b s. unfold SetCrosshairNode, SetSliceCompositeNode.
    destruct (ptr_eqb (SliceCompositeNode s) b);
      [| destruct (SliceCompositeNode s), b]; simpl;
      (destruct (ptr_eqb (CrosshairNode s) a);
       [| destruct (CrosshairNode s), a]); simpl; now split_all. }
  unfold UpdateSliceNode.
  destruct (match MRMLSliceNode env with
            | Some sliceNode => _
            | None => _
            end) as [[] | |]; cbn [bind]; try discriminate.
  destruct (match SliceCompositeNode st with
            | Some p => _
            | None => _
            end) as [search | |]; cbn [bind]; try discriminate.
  destruct search;
    [destruct (FindSliceCompositeNode env) as [found | |]; cbn [bind];
     try discriminate |];
    (destruct (FindCrosshairNode env) as [crosshairNode | |]; cbn [bind];
     try discriminate);
    intros [= <-].
  - apply Hset.
  - pose proof (Hset crosshairNode (SliceCompositeNode st) st) as H.
    rewrite (SetSliceCompositeNode_same (SliceCompositeNode st) st eq_refl) in H.
    exact H.
Qed.

(** The handling of a crosshair node's modified event that returned,
    taken apart. *)
Lemma CrosshairNodeModified_steps env st st' :
  CrosshairNodeModified env st = Return st' ->
  exists propertyChange positionChange st1 st2 p node,
    DidCrosshairPropertyChange env st = Return propertyChange
    /\ (if propertyChange : bool
        then BuildCrosshair env st = Return st1 else st1 = st)
    /\ DidCrosshairPositionChange env st1 = Return positionChange
    /\ match Actor st1 with
       | Some actor =>
           if positionChange || propertyChange
           then PlaceActor env actor st1 = Return st2
           else st2 = st1
       | None => st2 = st1
       end
    /\ CrosshairNode st2 = Some p
    /\ Nodes env p = Some (AsCrosshairNode node)
    /\ st' = log CallCacheCopy (set_CrosshairNodeCache node st2).
Proof.
  unfold CrosshairNodeModified.
  destruct (DidCrosshairPropertyChange env st) as [propertyChange | |];
    cbn [bind]; try discriminate.
  destruct (if propertyChange then BuildCrosshair env st else Return st)
    as [st1 | |] eqn:Hb; cbn [bind]; try discriminate.
  destruct (DidCrosshairPositionChange env st1) as [positionChange | |] eqn:Hpos;
    cbn [bind]; try discriminate.
  destruct (match Actor st1 with
            | Some actor => _
            | None => _
            end) as [st2 | |] eqn:Hpl; cbn [bind]; try discriminate.
  destruct (CrosshairNode st2) as [p |] eqn:Hp; cbn [bind]; [| discriminate].
  unfold GetCrosshairNode.
  destruct (Nodes env p) as [[| node |] |] eqn:Hn; cbn [bind]; try discriminate.
  intros [= <-].
  exists propertyChange, positionChange, st1, st2, p, node.
  split; [reflexivity |]. split.
  { destruct propertyChange; [exact Hb | now injection Hb as <-]. }
  split; [exact Hpos |]. split.
  { destruct (Actor st1) as [actor |]; [| now injection Hpl as <-].
    destruct (positionChange || propertyChange);
      [exact Hpl | now injection Hpl as <-]. }
  now split_all.
Qed.

Lemma CrosshairNodeModified_frame env st st' :
  CrosshairNodeModified env st = Return st' ->
  SliceCompositeNode st' = SliceCompositeNode st
  /\ CrosshairNode st' = CrosshairNode st
  /\ LightBoxRendererManagerProxy st' = LightBoxRendererManagerProxy st
  /\ Observers st' = Observers st
  /\ exists node, CrosshairNodeCache st' = node
                  /\ forall p, CrosshairNode st = Some p ->
                               Nodes env p = Some (AsCrosshairNode node).
Proof.
  intros H. apply CrosshairNodeModified_steps in H.
  destruct H as (b1 & b2 & st1 & st2 & p & node & _ & H1 & _ & H2 & Hp & Hn & ->).
  assert (F1 : SliceCompositeNode st1 = SliceCompositeNode st
               /\ CrosshairNode st1 = CrosshairNode st
               /\ LightBoxRendererManagerProxy st1 = LightBoxRendererManagerProxy st
               /\ Observers st1 = Observers st).
  { destruct b1; [| subst st1; now split_all].
    apply BuildCrosshair_frame in H1. tauto. }
  assert (F2 : SliceCompositeNode st2 = SliceCompositeNode st1
               /\ CrosshairNode st2 = CrosshairNode st1
               /\ LightBoxRendererManagerProxy st2 = LightBoxRendererManagerProxy st1
               /\ Observers st2 = Observers st1).
  { destruct (Actor st1) as [actor |]; [| subst st2; now split_all].
    destruct (b2 || b1); [| subst st2; now split_all].
    apply PlaceActor_frame in H2. tauto. }
  destruct F1 as (A1 & B1 & C1 & D1). destruct F2 as (A2 & B2 & C2 & D2).
  simpl. split_all; try congruence.
  exists node. split; [reflexivity |]. intros q Hq. congruence.
Qed.

(** X6: an event that is neither scene-imported nor scene-restored never
    rebinds: whatever the handler does with it, the two bound nodes, the
    light box proxy and the observers are the same afterwards. *)
Theorem ProcessMRMLEvents_keeps_bindings env caller event st st' :
  event <> SceneImportedEvent ->
  event <> SceneRestoredEvent ->
  ProcessMRMLEvents env caller event st = Return st' ->
  SliceCompositeNode st' = SliceCompositeNode st
  /\ CrosshairNode st' = CrosshairNode st
  /\ LightBoxRendererManagerProxy st' = LightBoxRendererManagerProxy st
  /\ Observers st' = Observers st.
Proof.
  intros Hi Hr. unfold ProcessMRMLEvents.
  destruct (from_updating_scene env caller); [intros [= <-]; now split_all |].
  destruct event; try contradiction; try (intros [= <-]; now split_all).
  destruct (Nodes env caller) as [[| c |] |];
    try (cbn [bind]; intros [= <-]; now split_all).
  destruct (CrosshairNodeModified env st) as [st1 | |] eqn:Hm;
    cbn [bind]; try discriminate.
  intros [= <-]. apply CrosshairNodeModified_frame in Hm. simpl. tauto.
Qed.

Lemma ProcessMRMLEvents_keeps_bindings_witness :
  SliceCompositeNode Sample.shown = SliceCompositeNode (Sample.bound Sample.fresh)
  /\ CrosshairNode Sample.shown = CrosshairNode (Sample.bound Sample.fresh)
  /\ LightBoxRendererManagerProxy Sample.shown
     = LightBoxRendererManagerProxy (Sample.bound Sample.fresh)
  /\ Observers Sample.shown = Observers (Sample.bound Sample.fresh).
Proof.
  apply (ProcessMRMLEvents_keeps_bindings (Sample.env Sample.crosshair false)
           10%nat ModifiedEvent (Sample.bound Sample.fresh) Sample.shown);
    try discriminate.
  vm_compute. reflexivity.
Defined.

(** X7: a scene-imported or scene-restored event only rebinds: the glyph,
    the renderers, the cache and the log of effects are untouched; in
    particular no render is requested. *)
Theorem ProcessMRMLEvents_rebinding_only env caller event st st' :
  event = SceneImportedEvent \/ event = SceneRestoredEvent ->
  ProcessMRMLEvents env caller event st = Return st' ->
  Actor st' = Actor st
  /\ CrosshairNodeCache st' = CrosshairNodeCache st
  /\ LightBoxRenderer st' = LightBoxRenderer st
  /\ LightBoxRendererManagerProxy st' = LightBoxRendererManagerProxy st
  /\ Attached st' = Attached st
  /\ NextActor st' = NextActor st
  /\ Trace st' = Trace st.
Proof.
  intros Hev. unfold ProcessMRMLEvents.
  destruct (from_updating_scene env caller); [intros [= <-]; now split_all |].
  destruct Hev as [-> | ->]; apply UpdateSliceNode_frame.
Qed.

Lemma ProcessMRMLEvents_rebinding_only_witness :
  exists st',
    ProcessMRMLEvents (Sample.env Sample.crosshair false) 1%nat SceneImportedEvent
      Sample.shown = Return st'
    /\ Actor st' = Actor Sample.shown
    /\ Trace st' = Trace Sample.shown.
Proof.
  destruct (ProcessMRMLEvents (Sample.env Sample.crosshair false) 1%nat
              SceneImportedEvent Sample.shown) as [st' | |] eqn:E;
    vm_compute in E; try discriminate E.
  exists st'. split; [reflexivity |].
  destruct (ProcessMRMLEvents_rebinding_only (Sample.env Sample.crosshair false)
              1%nat SceneImportedEvent Sample.shown st') as (Ha & _ & _ & _ & _ & _ & Ht).
  - left. reflexivity.
  - vm_compute. rewrite <- E. reflexivity.
  - split; assumption.
Defined.

(** ** Notifications that change little *)

Lemma set_CrosshairNodeCache_same st :
  set_CrosshairNodeCache (CrosshairNodeCache st) st = st.
Proof. now destruct st. Qed.

(** A notification that finds neither the properties nor the position
    changed only refreshes the cache and asks for a render. *)
Lemma ProcessMRMLEvents_unchanged env st caller c p node :
  from_updating_scene env caller = false ->
  Nodes env caller = Some (AsCrosshairNode c) ->
  CrosshairNode st = Some p ->
  Nodes env p = Some (AsCrosshairNode node) ->
  DidCrosshairPropertyChange env st = Return false ->
  DidCrosshairPositionChange env st = Return false ->
  ProcessMRMLEvents env caller ModifiedEvent st
  = Return (RequestRender (log CallCacheCopy (set_CrosshairNodeCache node st))).
Proof.
  intros Hfrom Hcaller Hp Hn Hprop Hpos.
  unfold ProcessMRMLEvents. rewrite Hfrom, Hcaller.
  unfold CrosshairNodeModified. rewrite Hprop. cbn [bind]. rewrite Hpos.
  cbn [bind orb].
  destruct (Actor st); cbn [bind]; rewrite Hp; cbn [bind];
    unfold GetCrosshairNode; rewrite Hn; reflexivity.
Qed.

(** X8: when the handler has processed a modified event of the bound
    crosshair node and the same event is delivered again, nothing having
    changed and the position being made of finite numbers, the second
    pass only copies the cache and requests a render: the glyph, the
    renderers and the cache stay as the first pass left them. *)
Theorem ProcessMRMLEvents_replay env st caller c p node st1 :
  from_updating_scene env caller = false ->
  Nodes env caller = Some (AsCrosshairNode c) ->
  CrosshairNode st = Some p ->
  Nodes env p = Some (AsCrosshairNode node) ->
  finite_position node = true ->
  ProcessMRMLEvents env caller ModifiedEvent st = Return st1 ->
  exists st2,
    ProcessMRMLEvents env caller ModifiedEvent st1 = Return st2
    /\ Trace st2 = Trace st1 ++ [CallCacheCopy; CallRequestRender]
    /\ Actor st2 = Actor st1
    /\ Attached st2 = Attached st1
    /\ LightBoxRenderer st2 = LightBoxRenderer st1
    /\ CrosshairNodeCache st2 = CrosshairNodeCache st1
    /\ NextActor st2 = NextActor st1.
Proof.
  intros Hfrom Hcaller Hp Hn Hfin H1.
  unfold ProcessMRMLEvents in H1. rewrite Hfrom, Hcaller in H1.
  destruct (CrosshairNodeModified env st) as [sta | |] eqn:Hm;
    cbn [bind] in H1; try discriminate H1.
  injection H1 as <-.
  destruct (CrosshairNodeModified_frame env st sta Hm)
    as (_ & Hp1 & _ & _ & node' & Hc1 & Hnode').
  assert (Hsame : node' = node) by (specialize (Hnode' p Hp); congruence).
  rewrite Hsame in Hc1. clear Hsame Hnode'.
  assert (Hpa : CrosshairNode (RequestRender sta) = Some p) by (simpl; congruence).
  assert (Hprop : DidCrosshairPropertyChange env (RequestRender sta) = Return false).
  { rewrite (DidCrosshairPropertyChange_bound env _ p node Hpa Hn). simpl.
    rewrite Hc1, Mode_neb_same, Thickness_neb_same. reflexivity. }
  assert (Hpos : DidCrosshairPositionChange env (RequestRender sta) = Return false).
  { rewrite (DidCrosshairPositionChange_bound env _ p node Hpa Hn). simpl.
    rewrite Hc1. unfold deltas, finite_position in *.
    destruct (CrosshairRAS node) as [[ras0 ras1] ras2].
    apply andb_true_iff in Hfin. destruct Hfin as [Hfin H2].
    apply andb_true_iff in Hfin. destruct Hfin as [H0 H1].
    now rewrite !float_sub_self_below_eps. }
  eexists. split.
  - exact (ProcessMRMLEvents_unchanged env _ caller c p node
             Hfrom Hcaller Hpa Hn Hprop Hpos).
  - simpl. rewrite <- app_assoc. now split_all.
Qed.

Lemma ProcessMRMLEvents_replay_witness :
  exists st2,
    ProcessMRMLEvents (Sample.env Sample.crosshair false) 10%nat ModifiedEvent
      Sample.shown = Return st2
    /\ Trace st2 = Trace Sample.shown ++ [CallCacheCopy; CallRequestRender]
    /\ Actor st2 = Actor Sample.shown
    /\ Attached st2 = Attached Sample.shown
    /\ LightBoxRenderer st2 = LightBoxRenderer Sample.shown
    /\ CrosshairNodeCache st2 = CrosshairNodeCache Sample.shown
    /\ NextActor st2 = NextActor Sample.shown.
Proof.
  apply (ProcessMRMLEvents_replay (Sample.env Sample.crosshair false)
           (Sample.bound Sample.fresh) 10%nat Sample.crosshair 10%nat
           Sample.crosshair Sample.shown);
    vm_compute; reflexivity.
Defined.

(** X9: a change of position alone moves the glyph and does not rebuild
    it: the actor afterwards is the one before (same object, geometry and
    style) at the new display position, and no new actor is made. *)
Theorem ProcessMRMLEvents_moves_glyph env st caller c p node sliceNode actor :
  from_updating_scene env caller = false ->
  Nodes env caller = Some (AsCrosshairNode c) ->
  CrosshairNode st = Some p ->
  Nodes env p = Some (AsCrosshairNode node) ->
  MRMLSliceNode env = Some sliceNode ->
  DidCrosshairPropertyChange env st = Return false ->
  DidCrosshairPositionChange env st = Return true ->
  Actor st = Some actor ->
  exists st',
    ProcessMRMLEvents env caller ModifiedEvent st = Return st'
    /\ NextActor st' = NextActor st
    /\ CrosshairNodeCache st' = node
    /\ let '(x, y, z) := DisplayXYZ env sliceNode node in
       Actor st' = Some (SetPosition x y actor).
Proof.
  intros Hfrom Hcaller Hp Hn Hs Hprop Hpos Ha.
  destruct (PlaceActor_bound env st actor p node sliceNode Hs Hp Hn)
    as (st2 & w2 & Hpl & Hxyz & Hp2 & _ & _ & Hn2 & _).
  exists (RequestRender (log CallCacheCopy (set_CrosshairNodeCache node st2))).
  unfold ProcessMRMLEvents. rewrite Hfrom, Hcaller.
  unfold CrosshairNodeModified. rewrite Hprop. cbn [bind]. rewrite Hpos.
  cbn [bind orb]. rewrite Ha, Hpl. cbn [bind]. rewrite Hp2, Hp. cbn [bind].
  unfold GetCrosshairNode. rewrite Hn. cbn [bind].
  split; [reflexivity |]. split; [exact Hn2 |]. split; [reflexivity |].
  destruct (DisplayXYZ env sliceNode node) as [[x y] z]. simpl. tauto.
Qed.

Lemma ProcessMRMLEvents_moves_glyph_witness :
  exists st',
    ProcessMRMLEvents (Sample.env Sample.moved false) 10%nat ModifiedEvent
      Sample.shown = Return st'
    /\ NextActor st' = NextActor Sample.shown
    /\ CrosshairNodeCache st' = Sample.moved
    /\ let '(x, y, z) :=
         DisplayXYZ (Sample.env Sample.moved false) Sample.red Sample.moved in
       Actor st' = Some (SetPosition x y Sample.glyph).
Proof.
  apply (ProcessMRMLEvents_moves_glyph (Sample.env Sample.moved false)
           Sample.shown 10%nat Sample.moved 10%nat Sample.moved Sample.red
           Sample.glyph);
    try reflexivity; vm_compute; reflexivity.
Defined.

(** X10: while there is no glyph and the properties are as cached, a
    notification makes none, wherever the crosshair has moved: the cache
    takes the node's values, a render is requested, and that is all. *)
Theorem ProcessMRMLEvents_without_glyph env st caller c p node :
  from_updating_scene env caller = false ->
  Nodes env caller = Some (AsCrosshairNode c) ->
  CrosshairNode st = Some p ->
  Nodes env p = Some (AsCrosshairNode node) ->
  DidCrosshairPropertyChange env st = Return false ->
  Actor st = None ->
  ProcessMRMLEvents env caller ModifiedEvent st
  = Return (RequestRender (log CallCacheCopy (set_CrosshairNodeCache node st)))
  /\ forall st', ProcessMRMLEvents env caller ModifiedEvent st = Return st' ->
       Actor st' = None
       /\ Attached st' = Attached st
       /\ CrosshairNodeCache st' = node
       /\ Trace st' = Trace st ++ [CallCacheCopy; CallRequestRender].
Proof.
  intros Hfrom Hcaller Hp Hn Hprop Ha.
  assert (E : ProcessMRMLEvents env caller ModifiedEvent st
              = Return (RequestRender (log CallCacheCopy
                                         (set_CrosshairNodeCache node st)))).
  { unfold ProcessMRMLEvents. rewrite Hfrom, Hcaller.
    unfold CrosshairNodeModified. rewrite Hprop. cbn [bind].
    rewrite (DidCrosshairPositionChange_bound env st p node Hp Hn).
    destruct (deltas _ _) as [[d0 d1] d2]. cbn [bind].
    rewrite Ha. cbn [bind]. rewrite Hp. cbn [bind].
    unfold GetCrosshairNode. rewrite Hn. reflexivity. }
  split; [exact E |]. rewrite E. intros st' [= <-]. simpl.
  rewrite <- app_assoc. now split_all.
Qed.

Lemma ProcessMRMLEvents_without_glyph_witness :
  ProcessMRMLEvents (Sample.env Sample.adrift false) 10%nat ModifiedEvent
    (Sample.bound Sample.fresh)
  = Return (RequestRender (log CallCacheCopy
                             (set_CrosshairNodeCache Sample.adrift
                                (Sample.bound Sample.fresh)))).
Proof.
  apply (ProcessMRMLEvents_without_glyph (Sample.env Sample.adrift false)
           (Sample.bound Sample.fresh) 10%nat Sample.adrift 10%nat Sample.adrift);
    reflexivity.
Defined.

(** ** The renderer that shows the glyph *)

Lemma ptr_eqb_eq a b : ptr_eqb a b = true -> a = b.
Proof.
  destruct a, b; simpl; try discriminate; [| reflexivity].
  intros H. apply Nat.eqb_eq in H. now subst.
Qed.

Lemma In_AddActor_self r a st : In (r, a) (Attached (AddActor r a st)).
Proof.
  unfold AddActor. destruct (holds r a (Attached st)) eqn:H; simpl.
  - unfold holds in H. apply existsb_exists in H.
    destruct H as ([r' a'] & Hin & Heq). simpl in Heq.
    apply andb_true_iff in Heq. destruct Heq as [Hr Ha].
    apply Nat.eqb_eq in Hr. apply Nat.eqb_eq in Ha. now subst.
  - apply in_or_app. right. now left.
Qed.

Lemma BuildCrosshair_held env st st' :
  glyph_held st -> BuildCrosshair env st = Return st' -> glyph_held st'.
Proof.
  intros Hheld. unfold BuildCrosshair.
  destruct (CrosshairNode st) as [p |]; [| now intros [= <-]].
  destruct (ScreenSize env) as [size |]; cbn [bind]; [| discriminate].
  destruct (GetCrosshairNode env p) as [node | |]; cbn [bind]; try discriminate.
  intros [= <-]. unfold glyph_held.
  cbn [Actor Attached LightBoxRenderer log set_Actor].
  intros actor r [= <-]. rewrite ActorAddress_CrosshairProperties.
  cbn [SetGeometry ActorAddress vtkActor2D_New].
  set (st0 := RemoveOldActor st).
  cbn [LightBoxRenderer set_NextActor NextActor].
  destruct (LightBoxRenderer st0) as [r0 |] eqn:Hr0.
  - destruct (AddActor_frame r0 (NextActor st0) (set_NextActor (S (NextActor st0)) st0))
      as (_ & Hr1 & _).
    rewrite Hr1. cbn [LightBoxRenderer set_NextActor]. rewrite Hr0.
    intros [= <-]. apply In_AddActor_self.
  - cbn [LightBoxRenderer set_NextActor]. rewrite Hr0. discriminate.
Qed.

(** After placing, with a proxy set, the remembered renderer is the one
    the proxy names for the depth of the crosshair. *)
Lemma PlaceActor_renderer env st actor p node sliceNode proxy st' :
  MRMLSliceNode env = Some sliceNode ->
  CrosshairNode st = Some p ->
  Nodes env p = Some (AsCrosshairNode node) ->
  LightBoxRendererManagerProxy st = Some proxy ->
  PlaceActor env actor st = Return st' ->
  let '(x, y, z) := DisplayXYZ env sliceNode node in
  LightBoxRenderer st' = GetRenderer env proxy z.
Proof.
  intros Hs Hp Hn Hproxy. unfold PlaceActor, DisplayXYZ, GetCrosshairNode.
  rewrite Hs, Hp. cbn [bind]. rewrite Hn. cbn [bind].
  destruct (CrosshairRAS node) as [[ras0 ras1] ras2].
  destruct (MultiplyPoint _ _) as [[[x y] z] w].
  cbn [LightBoxRendererManagerProxy log set_Actor]. rewrite Hproxy.
  cbn [LightBoxRenderer log set_Actor].
  destruct (ptr_eqb (GetRenderer env proxy (z / w)) (LightBoxRenderer st)) eqn:E;
    cbn [negb]; intros [= <-].
  - apply ptr_eqb_eq in E. simpl. now symmetry.
  - reflexivity.
Qed.

Lemma PlaceActor_held env st actor st' :
  glyph_held st -> Actor st = Some actor ->
  PlaceActor env actor st = Return st' -> glyph_held st'.
Proof.
  intros Hheld Ha. unfold PlaceActor.
  destruct (MRMLSliceNode env) as [sliceNode |]; cbn [bind]; [| discriminate].
  destruct (CrosshairNode st) as [p |]; cbn [bind]; [| discriminate].
  destruct (GetCrosshairNode env p) as [node | |]; cbn [bind]; try discriminate.
  destruct (CrosshairRAS node) as [[ras0 ras1] ras2].
  destruct (MultiplyPoint _ _) as [[[x y] z] w].
  cbn [LightBoxRendererManagerProxy LightBoxRenderer log set_Actor].
  assert (Hkeep : forall r, LightBoxRenderer st = Some r ->
                            In (r, ActorAddress actor) (Attached st))
    by (intros r; apply Hheld, Ha).
  destruct (LightBoxRendererManagerProxy st) as [proxy |].
  2:{ intros [= <-]. intros a r [= <-]. simpl. apply Hkeep. }
  destruct (negb (ptr_eqb _ _)).
  2:{ intros [= <-]. intros a r [= <-]. simpl. apply Hkeep. }
  intros [= <-]. intros a r Hact Hr.
  cbn [Actor LightBoxRenderer Attached set_LightBoxRenderer] in *.
  destruct (GetRenderer env proxy (z / w)) as [r' |]; [| discriminate Hr].
  injection Hr as <-.
  match type of Hact with
  | Actor (AddActor ?r ?ad ?s) = _ =>
      rewrite (proj1 (AddActor_frame r ad s)) in Hact
  end.
  assert (Haddr : ActorAddress a = ActorAddress actor).
  { destruct (LightBoxRenderer st); simpl in Hact; now injection Hact as <-. }
  rewrite Haddr. apply In_AddActor_self.
Qed.

Lemma run_held env op st st' :
  glyph_held st -> run env op st = Return st' -> glyph_held st'.
Proof.
  intros Hheld.
  assert (Hsame : forall s, Actor s = Actor st -> Attached s = Attached st ->
                            LightBoxRenderer s = LightBoxRenderer st ->
                            glyph_held s).
  { intros s Ha Hat Hr a r. rewrite Ha, Hat, Hr. apply Hheld. }
  assert (Hupdate : forall s, UpdateSliceNode env st = Return s -> glyph_held s).
  { intros s Hu. apply UpdateSliceNode_frame in Hu. apply Hsame; tauto. }
  destruct op as [| | caller event | mgr]; simpl.
  - apply Hupdate.
  - unfold AdditionalInitializeStep. apply BuildCrosshair_held. exact Hheld.
  - unfold ProcessMRMLEvents.
    destruct (from_updating_scene env caller); [now intros [= <-] |].
    destruct event; try (intros [= <-]; exact Hheld); try apply Hupdate.
    destruct (Nodes env caller) as [[| c |] |];
      try (cbn [bind]; intros [= <-]; exact Hheld).
    destruct (CrosshairNodeModified env st) as [sta | |] eqn:Hm;
      cbn [bind]; try discriminate.
    intros [= <-].
    apply CrosshairNodeModified_steps in Hm.
    destruct Hm as (b1 & b2 & st1 & st2 & p & node & _ & H1 & _ & H2 & _ & _ & ->).
    assert (Hheld1 : glyph_held st1).
    { destruct b1; [| now subst st1]. exact (BuildCrosshair_held env st st1 Hheld H1). }
    assert (Hheld2 : glyph_held st2).
    { destruct (Actor st1) as [actor |] eqn:Ha; [| now subst st2].
      destruct (b2 || b1); [| now subst st2].
      exact (PlaceActor_held env st1 actor st2 Hheld1 Ha H2). }
    exact Hheld2.
  - intros [= <-]. exact Hheld.
Qed.

Lemma reachable_held st : reachable st -> glyph_held st.
Proof.
  induction 1 as [cache props next Hfresh | env op st st' _ IH Hrun | d st _ IH].
  - intros actor r Ha. discriminate Ha.
  - exact (run_held env op st st' IH Hrun).
  - destruct d as [node | renderer | proxy]; try exact IH.
    intros actor r Ha. simpl in *. unfold forget.
    destruct (LightBoxRenderer st) as [r0 |] eqn:Hr0; simpl; [| discriminate].
    destruct (Nat.eqb_spec r0 renderer) as [-> | Hne]; [discriminate |].
    intros [= <-]. apply filter_In. split; [exact (IH actor r0 Ha Hr0) |].
    simpl. now apply negb_true_iff, Nat.eqb_neq.
Qed.

(** X11: in every state the manager can reach, the renderers that hold the
    glyph are exactly the remembered light box renderer: with none
    remembered the glyph is in no renderer, with one remembered it is in
    that one and in no other. *)
Theorem glyph_in_exactly_own_renderer st actor :
  reachable st ->
  Actor st = Some actor ->
  forall r, In (r, ActorAddress actor) (Attached st) <-> LightBoxRenderer st = Some r.
Proof.
  intros Hreach Ha r. split.
  - destruct (reachable_glyph st Hreach) as [_ Hown].
    apply (Hown actor Ha).
  - apply (reachable_held st Hreach actor r Ha).
Qed.

Lemma glyph_in_exactly_own_renderer_witness :
  Actor Sample.shown = Some Sample.glyph
  /\ forall r, In (r, ActorAddress Sample.glyph) (Attached Sample.shown)
               <-> LightBoxRenderer Sample.shown = Some r.
Proof.
  split; [reflexivity |].
  apply (glyph_in_exactly_own_renderer Sample.shown Sample.glyph);
    [| reflexivity].
  apply (reachable_run (Sample.env Sample.crosshair false)
           (DoProcessMRMLEvents 10%nat ModifiedEvent) (Sample.bound Sample.fresh)).
  - apply (reachable_run (Sample.env Sample.crosshair false) DoCreate
             (SetLightBoxRendererManagerProxy (Some 30%nat)
                (vtkInternal_New Sample.fresh [] 100%nat))).
    + apply (reachable_run (Sample.env Sample.crosshair false)
               (DoSetLightBoxRendererManagerProxy (Some 30%nat))
               (vtkInternal_New Sample.fresh [] 100%nat)).
      * apply reachable_new. intros r a [].
      * reflexivity.
    + vm_compute. reflexivity.
  - vm_compute. reflexivity.
Defined.

(** X12: when the handler updates the pose and a light box proxy is set,
    the glyph ends up in the renderer the proxy names for the depth of the
    crosshair, and only there; when the proxy names none, the glyph is in
    no renderer. *)
Theorem ProcessMRMLEvents_follows_proxy env st caller c p node sliceNode size proxy :
  reachable st ->
  from_updating_scene env caller = false ->
  Nodes env caller = Some (AsCrosshairNode c) ->
  CrosshairNode st = Some p ->
  Nodes env p = Some (AsCrosshairNode node) ->
  MRMLSliceNode env = Some sliceNode ->
  ScreenSize env = Some size ->
  LightBoxRendererManagerProxy st = Some proxy ->
  DidCrosshairPropertyChange env st = Return true
  \/ (DidCrosshairPositionChange env st = Return true /\ Actor st <> None) ->
  exists st' actor,
    ProcessMRMLEvents env caller ModifiedEvent st = Return st'
    /\ Actor st' = Some actor
    /\ let '(x, y, z) := DisplayXYZ env sliceNode node in
       LightBoxRenderer st' = GetRenderer env proxy z
       /\ forall r, In (r, ActorAddress actor) (Attached st')
                    <-> GetRenderer env proxy z = Some r.
Proof.
  intros Hreach Hfrom Hcaller Hp Hn Hs Hz Hproxy Hdue.
  destruct (CrosshairNodeModified_bound env st p node sliceNode size Hp Hn Hs Hz)
    as (sta & work & b1 & b2 & Hb1 & Hb2 & Hm & _ & _ & _ & _ & Hpose).
  destruct Hpose as (actor & Ha & _).
  { destruct Hdue as [H | [H Hact]]; [left | right; split; trivial]; congruence. }
  assert (Hrun : ProcessMRMLEvents env caller ModifiedEvent st
                 = Return (RequestRender sta)).
  { unfold ProcessMRMLEvents. now rewrite Hfrom, Hcaller, Hm. }
  exists (RequestRender sta), actor. split; [exact Hrun |]. split; [exact Ha |].
  assert (Hreach' : reachable (RequestRender sta))
    by exact (reachable_run env (DoProcessMRMLEvents caller ModifiedEvent)
                st _ Hreach Hrun).
  assert (Hlbr : let '(x, y, z) := DisplayXYZ env sliceNode node in
                 LightBoxRenderer sta = GetRenderer env proxy z).
  { pose proof (CrosshairNodeModified_steps env st sta Hm) as Hsteps.
    destruct Hsteps as (c1 & c2 & st1 & st2 & p' & node' & Hc1 & H1 & Hc2 & H2
                        & _ & _ & ->).
    assert (c1 = b1) by congruence. subst c1.
    assert (F1 : CrosshairNode st1 = Some p
                 /\ LightBoxRendererManagerProxy st1 = Some proxy
                 /\ CrosshairNodeCache st1 = CrosshairNodeCache st
                 /\ (b1 = false -> st1 = st)
                 /\ (b1 = true -> Actor st1 <> None)).
    { destruct b1.
      - destruct (BuildCrosshair_bound env st p node size Hp Hn Hz)
          as (s & w & Hb & Hsa & _).
        assert (s = st1) by congruence. subst s.
        apply BuildCrosshair_frame in H1.
        destruct H1 as (_ & G1 & G2 & _ & G3 & _).
        split; [congruence |]. split; [congruence |]. split; [exact G2 |].
        split; [discriminate |]. intros _. rewrite Hsa. discriminate.
      - subst st1. split; [exact Hp |]. split; [exact Hproxy |].
        split; [reflexivity |]. split; [reflexivity |]. discriminate. }
    destruct F1 as (Hp1 & Hx1 & Hk1 & Hst1 & Hact1).
    assert (c2 = b2).
    { rewrite (DidCrosshairPositionChange_bound env st1 p node Hp1 Hn) in Hc2.
      rewrite (DidCrosshairPositionChange_bound env st p node Hp Hn) in Hb2.
      rewrite Hk1 in Hc2. destruct (deltas _ _) as [[d0 d1] d2]. congruence. }
    subst c2.
    destruct (Actor st1) as [a1 |] eqn:Ha1.
    - assert (Hgo : b2 || b1 = true).
      { destruct Hdue as [H | [H _]].
        - assert (b1 = true) by congruence. subst b1. apply orb_true_r.
        - assert (b2 = true) by congruence. subst b2. reflexivity. }
      rewrite Hgo in H2.
      pose proof (PlaceActor_renderer env st1 a1 p node sliceNode proxy st2
                    Hs Hp1 Hn Hx1 H2) as Hr.
      destruct (DisplayXYZ env sliceNode node) as [[x y] z]. exact Hr.
    - exfalso. destruct b1; [now apply Hact1 |].
      rewrite (Hst1 eq_refl) in Ha1.
      destruct Hdue as [H | [_ H]]; [congruence | now apply H]. }
  destruct (DisplayXYZ env sliceNode node) as [[x y] z].
  split; [exact Hlbr |]. intros r. rewrite <- Hlbr.
  destruct (reachable_glyph _ Hreach') as [_ Hown].
  split.
  - apply (Hown actor Ha).
  - apply (reachable_held _ Hreach' actor r Ha).
Qed.

Lemma ProcessMRMLEvents_follows_proxy_witness :
  exists st' actor,
    ProcessMRMLEvents (Sample.env Sample.crosshair false) 10%nat ModifiedEvent
      (Sample.bound Sample.fresh) = Return st'
    /\ Actor st' = Some actor
    /\ let '(x, y, z) :=
         DisplayXYZ (Sample.env Sample.crosshair false) Sample.red Sample.crosshair in
       LightBoxRenderer st' = Sample.lightbox 30%nat z
       /\ forall r, In (r, ActorAddress actor) (Attached st')
                    <-> Sample.lightbox 30%nat z = Some r.
Proof.
  apply (ProcessMRMLEvents_follows_proxy (Sample.env Sample.crosshair false)
           (Sample.bound Sample.fresh) 10%nat Sample.crosshair 10%nat
           Sample.crosshair Sample.red (800, 600) 30%nat);
    try reflexivity.
  - apply (reachable_run (Sample.env Sample.crosshair false) DoCreate
             (SetLightBoxRendererManagerProxy (Some 30%nat)
                (vtkInternal_New Sample.fresh [] 100%nat))).
    + apply (reachable_run (Sample.env Sample.crosshair false)
               (DoSetLightBoxRendererManagerProxy (Some 30%nat))
               (vtkInternal_New Sample.fresh [] 100%nat)).
      * apply reachable_new. intros r a [].
      * reflexivity.
    + vm_compute. reflexivity.
  - left. vm_compute. reflexivity.
Defined.

(** ** Observers *)

Lemma count_occ_without old l p :
  count_occ Nat.eq_dec (filter (fun s => negb (Nat.eqb s old)) l) p
  = if Nat.eqb p old then 0%nat else count_occ Nat.eq_dec l p.
Proof.
  induction l as [| a l IH]; simpl.
  - now destruct (Nat.eqb p old).
  - destruct (Nat.eqb_spec a old) as [Ha | Ha]; simpl; rewrite IH;
      destruct (Nat.eqb_spec p old) as [Hp | Hp];
      destruct (Nat.eq_dec a p) as [Hap | Hap]; congruence.
Qed.

Lemma ptr_eqb_Some a p : ptr_eqb a (Some p) = true <-> a = Some p.
Proof.
  split; [apply ptr_eqb_eq | intros ->; apply ptr_eqb_refl].
Qed.

Lemma observed_bound st p :
  observed st p =
  ((if ptr_eqb (SliceCompositeNode st) (Some p) then 1 else 0)
   + (if ptr_eqb (CrosshairNode st) (Some p) then 1 else 0))%nat.
Proof. reflexivity. Qed.

Lemma SetCrosshairNode_Observers n st :
  ptr_eqb (CrosshairNode st) n = false ->
  Observers (SetCrosshairNode n st)
  = match CrosshairNode st with
    | Some old => filter (fun s => negb (Nat.eqb s old)) (Observers st)
    | None => Observers st
    end ++ match n with Some new => [new] | None => [] end.
Proof.
  intros E. unfold SetCrosshairNode. rewrite E.
  destruct (CrosshairNode st), n; simpl; rewrite ?app_nil_r; reflexivity.
Qed.

Lemma SetSliceCompositeNode_Observers n st :
  ptr_eqb (SliceCompositeNode st) n = false ->
  Observers (SetSliceCompositeNode n st)
  = match SliceCompositeNode st with
    | Some old => filter (fun s => negb (Nat.eqb s old)) (Observers st)
    | None => Observers st
    end ++ match n with Some new => [new] | None => [] end.
Proof.
  intros E. unfold SetSliceCompositeNode. rewrite E.
  destruct (SliceCompositeNode st), n; simpl; rewrite ?app_nil_r; reflexivity.
Qed.

Lemma SetSliceCompositeNode_CrosshairNode n st :
  CrosshairNode (SetSliceCompositeNode n st) = CrosshairNode st.
Proof.
  unfold SetSliceCompositeNode.
  destruct (ptr_eqb _ _); [reflexivity |].
  destruct (SliceCompositeNode st), n; reflexivity.
Qed.

(** How often [p] is observed once the binding [old] is replaced by [n],
    [other] being the binding that stays. *)
Lemma count_after_rebinding (old n other : option ptr) l p :
  ptr_eqb old n = false ->
  (forall q, other = Some q -> old <> Some q) ->
  (forall q, count_occ Nat.eq_dec l q
             = ((if ptr_eqb other (Some q) then 1 else 0)
                + (if ptr_eqb old (Some q) then 1 else 0))%nat) ->
  count_occ Nat.eq_dec
    (match old with
     | Some o => filter (fun s => negb (Nat.eqb s o)) l
     | None => l
     end ++ match n with Some new => [new] | None => [] end) p
  = ((if ptr_eqb other (Some p) then 1 else 0)
     + (if ptr_eqb n (Some p) then 1 else 0))%nat.
Proof.
  intros E Hd Hc. rewrite count_occ_app.
  assert (Hfirst : count_occ Nat.eq_dec
                     match old with
                     | Some o => filter (fun s => negb (Nat.eqb s o)) l
                     | None => l
                     end p
                   = if ptr_eqb other (Some p) then 1%nat else 0%nat).
  { destruct old as [o |].
    - rewrite count_occ_without, Hc. simpl.
      destruct (Nat.eqb_spec p o) as [Hpo | Hpo].
      + subst o. destruct (ptr_eqb other (Some p)) eqn:Eo; [| reflexivity].
        apply ptr_eqb_eq in Eo. now elim (Hd p Eo).
      + destruct (Nat.eqb_spec o p); [congruence | lia].
    - rewrite Hc. simpl. lia. }
  rewrite Hfirst. f_equal.
  destruct n as [new |]; simpl.
  - destruct (Nat.eq_dec new p) as [Hn | Hn];
      destruct (Nat.eqb_spec new p); congruence.
  - reflexivity.
Qed.

Lemma SetCrosshairNode_observers n st :
  observers_exact st ->
  (forall p, n = Some p -> SliceCompositeNode st <> Some p) ->
  observers_exact (SetCrosshairNode n st).
Proof.
  intros [Hdistinct Hcount] Hfresh.
  destruct (ptr_eqb (CrosshairNode st) n) eqn:E.
  { unfold SetCrosshairNode. rewrite E. now split. }
  split.
  - intros p. rewrite SetCrosshairNode_SliceCompositeNode, SetCrosshairNode_bound.
    intros Hp Hn. exact (Hfresh p Hn Hp).
  - intros p. unfold observed.
    rewrite SetCrosshairNode_SliceCompositeNode, SetCrosshairNode_bound,
      (SetCrosshairNode_Observers n st E).
    apply count_after_rebinding; [exact E | | exact Hcount].
    intros q Hq Hc. exact (Hdistinct q Hq Hc).
Qed.

Lemma SetSliceCompositeNode_observers n st :
  observers_exact st ->
  (forall p, n = Some p -> CrosshairNode st <> Some p) ->
  observers_exact (SetSliceCompositeNode n st).
Proof.
  intros [Hdistinct Hcount] Hfresh.
  destruct (ptr_eqb (SliceCompositeNode st) n) eqn:E.
  { unfold SetSliceCompositeNode. rewrite E. now split. }
  split.
  - intros p. rewrite SetSliceCompositeNode_CrosshairNode, SetSliceCompositeNode_bound.
    intros Hn Hp. exact (Hfresh p Hn Hp).
  - intros p. unfold observed.
    rewrite SetSliceCompositeNode_CrosshairNode, SetSliceCompositeNode_bound,
      (SetSliceCompositeNode_Observers n st E).
    rewrite Nat.add_comm.
    apply count_after_rebinding; [exact E | |].
    + intros q Hq Hc. exact (Hdistinct q Hc Hq).
    + intros q. rewrite (Hcount q). unfold observed. apply Nat.add_comm.
Qed.

Lemma scan_crosshair_Return env l r :
  scan_crosshair env l = Return r ->
  exists q, r = Some q /\ In q l /\ is_default_crosshair env q.
Proof.
  induction l as [| node rest IH]; cbn [scan_crosshair]; [discriminate |].
  assert (Hrest : scan_crosshair env rest = Return r ->
                  exists q, r = Some q /\ In q (node :: rest)
                            /\ is_default_crosshair env q).
  { intros H. destruct (IH H) as (q & Hq & Hin & Hd).
    exists q. split; [exact Hq |]. split; [now right | exact Hd]. }
  destruct (Nodes env node) as [[| c |] |] eqn:Hn; try exact Hrest.
  destruct (CrosshairName c) as [name |] eqn:Hname;
    cbn [string_equal bind]; [| discriminate].
  destruct (String.eqb_spec name default_name) as [E | _];
    [| exact Hrest].
  intros [= <-]. exists node. split; [reflexivity |]. split; [now left |].
  exists c. split; congruence.
Qed.

Lemma FindCrosshairNode_Return env r :
  FindCrosshairNode env = Return r ->
  match MRMLScene env with
  | None => r = None
  | Some scene =>
      exists q, r = Some q /\ In q (CurrentScene scene) /\ is_default_crosshair env q
  end.
Proof.
  unfold FindCrosshairNode.
  destruct (MRMLScene env) as [scene |]; [| now intros [= <-]].
  intros H. apply scan_crosshair_Return in H.
  destruct H as (q & Hq & Hin & Hd). exists q. split; [exact Hq |].
  split; [| exact Hd]. unfold GetCrosshairNodes in Hin. now apply filter_In in Hin.
Qed.

Lemma FindSliceCompositeNode_Return env r :
  FindSliceCompositeNode env = Return r ->
  forall q, r = Some q ->
    exists sliceNode name,
      MRMLSliceNode env = Some sliceNode
      /\ LayoutName sliceNode = Some name
      /\ is_composite_of env name q.
Proof.
  unfold FindSliceCompositeNode.
  destruct (MRMLScene env) as [scene |]; [| intros [= <-] q Hq; discriminate Hq].
  destruct (MRMLSliceNode env) as [sliceNode |];
    [| intros [= <-] q Hq; discriminate Hq].
  intros H q Hq. apply scan_slice_composite_Return in H.
  destruct H as (q' & name & Hr & Hn & Hcmp). rewrite Hr in Hq. injection Hq as Hq.
  rewrite Hq in Hn. clear Hr Hq q'.
  unfold strcmp_equal in Hcmp.
  destruct (LayoutName sliceNode) as [layout |] eqn:Hl; [| discriminate Hcmp].
  injection Hcmp as Hcmp. apply String.eqb_eq in Hcmp. subst layout.
  exists sliceNode, name. split; [reflexivity |]. split; [exact Hl |].
  exact Hn.
Qed.

(** What a successful [UpdateSliceNode] has bound. *)
Lemma UpdateSliceNode_bound env st st' :
  UpdateSliceNode env st = Return st' ->
  exists found crosshairNode st1,
    FindCrosshairNode env = Return crosshairNode
    /\ st' = SetCrosshairNode crosshairNode st1
    /\ SliceCompositeNode st1 = found
    /\ (st1 = st \/ st1 = SetSliceCompositeNode found st)
    /\ (forall q, found = Some q ->
          exists sliceNode name,
            MRMLSliceNode env = Some sliceNode
            /\ LayoutName sliceNode = Some name
            /\ is_composite_of env name q)
    /\ (MRMLScene env <> None -> MRMLSliceNode env <> None -> found <> None).
Proof.
  unfold UpdateSliceNode.
  destruct (match MRMLSliceNode env with
            | Some sliceNode => _
            | None => _
            end) as [[] | |]; cbn [bind]; try discriminate.
  destruct (match SliceCompositeNode st with
            | Some p => _
            | None => _
            end) as [search | |] eqn:Hsearch; cbn [bind]; try discriminate.
  destruct search.
  - destruct (FindSliceCompositeNode env) as [found | |] eqn:Hfs;
      cbn [bind]; try discriminate.
    destruct (FindCrosshairNode env) as [crosshairNode | |] eqn:Hfc;
      cbn [bind]; try discriminate.
    intros [= <-].
    exists found, crosshairNode, (SetSliceCompositeNode found st).
    split; [reflexivity |]. split; [reflexivity |].
    split; [apply SetSliceCompositeNode_bound |]. split; [now right |].
    split; [exact (FindSliceCompositeNode_Return env found Hfs) |].
    intros Hscene Hslice. unfold FindSliceCompositeNode in Hfs.
    destruct (MRMLScene env); [| now elim Hscene].
    destruct (MRMLSliceNode env); [| now elim Hslice].
    apply scan_slice_composite_Return in Hfs.
    destruct Hfs as (q & _ & -> & _). discriminate.
  - destruct (FindCrosshairNode env) as [crosshairNode | |] eqn:Hfc;
      cbn [bind]; try discriminate.
    intros [= <-].
    exists (SliceCompositeNode st), crosshairNode, st.
    split; [reflexivity |]. split; [reflexivity |]. split; [reflexivity |].
    split; [now left |].
    destruct (SliceCompositeNode st) as [p |]; [| discriminate Hsearch].
    destruct (Nodes env p) as [[[name |] | |] |] eqn:Hn; try discriminate Hsearch.
    destruct (MRMLSliceNode env) as [sliceNode |]; [| discriminate Hsearch].
    unfold strcmp_equal in Hsearch.
    destruct (LayoutName sliceNode) as [layout |] eqn:Hl; [| discriminate Hsearch].
    cbn [bind] in Hsearch. injection Hsearch as Hsearch.
    apply negb_false_iff, String.eqb_eq in Hsearch. subst layout.
    split; [| discriminate].
    intros q [= <-]. exists sliceNode, name.
    split; [reflexivity |]. split; [exact Hl |]. exact Hn.
Qed.

Lemma UpdateSliceNode_observers env st st' :
  observers_exact st -> bindings_typed env st ->
  UpdateSliceNode env st = Return st' ->
  observers_exact st'.
Proof.
  intros Hexact [Htc Htx] Hu.
  apply UpdateSliceNode_bound in Hu.
  destruct Hu as (found & crosshairNode & st1 & Hfc & -> & Hs1 & Hst1 & Hfound & _).
  apply FindCrosshairNode_Return in Hfc.
  assert (Hcomposite : forall q, SliceCompositeNode st1 = Some q ->
                                 exists layout, Nodes env q = Some (AsSliceCompositeNode layout)).
  { intros q Hq. rewrite Hs1 in Hq.
    destruct (Hfound q Hq) as (sn & name & _ & _ & Hc). now exists (Some name). }
  apply SetCrosshairNode_observers.
  - destruct Hst1 as [-> | ->]; [exact Hexact |].
    apply SetSliceCompositeNode_observers; [exact Hexact |].
    intros q Hq Hc. destruct (Hfound q Hq) as (sn & name & _ & _ & Hcomp).
    destruct (Htx q Hc) as (c & Hcross). unfold is_composite_of in Hcomp. congruence.
  - intros q -> Hq. destruct (Hcomposite q Hq) as (layout & Hl).
    destruct (MRMLScene env) as [scene |]; [| discriminate Hfc].
    destruct Hfc as (q' & [= <-] & _ & c & Hc & _). congruence.
Qed.

Lemma run_observers env op st st' :
  observers_exact st -> bindings_typed env st ->
  run env op st = Return st' ->
  observers_exact st'.
Proof.
  intros Hexact Htyped.
  assert (Hsame : forall s, SliceCompositeNode s = SliceCompositeNode st ->
                            CrosshairNode s = CrosshairNode st ->
                            Observers s = Observers st ->
                            observers_exact s).
  { intros s Hs Hc Ho. destruct Hexact as [Hd Hn]. split.
    - intros p. rewrite Hs, Hc. apply Hd.
    - intros p. unfold observed. rewrite Hs, Hc, Ho. apply Hn. }
  destruct op as [| | caller event | mgr]; simpl.
  - apply UpdateSliceNode_observers; assumption.
  - unfold AdditionalInitializeStep. intros H. apply BuildCrosshair_frame in H.
    simpl in H. apply Hsame; tauto.
  - unfold ProcessMRMLEvents.
    destruct (from_updating_scene env caller); [now intros [= <-] |].
    destruct event; try (intros [= <-]; exact Hexact);
      try (apply UpdateSliceNode_observers; assumption).
    destruct (Nodes env caller) as [[| c |] |];
      try (cbn [bind]; intros [= <-]; exact Hexact).
    destruct (CrosshairNodeModified env st) as [sta | |] eqn:Hm;
      cbn [bind]; try discriminate.
    intros [= <-]. apply CrosshairNodeModified_frame in Hm.
    apply Hsame; simpl; tauto.
  - intros [= <-]. exact Hexact.
Qed.

Lemma forget_Some dead weak p :
  forget dead weak = Some p <-> weak = Some p /\ p <> dead.
Proof.
  unfold forget. destruct weak as [w |]; simpl.
  - destruct (Nat.eqb_spec w dead) as [-> | Hne]; split;
      try discriminate; try (intros [[= ->] H]; congruence).
    intros [= ->]. now split.
  - split; [discriminate | now intros [H _]].
Qed.

Lemma Deleted_observers d st :
  observers_exact st -> observers_exact (Deleted d st).
Proof.
  intros [Hd Hn]. destruct d as [node | renderer | proxy]; try (now split).
  split; simpl.
  - intros p Hs Hc. apply forget_Some in Hs. apply forget_Some in Hc.
    exact (Hd p (proj1 Hs) (proj1 Hc)).
  - intros p. unfold observed. simpl. rewrite count_occ_without, Hn.
    unfold observed.
    assert (Hf : forall weak,
               (if ptr_eqb (forget node weak) (Some p) then 1 else 0)%nat
               = if Nat.eqb p node then 0%nat
                 else if ptr_eqb weak (Some p) then 1%nat else 0%nat).
    { intros weak. unfold forget. destruct weak as [w |]; simpl.
      - destruct (Nat.eqb_spec w node) as [Hw | Hw]; simpl;
          destruct (Nat.eqb_spec p node) as [Hp | Hp];
          destruct (Nat.eqb_spec w p) as [Hwp | Hwp]; congruence.
      - now destruct (Nat.eqb p node). }
    rewrite !Hf. now destruct (Nat.eqb p node).
Qed.

Lemma served_observers st : served st -> observers_exact st.
Proof.
  induction 1 as [cache props next | env op st st' _ IH Htyped Hrun | d st _ IH].
  - split; [discriminate | reflexivity].
  - exact (run_observers env op st st' IH Htyped Hrun).
  - exact (Deleted_observers d st IH).
Qed.

(** X13: as long as the pointers the manager holds point to nodes of their
    declared classes, its callback command observes exactly the bound
    nodes, each of them once: a node is observed if and only if it is the
    bound slice composite node or the bound crosshair node, and no node is
    observed twice. *)
Theorem observers_are_the_bound_nodes st :
  served st ->
  NoDup (Observers st)
  /\ forall p, In p (Observers st)
               <-> SliceCompositeNode st = Some p \/ CrosshairNode st = Some p.
Proof.
  intros Hserved. destruct (served_observers st Hserved) as [Hd Hn]. split.
  - apply (NoDup_count_occ Nat.eq_dec). intros p. rewrite Hn. unfold observed.
    repeat match goal with
           | |- context [if ?b then _ else _] => destruct b eqn:?
           end; simpl; try lia.
    repeat match goal with
           | H : ptr_eqb _ _ = true |- _ => apply ptr_eqb_eq in H
           end.
    exfalso. eapply Hd; eassumption.
  - intros p. rewrite (count_occ_In Nat.eq_dec), Hn. unfold observed.
    rewrite <- !ptr_eqb_Some.
    repeat match goal with
           | |- context [if ?b then _ else _] => destruct b eqn:?
           end; simpl; intuition (try lia; try discriminate).
Qed.

Lemma observers_are_the_bound_nodes_witness :
  NoDup (Observers (Sample.bound Sample.fresh))
  /\ forall p, In p (Observers (Sample.bound Sample.fresh))
               <-> SliceCompositeNode (Sample.bound Sample.fresh) = Some p
                   \/ CrosshairNode (Sample.bound Sample.fresh) = Some p.
Proof.
  apply (observers_are_the_bound_nodes (Sample.bound Sample.fresh)).
  apply (served_run (Sample.env Sample.crosshair false) DoCreate
           (SetLightBoxRendererManagerProxy (Some 30%nat)
              (vtkInternal_New Sample.fresh [] 100%nat))).
  - apply (served_run (Sample.env Sample.crosshair false)
             (DoSetLightBoxRendererManagerProxy (Some 30%nat))
             (vtkInternal_New Sample.fresh [] 100%nat)).
    + apply served_new.
    + split; intros p H; discriminate H.
    + reflexivity.
  - split; intros p H; discriminate H.
  - vm_compute. reflexivity.
Defined.

(** X14: what a successful [UpdateSliceNode] leaves bound. Without a scene
    no crosshair node is bound; with a scene, a crosshair node of that
    scene named "default" is. A bound slice composite node has the layout
    name of the slice node, and with a scene and a slice node there is
    one. *)
Theorem UpdateSliceNode_postcondition env st st' :
  UpdateSliceNode env st = Return st' ->
  (MRMLScene env = None -> CrosshairNode st' = None)
  /\ (forall scene, MRMLScene env = Some scene ->
        exists q, CrosshairNode st' = Some q
                  /\ In q (CurrentScene scene) /\ is_default_crosshair env q)
  /\ (forall p, SliceCompositeNode st' = Some p ->
        exists sliceNode name,
          MRMLSliceNode env = Some sliceNode
          /\ LayoutName sliceNode = Some name
          /\ is_composite_of env name p)
  /\ (MRMLScene env <> None -> MRMLSliceNode env <> None ->
      SliceCompositeNode st' <> None).
Proof.
  intros Hu. apply UpdateSliceNode_bound in Hu.
  destruct Hu as (found & crosshairNode & st1 & Hfc & -> & Hs1 & _ & Hfound & Hsome).
  apply FindCrosshairNode_Return in Hfc.
  rewrite SetCrosshairNode_bound, SetCrosshairNode_SliceCompositeNode, Hs1.
  split; [| split; [| split]].
  - intros Hnone. now rewrite Hnone in Hfc.
  - intros scene Hscene. rewrite Hscene in Hfc.
    destruct Hfc as (q & -> & Hin & Hd). now exists q.
  - exact Hfound.
  - exact Hsome.
Qed.

Lemma UpdateSliceNode_postcondition_witness :
  exists q, CrosshairNode (Sample.bound Sample.fresh) = Some q
            /\ In q (CurrentScene (Sample.scene false))
            /\ is_default_crosshair (Sample.env Sample.crosshair false) q.
Proof.
  apply (proj1 (proj2 (UpdateSliceNode_postcondition
                         (Sample.env Sample.crosshair false)
                         (SetLightBoxRendererManagerProxy (Some 30%nat)
                            (vtkInternal_New Sample.fresh [] 100%nat))
                         (Sample.bound Sample.fresh) eq_refl))
           (Sample.scene false)).
  reflexivity.
Defined.

Lemma Segments_CrosshairProperties node size a :
  Segments (CrosshairProperties node
              (SetGeometry (CrosshairLines (CrosshairMode node) size) a))
  = mode_segments (CrosshairMode node) (fst size) (snd size).
Proof.
  destruct size as [w h]. unfold CrosshairProperties, Segments.
  repeat match goal with |- context [if ?b then _ else _] => destruct b end;
    simpl; destruct (CrosshairMode node); reflexivity.
Qed.

(** X15: [AdditionalInitializeStep] run after a successful [Create] in a
    scene, with the screen size at hand, always builds a glyph: the actor
    shows the segments of the mode of the scene's "default" crosshair
    node, which is the node bound. *)
Theorem Create_then_AdditionalInitializeStep env scene size st st1 :
  MRMLScene env = Some scene ->
  ScreenSize env = Some size ->
  Create env st = Return st1 ->
  exists st2 actor q node,
    AdditionalInitializeStep env st1 = Return st2
    /\ Actor st2 = Some actor
    /\ CrosshairNode st2 = Some q
    /\ In q (CurrentScene scene)
    /\ Nodes env q = Some (AsCrosshairNode node)
    /\ CrosshairName node = Some default_name
    /\ Segments actor = mode_segments (CrosshairMode node) (fst size) (snd size).
Proof.
  intros Hscene Hsize Hc. unfold Create in Hc.
  apply UpdateSliceNode_bound in Hc.
  destruct Hc as (found & crosshairNode & st0 & Hfc & -> & _).
  apply FindCrosshairNode_Return in Hfc. rewrite Hscene in Hfc.
  destruct Hfc as (q & -> & Hin & node & Hn & Hname).
  set (st1 := AddInteractorStyleObservableEvent MouseMoveEvent
                (SetCrosshairNode (Some q) st0)).
  assert (Hp : CrosshairNode st1 = Some q)
    by (unfold st1; simpl; apply SetCrosshairNode_bound).
  destruct (BuildCrosshair_bound env st1 q node size Hp Hn Hsize)
    as (st2 & work & Hb & Ha & _ & Hp2 & _).
  exists st2. eexists. exists q, node.
  split; [exact Hb |]. split; [exact Ha |]. split; [congruence |].
  split; [exact Hin |]. split; [exact Hn |]. split; [exact Hname |].
  apply Segments_CrosshairProperties.
Qed.

Lemma Create_then_AdditionalInitializeStep_witness :
  exists st2 actor q node,
    AdditionalInitializeStep (Sample.env Sample.crosshair false)
      (Sample.bound Sample.fresh) = Return st2
    /\ Actor st2 = Some actor
    /\ CrosshairNode st2 = Some q
    /\ In q (CurrentScene (Sample.scene false))
    /\ Nodes (Sample.env Sample.crosshair false) q = Some (AsCrosshairNode node)
    /\ CrosshairName node = Some default_name
    /\ Segments actor = mode_segments (CrosshairMode node) 800 600.
Proof.
  apply (Create_then_AdditionalInitializeStep (Sample.env Sample.crosshair false)
           (Sample.scene false) (800, 600)
           (SetLightBoxRendererManagerProxy (Some 30%nat)
              (vtkInternal_New Sample.fresh [] 100%nat))
           (Sample.bound Sample.fresh));
    vm_compute; reflexivity.
Defined.

(** ** The destructor *)

Lemma UpdateSliceNode_frame_sets a b s :
  let s' := SetCrosshairNode a (SetSliceCompositeNode b s) in
  Actor s' = Actor s
  /\ CrosshairNodeCache s' = CrosshairNodeCache s
  /\ LightBoxRenderer s' = LightBoxRenderer s
  /\ LightBoxRendererManagerProxy s' = LightBoxRendererManagerProxy s
  /\ Attached s' = Attached s
  /\ NextActor s' = NextActor s
  /\ Trace s' = Trace s.
Proof.
  unfold SetCrosshairNode, SetSliceCompositeNode.
  destruct (ptr_eqb (SliceCompositeNode s) b);
    [| destruct (SliceCompositeNode s), b]; simpl;
    (destruct (ptr_eqb (CrosshairNode s) a);
     [| destruct (CrosshairNode s), a]); simpl; now split_all.
Qed.

Lemma SetCrosshairNode_None_Observers st :
  Observers (SetCrosshairNode None st)
  = match CrosshairNode st with
    | Some old => filter (fun s => negb (Nat.eqb s old)) (Observers st)
    | None => Observers st
    end.
Proof. unfold SetCrosshairNode. now destruct (CrosshairNode st). Qed.

Lemma SetSliceCompositeNode_None_Observers st :
  Observers (SetSliceCompositeNode None st)
  = match SliceCompositeNode st with
    | Some old => filter (fun s => negb (Nat.eqb s old)) (Observers st)
    | None => Observers st
    end.
Proof. unfold SetSliceCompositeNode. now destruct (SliceCompositeNode st). Qed.

Lemma In_without old l p :
  In p (filter (fun s => negb (Nat.eqb s old)) l) <-> In p l /\ p <> old.
Proof.
  rewrite filter_In. rewrite negb_true_iff, Nat.eqb_neq. reflexivity.
Qed.

(** X16: the destructor always passes its assertion. It leaves nothing
    bound and no observer on the nodes that were bound, adds no observer,
    and tells no renderer: a glyph that sits in a renderer stays there. If
    only the bound nodes were observed, no observer is left at all. *)
Theorem vtkInternal_Delete_releases st :
  exists st',
    vtkInternal_Delete st = Return st'
    /\ SliceCompositeNode st' = None
    /\ CrosshairNode st' = None
    /\ LightBoxRenderer st' = None
    /\ LightBoxRendererManagerProxy st' = None
    /\ Attached st' = Attached st
    /\ Trace st' = Trace st
    /\ (forall p, In p (Observers st') <->
                  In p (Observers st)
                  /\ SliceCompositeNode st <> Some p /\ CrosshairNode st <> Some p)
    /\ ((forall p, In p (Observers st) ->
                   SliceCompositeNode st = Some p \/ CrosshairNode st = Some p) ->
        Observers st' = []).
Proof.
  set (s1 := SetSliceCompositeNode None st).
  set (s2 := SetCrosshairNode None s1).
  assert (H2s : SliceCompositeNode s2 = None).
  { unfold s2. rewrite SetCrosshairNode_SliceCompositeNode.
    apply SetSliceCompositeNode_bound. }
  assert (H2c : CrosshairNode s2 = None) by apply SetCrosshairNode_bound.
  assert (Hobs : forall p, In p (Observers s2) <->
                           In p (Observers st)
                           /\ SliceCompositeNode st <> Some p
                           /\ CrosshairNode st <> Some p).
  { intros p. unfold s2. rewrite SetCrosshairNode_None_Observers.
    unfold s1 at 1. rewrite SetSliceCompositeNode_CrosshairNode.
    unfold s1. rewrite SetSliceCompositeNode_None_Observers.
    destruct (CrosshairNode st) as [c |], (SliceCompositeNode st) as [s |];
      rewrite ?In_without; intuition congruence. }
  assert (Hframe : Attached s2 = Attached st /\ Trace s2 = Trace st).
  { destruct (UpdateSliceNode_frame_sets None None st) as (_ & _ & _ & _ & Ha & _ & Ht).
    split; assumption. }
  exists (set_LightBoxRendererManagerProxy None (set_LightBoxRenderer None s2)).
  split.
  { unfold vtkInternal_Delete. fold s1. fold s2.
    cbn [SliceCompositeNode set_LightBoxRendererManagerProxy set_LightBoxRenderer].
    now rewrite H2s. }
  simpl. split; [exact H2s |]. split; [exact H2c |].
  split; [reflexivity |]. split; [reflexivity |].
  split; [apply Hframe |]. split; [apply Hframe |].
  split; [exact Hobs |].
  intros Honly.
  assert (Hnone : forall p, ~ In p (Observers s2)).
  { intros p Hin. apply Hobs in Hin. destruct Hin as (Hin & Hs & Hc).
    destruct (Honly p Hin); contradiction. }
  destruct (Observers s2) as [| p l]; [reflexivity |].
  exfalso. apply (Hnone p). now left.
Qed.

(** ** A position that is not a number *)

Lemma is_nan_Prim2SF x : is_nan x = true -> Prim2SF x = S754_nan.
Proof.
  unfold is_nan. rewrite FloatAxioms.eqb_spec, negb_true_iff.
  unfold SFeqb, SFcompare.
  destruct (Prim2SF x) as [s | s | | s m e]; try reflexivity.
  - discriminate.
  - destruct s; discriminate.
  - rewrite Z.compare_refl.
    change (PosDef.Pos.compare_cont Eq m m) with (Pos.compare m m).
    rewrite Pos.compare_refl. destruct s; discriminate.
Qed.

Lemma float_sub_nan_not_below c x :
  is_nan x = true -> (PrimFloat.abs (c - x) <? eps)%float = false.
Proof.
  intros H. rewrite ltb_spec, abs_spec, sub_spec, (is_nan_Prim2SF x H).
  destruct (Prim2SF c) as [s | s | | s m e]; reflexivity.
Qed.

(** X17: a bound crosshair node with a coordinate that is not a number
    always reads as moved, whatever the cache holds, and so also right
    after the cache was refreshed from that very node. *)
Theorem DidCrosshairPositionChange_nan env st p node :
  CrosshairNode st = Some p ->
  Nodes env p = Some (AsCrosshairNode node) ->
  nan_position node = true ->
  DidCrosshairPositionChange env st = Return true
  /\ DidCrosshairPositionChange env (set_CrosshairNodeCache node st) = Return true.
Proof.
  intros Hp Hn Hnan.
  assert (H : forall s, CrosshairNode s = Some p ->
                        DidCrosshairPositionChange env s = Return true).
  { intros s Hs. rewrite (DidCrosshairPositionChange_bound env s p node Hs Hn).
    unfold deltas, nan_position in *.
    destruct (CrosshairRAS (CrosshairNodeCache s)) as [[c0 c1] c2].
    destruct (CrosshairRAS node) as [[r0 r1] r2].
    apply orb_true_iff in Hnan. destruct Hnan as [Hnan | H2].
    - apply orb_true_iff in Hnan. destruct Hnan as [H0 | H1].
      + now rewrite (float_sub_nan_not_below c0 r0 H0).
      + rewrite (float_sub_nan_not_below c1 r1 H1). now rewrite andb_false_r.
    - rewrite (float_sub_nan_not_below c2 r2 H2). now rewrite andb_false_r. }
  split; apply H; [exact Hp | exact Hp].
Qed.

Lemma DidCrosshairPositionChange_nan_witness :
  DidCrosshairPositionChange (Sample.env Sample.lost false)
    (Sample.bound Sample.lost) = Return true
  /\ DidCrosshairPositionChange (Sample.env Sample.lost false)
       (set_CrosshairNodeCache Sample.lost (Sample.bound Sample.lost)) = Return true.
Proof.
  apply (DidCrosshairPositionChange_nan (Sample.env Sample.lost false)
           (Sample.bound Sample.lost) 10%nat Sample.lost);
    reflexivity.
Defined.

(** ** Changing the bound node *)

(** X18: binding another node (or none) in place of the bound one moves
    the observer: none is left on the node bound before, there is one on
    the node bound now, and the observers on every other node are as many
    as before. This holds for the slice composite node and for the
    crosshair node alike. *)
Theorem Set_nodes_move_the_observer n st :
  (CrosshairNode st <> n ->
   CrosshairNode (SetCrosshairNode n st) = n
   /\ (forall old, CrosshairNode st = Some old ->
                   ~ In old (Observers (SetCrosshairNode n st)))
   /\ (forall new, n = Some new -> In new (Observers (SetCrosshairNode n st)))
   /\ (forall p, CrosshairNode st <> Some p -> n <> Some p ->
                 count_occ Nat.eq_dec (Observers (SetCrosshairNode n st)) p
                 = count_occ Nat.eq_dec (Observers st) p))
  /\ (SliceCompositeNode st <> n ->
      SliceCompositeNode (SetSliceCompositeNode n st) = n
      /\ (forall old, SliceCompositeNode st = Some old ->
                      ~ In old (Observers (SetSliceCompositeNode n st)))
      /\ (forall new, n = Some new ->
                      In new (Observers (SetSliceCompositeNode n st)))
      /\ (forall p, SliceCompositeNode st <> Some p -> n <> Some p ->
                    count_occ Nat.eq_dec (Observers (SetSliceCompositeNode n st)) p
                    = count_occ Nat.eq_dec (Observers st) p)).
Proof.
  assert (Hmove : forall (old : option ptr) l,
             old <> n ->
             let l' := match old with
                       | Some o => filter (fun s => negb (Nat.eqb s o)) l
                       | None => l
                       end ++ match n with Some new => [new] | None => [] end in
             (forall o, old = Some o -> ~ In o l')
             /\ (forall new, n = Some new -> In new l')
             /\ (forall p, old <> Some p -> n <> Some p ->
                           count_occ Nat.eq_dec l' p = count_occ Nat.eq_dec l p)).
  { intros old l Hne l'. unfold l'. split; [| split].
    - intros o ->. rewrite in_app_iff, In_without. intros [[_ H] | H]; [now elim H |].
      destruct n as [new |]; simpl in H; [| exact H].
      destruct H as [-> | []]. now elim Hne.
    - intros new ->. apply in_or_app. right. now left.
    - intros p Ho Hn. rewrite count_occ_app.
      assert (Hlast : count_occ Nat.eq_dec
                        match n with Some new => [new] | None => [] end p = 0%nat).
      { destruct n as [new |]; simpl; [| reflexivity].
        destruct (Nat.eq_dec new p); [congruence | reflexivity]. }
      rewrite Hlast, Nat.add_0_r. destruct old as [o |]; [| reflexivity].
      rewrite count_occ_without.
      destruct (Nat.eqb_spec p o); [congruence | reflexivity]. }
  assert (Hneq : forall a : option ptr, a <> n -> ptr_eqb a n = false).
  { intros a Ha. destruct (ptr_eqb a n) eqn:E; [| reflexivity].
    apply ptr_eqb_eq in E. contradiction. }
  split; intros Hne.
  - rewrite (SetCrosshairNode_Observers n st (Hneq _ Hne)).
    split; [apply SetCrosshairNode_bound |]. apply (Hmove _ _ Hne).
  - rewrite (SetSliceCompositeNode_Observers n st (Hneq _ Hne)).
    split; [apply SetSliceCompositeNode_bound |]. apply (Hmove _ _ Hne).
Qed.

Lemma Set_nodes_move_the_observer_witness :
  CrosshairNode (SetCrosshairNode (Some 12%nat) (Sample.bound Sample.fresh))
  = Some 12%nat
  /\ (forall old, CrosshairNode (Sample.bound Sample.fresh) = Some old ->
        ~ In old (Observers (SetCrosshairNode (Some 12%nat) (Sample.bound Sample.fresh))))
  /\ (forall new, Some 12%nat = Some new ->
        In new (Observers (SetCrosshairNode (Some 12%nat) (Sample.bound Sample.fresh))))
  /\ (forall p, CrosshairNode (Sample.bound Sample.fresh) <> Some p ->
        Some 12%nat <> Some p ->
        count_occ Nat.eq_dec
          (Observers (SetCrosshairNode (Some 12%nat) (Sample.bound Sample.fresh))) p
        = count_occ Nat.eq_dec (Observers (Sample.bound Sample.fresh)) p).
Proof.
  apply (proj1 (Set_nodes_move_the_observer (Some 12%nat) (Sample.bound Sample.fresh))).
  discriminate.
Defined.

(** ** Missing collaborators *)

(** X19: what the manager dereferences without a test. [BuildCrosshair]
    with a crosshair node bound needs the interactor's render window for
    the screen size, and a pose update needs the slice node: without them
    the behaviour is undefined (a null pointer is dereferenced), and the
    handler does not return. *)
Theorem missing_collaborators_are_dereferenced env st p node :
  CrosshairNode st = Some p ->
  Nodes env p = Some (AsCrosshairNode node) ->
  (ScreenSize env = None -> BuildCrosshair env st = Undefined)
  /\ (forall caller c size,
        from_updating_scene env caller = false ->
        Nodes env caller = Some (AsCrosshairNode c) ->
        ScreenSize env = Some size ->
        MRMLSliceNode env = None ->
        DidCrosshairPropertyChange env st = Return true
        \/ (DidCrosshairPositionChange env st = Return true /\ Actor st <> None) ->
        ProcessMRMLEvents env caller ModifiedEvent st = Undefined).
Proof.
  intros Hp Hn. split.
  - intros Hs. unfold BuildCrosshair. now rewrite Hp, Hs.
  - intros caller c size Hfrom Hcaller Hz Hs Hdue.
    assert (Hplace : forall s a, PlaceActor env a s = Undefined)
      by (intros s a; unfold PlaceActor; now rewrite Hs).
    unfold ProcessMRMLEvents. rewrite Hfrom, Hcaller.
    unfold CrosshairNodeModified.
    destruct Hdue as [Hprop | [Hpos Hact]].
    + rewrite Hprop. cbn [bind].
      destruct (BuildCrosshair_bound env st p node size Hp Hn Hz)
        as (st1 & work & Hb & Ha & _ & Hp1 & Hc1 & _).
      rewrite Hb. cbn [bind]. rewrite Hp in Hp1.
      rewrite (DidCrosshairPositionChange_bound env st1 p node Hp1 Hn).
      destruct (deltas _ _) as [[d0 d1] d2]. cbn [bind].
      rewrite Ha, orb_true_r, Hplace. reflexivity.
    + rewrite (DidCrosshairPropertyChange_bound env st p node Hp Hn).
      cbn [bind].
      destruct (_ || _) eqn:Hchange.
      * destruct (BuildCrosshair_bound env st p node size Hp Hn Hz)
          as (st1 & work & Hb & Ha & _ & Hp1 & Hc1 & _).
        rewrite Hb. cbn [bind]. rewrite Hp in Hp1.
        rewrite (DidCrosshairPositionChange_bound env st1 p node Hp1 Hn).
        destruct (deltas _ _) as [[d0 d1] d2]. cbn [bind].
        rewrite Ha, orb_true_r, Hplace. reflexivity.
      * cbn [bind]. rewrite Hpos. cbn [bind orb].
        destruct (Actor st) as [actor |]; [| now elim Hact].
        rewrite Hplace. reflexivity.
Qed.

Lemma missing_collaborators_are_dereferenced_witness :
  BuildCrosshair
    {| MRMLScene := Some (Sample.scene false); Nodes := Sample.nodes Sample.crosshair;
       MRMLSliceNode := Some Sample.red; ScreenSize := None;
       Invert := Sample.invert; GetRenderer := Sample.lightbox |}
    (Sample.bound Sample.fresh) = Undefined.
Proof.
  apply (proj1 (missing_collaborators_are_dereferenced
                  {| MRMLScene := Some (Sample.scene false);
                     Nodes := Sample.nodes Sample.crosshair;
                     MRMLSliceNode := Some Sample.red; ScreenSize := None;
                     Invert := Sample.invert; GetRenderer := Sample.lightbox |}
                  (Sample.bound Sample.fresh) 10%nat Sample.crosshair
                  eq_refl eq_refl)).
  reflexivity.
Defined.

(** X20: how [UpdateSliceNode] fails. A slice node without a layout name
    fails the assertion at entry; a bound slice composite node with a
    layout name, and no slice node to compare it with, is a null
    dereference; and in a scene without a crosshair node named "default"
    the function never returns normally. *)
Theorem UpdateSliceNode_failures env st :
  (forall sliceNode,
      MRMLSliceNode env = Some sliceNode -> LayoutName sliceNode = None ->
      UpdateSliceNode env st = AssertionFailed)
  /\ (forall p name,
        MRMLSliceNode env = None ->
        SliceCompositeNode st = Some p ->
        Nodes env p = Some (AsSliceCompositeNode (Some name)) ->
        UpdateSliceNode env st = Undefined)
  /\ (forall scene,
        MRMLScene env = Some scene ->
        (forall q, In q (CurrentScene scene) -> ~ is_default_crosshair env q) ->
        forall st', UpdateSliceNode env st <> Return st').
Proof.
  split; [| split].
  - intros sliceNode Hs Hl. unfold UpdateSliceNode. now rewrite Hs, Hl.
  - intros p name Hs Hp Hn. unfold UpdateSliceNode. now rewrite Hs, Hp, Hn.
  - intros scene Hscene Hnone st' Hu.
    apply UpdateSliceNode_bound in Hu.
    destruct Hu as (found & crosshairNode & st1 & Hfc & _).
    apply FindCrosshairNode_Return in Hfc. rewrite Hscene in Hfc.
    destruct Hfc as (q & _ & Hin & Hd). exact (Hnone q Hin Hd).
Qed.

Lemma UpdateSliceNode_failures_witness :
  MRMLScene (Sample.env Sample.fresh false) = Some (Sample.scene false)
  /\ forall st', UpdateSliceNode (Sample.env Sample.fresh false)
                   (Sample.bound Sample.fresh) <> Return st'.
Proof.
  split; [reflexivity |].
  apply (proj2 (proj2 (UpdateSliceNode_failures (Sample.env Sample.fresh false)
                         (Sample.bound Sample.fresh)))
           (Sample.scene false) eq_refl).
  intros q Hin (c & Hc & Hname).
  simpl in Hin. destruct Hin as [<- | [<- | [<- | []]]];
    simpl in Hc; try discriminate Hc.
  injection Hc as <-. discriminate Hname.
Defined.
